(** * ocrschema: template matching and template documents

    A shallow embedding of [internal/pkg/ocrschema/schema.go] together with
    the facts proved about it.  Go values are rendered as follows:

    - [int] is a [Z] (64-bit, wrap-around written out where the code adds),
      [uint64] is a [Z] reduced modulo [2^64], [float64] is an IEEE binary64
      value ([spec_float]);
    - [string] is a [string] (a sequence of bytes); where a string goes
      through JSON it is taken to hold valid UTF-8, which the encoder
      writes and the decoder reads back unchanged;
    - a pointer [*T] is an [option T], [None] being [nil]; an interface value
      of type [image.Image] is an [option Image]; the receiver of a method
      of a template is taken to be non-nil;
    - a slice is the list of its elements ([nil] and the empty slice are
      both [[]]); a map is a [gmap];
    - a byte slice holding JSON text is the document it spells ([json]);
      only [LoadTemplate] starts from raw file bytes;
    - a call that may panic returns an [outcome]; the matcher lives in the
      monad [M], which also records the calls made to the external hash and
      crop primitives and to the logger.

    The libraries the file calls are modelled as far as the program uses
    them: [strconv.ParseUint], [goimagehash]'s hashes and distance,
    [image.Rect], and [encoding/json] at the types of schema.go.  The pixel
    computation of the difference hash, the crop primitive
    ([imgutils.CropImage]), the file system and the JSON scanner are
    parameters. *)

From Stdlib Require Import ZArith Lia ZifyBool Bool Ascii.
From Stdlib Require Import Floats.SpecFloat.
From stdpp Require Import base option list strings gmap sorting.

Local Open Scope Z_scope.
Set Warnings "-register-all".

(** ** Go runtime *)

Inductive panic :=
| NilDereference
| IndexOutOfRange (index length : Z)
| InterfaceConversion (wanted : string).

Inductive outcome (A : Type) :=
| Returns (a : A)
| Panics (p : panic).
Arguments Returns {A} a.
Arguments Panics {A} p.

Global Instance outcome_ret : MRet outcome := fun A a => Returns a.
Global Instance outcome_bind : MBind outcome := fun A B f m =>
  match m with
  | Returns a => f a
  | Panics p => Panics p
  end.

(** The kinds of JSON value an [UnmarshalTypeError] names. *)
Inductive jkind := KBool | KNumber | KString | KArray | KObject.

Inductive error :=
| ErrorString (msg : string)
| PathError (msg : string)
| SyntaxError (msg : string)
| UnmarshalTypeError (value : jkind) (gotype : string).

Definition wrap_uint64 (z : Z) : Z := z mod 2 ^ 64.
Definition wrap_int (z : Z) : Z := (z + 2 ^ 63) mod 2 ^ 64 - 2 ^ 63.
Definition is_int (z : Z) : bool := (- 2 ^ 63 <=? z) && (z <? 2 ^ 63).

(** [v[i]] on a slice *)
Definition index {A} (v : list A) (i : nat) : outcome A :=
  match v !! i with
  | Some x => Returns x
  | None => Panics (IndexOutOfRange (Z.of_nat i) (Z.of_nat (length v)))
  end.

(** ** float64 *)

Definition float64 := spec_float.

(** The nearest float64 of an integer (round to nearest, ties to even). *)
Definition float64_of_Z (z : Z) : float64 := binary_normalize 53 1024 z 0 false.

(** The integer a float64 denotes, when it denotes one. *)
Definition float64_integer (f : float64) : option Z :=
  match f with
  | S754_zero _ => Some 0
  | S754_finite s m e =>
      if 0 <=? e then Some (cond_Zopp s (Z.pos m * 2 ^ e))
      else if Z.pos m mod 2 ^ (- e) =? 0 then Some (cond_Zopp s (Z.pos m / 2 ^ (- e)))
      else None
  | _ => None
  end.

(** The conversion [int(f)]: the fraction is discarded.  For a value that
    does not fit an [int] the language leaves the result to the
    implementation; amd64 yields the smallest [int]. *)
Definition int_of_float64 (f : float64) : Z :=
  match f with
  | S754_zero _ => 0
  | S754_finite s m e =>
      let v := if 0 <=? e then Z.pos m * 2 ^ e else Z.pos m / 2 ^ (- e) in
      if is_int (cond_Zopp s v) then cond_Zopp s v else - 2 ^ 63
  | _ => - 2 ^ 63
  end.

(** ** strconv.ParseUint, at base 16 and bit size 64 (Go standard library) *)

Module strconv.

Inductive NumError := ErrSyntax | ErrRange.

Definition maxUint64 : Z := 2 ^ 64 - 1.

(** [lower(c) = c | ('x' - 'X')] *)
Definition lower (c : Z) : Z := Z.lor c (120 - 88).

(** The digit value of a byte, before it is compared with the base. *)
Definition digit (c : Z) : option Z :=
  if (48 <=? c) && (c <=? 57) then Some (c - 48)
  else if (97 <=? lower c) && (lower c <=? 122) then Some (lower c - 97 + 10)
  else None.

Definition base : Z := 16.
Definition cutoff : Z := maxUint64 / base + 1.
Definition maxVal : Z := 2 ^ 64 - 1.

(** The loop [for _, c := range []byte(s)], with accumulator [n]. *)
Fixpoint ParseUint_loop (s : string) (n : Z) : Z * option NumError :=
  match s with
  | EmptyString => (n, None)
  | String c s' =>
      match digit (Z.of_N (N_of_ascii c)) with
      | None => (0, Some ErrSyntax)
      | Some d =>
          if d >=? base then (0, Some ErrSyntax)
          else if n >=? cutoff then (maxVal, Some ErrRange)
          else
            let n := wrap_uint64 (n * base) in
            let n1 := wrap_uint64 (n + d) in
            if (n1 <? n) || (n1 >? maxVal) then (maxVal, Some ErrRange)
            else ParseUint_loop s' n1
      end
  end.

(** [strconv.ParseUint(s, 16, 64)] *)
Definition ParseUint (s : string) : Z * option NumError :=
  match s with
  | EmptyString => (0, Some ErrSyntax)
  | _ => ParseUint_loop s 0
  end.

End strconv.

(** ** goimagehash (external library): 64-bit hashes and their distance *)

Module goimagehash.

Inductive Kind := Unknown | AHash | PHash | DHash | WHash.

Definition Kind_eqb (a b : Kind) : bool :=
  match a, b with
  | Unknown, Unknown | AHash, AHash | PHash, PHash
  | DHash, DHash | WHash, WHash => true
  | _, _ => false
  end.

Record ImageHash := NewImageHash { GetHash : Z; GetKind : Kind }.

(** [bits.OnesCount64] *)
Definition popcnt (x : Z) : Z :=
  fold_right (fun i acc => Z.b2z (Z.testbit x (Z.of_nat i)) + acc) 0 (seq 0 64).

(** [func (h *ImageHash) Distance(other *ImageHash) (int, error)]: both
    pointers are dereferenced to read their kind. *)
Definition Distance (h other : option ImageHash) : outcome (Z * option error) :=
  match h, other with
  | Some h, Some other =>
      if Kind_eqb (GetKind h) (GetKind other)
      then Returns (popcnt (Z.lxor (GetHash h) (GetHash other)), None)
      else Returns (-1, Some (ErrorString "Image hashes's kind should be identical"))
  | _, _ => Panics NilDereference
  end.

End goimagehash.
Import goimagehash.

(** ** image.Rectangle *)

Record Point := Pt { PX : Z; PY : Z }.
Record Rectangle := { Min : Point; Max : Point }.

(** [image.Rect]: the corners are swapped where needed so that
    [Min.X <= Max.X] and [Min.Y <= Max.Y]. *)
Definition Rect (x0 y0 x1 y1 : Z) : Rectangle :=
  let '(x0, x1) := if x0 >? x1 then (x1, x0) else (x0, x1) in
  let '(y0, y1) := if y0 >? y1 then (y1, y0) else (y0, y1) in
  {| Min := Pt x0 y0; Max := Pt x1 y1 |}.

(** ** encoding/json (Go standard library), at the types of this program *)

(** A number literal is kept as what [strconv] reads from its text. *)
Inductive number :=
| IntLit (z : Z)
  (** an optional minus sign and decimal digits: the text of [z], as an
      [int] is printed *)
| FloatLit (f : float64)
  (** the text a finite [float64] is printed as: the shortest decimal that
      reads back as [f] *)
| RealLit (r : option float64).
  (** any other text with a fraction or an exponent, with its [float64]
      reading ([None]: out of range) *)

Inductive json :=
| JNull
| JBool (b : bool)
| JNumber (n : number)
| JString (s : string)
| JArray (l : list json)
| JObject (members : list (string * json)).

(** Go values held in an [interface{}]. *)
Inductive iface :=
| INil
| IBool (b : bool)
| IInt (n : Z)
| IFloat64 (f : float64)
| IString (s : string)
| IStrings (l : list string)
| ISlice (l : list iface)
| IMap (m : gmap string iface).

Definition json_kind (j : json) : option jkind :=
  match j with
  | JNull => None
  | JBool _ => Some KBool
  | JNumber _ => Some KNumber
  | JString _ => Some KString
  | JArray _ => Some KArray
  | JObject _ => Some KObject
  end.

(** [strconv.ParseFloat(text, 64)]; [None] is a range error. *)
Definition ParseFloat (n : number) : option float64 :=
  match n with
  | IntLit z =>
      match float64_of_Z z with
      | S754_infinity _ | S754_nan => None
      | f => Some f
      end
  | FloatLit f => Some f
  | RealLit r => r
  end.

(** [strconv.ParseInt(text, 10, 64)]; [None] is a syntax or range error. *)
Definition ParseInt (n : number) : option Z :=
  match n with
  | IntLit z => if is_int z then Some z else None
  | FloatLit f =>
      match float64_integer f with
      | Some z => if is_int z then Some z else None
      | None => None
      end
  | RealLit _ => None
  end.

(** The first error the decoder saves; later ones are dropped. *)
Definition saveError (saved : option error) (e : error) : option error :=
  match saved with
  | Some e0 => Some e0
  | None => Some e
  end.

(** [valueInterface]: the value a document decodes to in an [interface{}].
    A number that does not fit a [float64] leaves [nil] and saves an error
    (see [number_error]). *)
Fixpoint valueInterface (j : json) : iface :=
  match j with
  | JNull => INil
  | JBool b => IBool b
  | JNumber n => match ParseFloat n with Some f => IFloat64 f | None => INil end
  | JString s => IString s
  | JArray l => ISlice (map valueInterface l)
  | JObject l => IMap (fold_left (fun m kv => <[kv.1 := valueInterface kv.2]> m) l ∅)
  end.

(** Whether [valueInterface] meets a number out of the range of [float64]. *)
Fixpoint number_error (j : json) : bool :=
  match j with
  | JNumber n => match ParseFloat n with Some _ => false | None => true end
  | JArray l => existsb number_error l
  | JObject l => existsb (fun kv => number_error kv.2) l
  | _ => false
  end.

Definition range_error : error := UnmarshalTypeError KNumber "float64".

(** The result of decoding into a value that already exists: the new value
    and the saved error; or the value as far as it was filled when a custom
    unmarshaller returned an error; or a panic. *)
Inductive dres (A : Type) :=
| DOk (a : A) (saved : option error)
| DFail (a : A) (e : error)
| DPanic (p : panic).
Arguments DOk {A} a saved.
Arguments DFail {A} a e.
Arguments DPanic {A} p.

Definition dmap {A B} (f : A -> B) (r : dres A) : dres B :=
  match r with
  | DOk a s => DOk (f a) s
  | DFail a e => DFail (f a) e
  | DPanic p => DPanic p
  end.

(** A decoder reads a document into the current value of its target. *)
Definition decoder (A : Type) := json -> A -> option error -> dres A.

Definition mismatch {A} (j : json) (gotype : string) (cur : A) (saved : option error) : dres A :=
  match json_kind j with
  | Some k => DOk cur (saveError saved (UnmarshalTypeError k gotype))
  | None => DOk cur saved
  end.

Definition decode_string : decoder string := fun j cur saved =>
  match j with
  | JString s => DOk s saved
  | _ => mismatch j "string" cur saved
  end.

Definition decode_int : decoder Z := fun j cur saved =>
  match j with
  | JNumber n =>
      match ParseInt n with
      | Some z => DOk z saved
      | None => DOk cur (saveError saved (UnmarshalTypeError KNumber "int"))
      end
  | _ => mismatch j "int" cur saved
  end.

Definition decode_iface : decoder iface := fun j cur saved =>
  match j with
  | JNumber n =>
      match ParseFloat n with
      | Some f => DOk (IFloat64 f) saved
      | None => DOk cur (saveError saved range_error)
      end
  | _ => DOk (valueInterface j)
           (if number_error j then saveError saved range_error else saved)
  end.

(** The elements of an array, each decoded into the element the slice
    already has at its index, or into a zero value.  (A slice that was once
    longer keeps stale elements between its length and its capacity; that
    needs the same key three times in one object and is left out.) *)
Fixpoint decode_elems {A} (dec : decoder A) (zero : A)
    (l : list json) (cur : list A) (saved : option error) : dres (list A) :=
  match l with
  | [] => DOk [] saved
  | j :: l' =>
      match dec j (hd zero cur) saved with
      | DOk a saved' => dmap (cons a) (decode_elems dec zero l' (tl cur) saved')
      | DFail a e => DFail (a :: tl cur) e
      | DPanic p => DPanic p
      end
  end.

Definition decode_slice {A} (gotype : string) (dec : decoder A) (zero : A) : decoder (list A) :=
  fun j cur saved =>
    match j with
    | JArray l => decode_elems dec zero l cur saved
    | JNull => DOk [] saved
    | _ => mismatch j gotype cur saved
    end.

(** The members of an object, in order, each handed to [field]. *)
Fixpoint decode_members {A} (field : string -> decoder A)
    (l : list (string * json)) (cur : A) (saved : option error) : dres A :=
  match l with
  | [] => DOk cur saved
  | (k, j) :: l' =>
      match field k j cur saved with
      | DOk a saved' => decode_members field l' a saved'
      | r => r
      end
  end.

Definition decode_struct {A} (gotype : string) (field : string -> decoder A) : decoder A :=
  fun j cur saved =>
    match j with
    | JObject l => decode_members field l cur saved
    | _ => mismatch j gotype cur saved
    end.

(** A map: every member is decoded into a fresh zero value, then stored. *)
Definition decode_map {A} (gotype : string) (dec : decoder A) (zero : A) :
  decoder (gmap string A) :=
  fun j cur saved =>
    match j with
    | JObject l =>
        decode_members (fun k j m saved =>
                          match dec j zero saved with
                          | DOk a s => DOk (<[k := a]> m) s
                          | DFail _ e => DFail m e
                          | DPanic p => DPanic p
                          end) l cur saved
    | JNull => DOk ∅ saved
    | _ => mismatch j gotype cur saved
    end.

(** The encoder.  Map keys are written in sorted order; a [float64] that is
    not finite is refused ([unsupported]). *)
Definition key_le (a b : string * json) : Prop := String.leb a.1 b.1 = true.
Local Instance key_le_dec a b : Decision (key_le a b).
Proof. unfold key_le. apply _. Defined.

Definition sort_members (l : list (string * json)) : list (string * json) :=
  merge_sort key_le l.

Fixpoint encode_iface (v : iface) : json :=
  match v with
  | INil => JNull
  | IBool b => JBool b
  | IInt n => JNumber (IntLit n)
  | IFloat64 f => JNumber (FloatLit f)
  | IString s => JString s
  | IStrings l => JArray (map JString l)
  | ISlice l => JArray (map encode_iface l)
  | IMap m => JObject (sort_members (map_to_list (encode_iface <$> m)))
  end.

Definition finite (f : float64) : bool :=
  match f with
  | S754_zero _ | S754_finite _ _ _ => true
  | _ => false
  end.

Fixpoint unsupported (v : iface) : bool :=
  match v with
  | IFloat64 f => negb (finite f)
  | ISlice l => existsb unsupported l
  | IMap m => map_fold (fun _ x acc => unsupported x || acc) false m
  | _ => false
  end.

Definition unsupported_value : error := ErrorString "json: unsupported value".

(** [json.Marshal(v)] for a value held in an interface. *)
Definition Marshal (v : iface) : json * option error :=
  if unsupported v then (JNull, Some unsupported_value) else (encode_iface v, None).

(** [json.Marshal] of an [[]int]. *)
Definition Marshal_ints (l : list Z) : json * option error :=
  (JArray (map (fun z => JNumber (IntLit z)) l), None).

(** [json.Unmarshal(data, &v)] for [var v []interface{}]. *)
Definition Unmarshal_ifaces (data : json) : list iface * option error :=
  match decode_slice "[]interface {}" decode_iface INil data [] None with
  | DOk v saved => (v, saved)
  | DFail v e => (v, Some e)
  | DPanic _ => ([], None)
  end.

(** Type assertions on an interface value. *)
Definition assert_string (v : iface) : outcome string :=
  match v with
  | IString s => Returns s
  | _ => Panics (InterfaceConversion "string")
  end.

Definition assert_string_ok (v : iface) : string * bool :=
  match v with
  | IString s => (s, true)
  | _ => (""%string, false)
  end.

Definition assert_bool (v : iface) : outcome bool :=
  match v with
  | IBool b => Returns b
  | _ => Panics (InterfaceConversion "bool")
  end.

Definition assert_float64 (v : iface) : outcome float64 :=
  match v with
  | IFloat64 f => Returns f
  | _ => Panics (InterfaceConversion "float64")
  end.

(** The result of a custom unmarshaller, seen by the decoder that called
    it: an error it returns stops the decoding. *)
Definition of_unmarshaler {A} (r : outcome (A * option error)) (saved : option error) : dres A :=
  match r with
  | Returns (a, None) => DOk a saved
  | Returns (a, Some e) => DFail a e
  | Panics p => DPanic p
  end.

(** Field names are matched without regard to case.  (The two non-ASCII
    letters that fold to [k] and [s] are not modelled.) *)
Definition to_lower (c : ascii) : ascii :=
  let n := N_of_ascii c in
  if ((65 <=? n) && (n <=? 90))%N then ascii_of_N (n + 32) else c.

Fixpoint fold_key (k : string) : string :=
  match k with
  | EmptyString => EmptyString
  | String c k' => String (to_lower c) (fold_key k')
  end.

(** ** The data model of schema.go *)

Module OCRCrop.

Record t := mk { X : Z; Y : Z; W : Z; H : Z }.

Definition zero : t := mk 0 0 0 0.

(** The receiver is a pointer; reading [b.X] through [nil] panics. *)
Definition CropRectange (b : option t) : outcome Rectangle :=
  match b with
  | None => Panics NilDereference
  | Some b => Returns (Rect (X b) (Y b) (wrap_int (X b + W b)) (wrap_int (Y b + H b)))
  end.

Definition MarshalJSON (b : t) : json * option error :=
  Marshal_ints [X b; Y b; W b; H b].

Definition UnmarshalJSON (b : t) (data : json) : outcome (t * option error) :=
  let '(v, err) := Unmarshal_ifaces data in
  match err with
  | Some e => Returns (b, Some e)
  | None =>
      x ← index v 0 ≫= assert_float64;
      y ← index v 1 ≫= assert_float64;
      w ← index v 2 ≫= assert_float64;
      h ← index v 3 ≫= assert_float64;
      mret (mk (int_of_float64 x) (int_of_float64 y)
               (int_of_float64 w) (int_of_float64 h), None)
  end.

End OCRCrop.

Module OCRCheckpoint.

Record t := mk { Crop : option OCRCrop.t; Fingerprint : string }.

Definition zero : t := mk None "".

End OCRCheckpoint.

Module ROKOCRSchema.

Record t := mk {
  Callback : iface;
  Languages : list string;
  OEM : Z;
  PSM : Z;
  Crop : option OCRCrop.t;
  AllowList : list iface
}.

Definition zero : t := mk INil [] 0 0 None [].

End ROKOCRSchema.

Module ROKTableField.

Record t := mk { Title : string; Field : string; Bold : bool; Color : string }.

Definition zero : t := mk "" "" false "".

Definition MarshalJSON (b : t) : json * option error :=
  Marshal (ISlice [IString (Title b); IString (Field b); IBool (Bold b); IString (Color b)]).

Definition UnmarshalJSON (b : t) (data : json) : outcome (t * option error) :=
  let '(v, err) := Unmarshal_ifaces data in
  match err with
  | Some e => Returns (b, Some e)
  | None =>
      v0 ← index v 0;
      let title := (assert_string_ok v0).1 in
      v1 ← index v 1;
      let field := (assert_string_ok v1).1 in
      bold ← index v 2 ≫= assert_bool;
      color ← index v 3 ≫= assert_string;
      mret (mk title field bold color, None)
  end.

End ROKTableField.

Module RokOCRTemplate.

Record t := mk {
  Title : string;
  Version : string;
  Author : string;
  Width : Z;
  Height : Z;
  OCRSchema : gmap string ROKOCRSchema.t;
  Fingerprint : string;
  Threshold : Z;
  Table : list ROKTableField.t;
  Checkpoints : list OCRCheckpoint.t
}.

Definition zero : t := mk "" "" "" 0 0 ∅ "" 0 [] [].

End RokOCRTemplate.

Definition NewNumberField (cropArea : option OCRCrop.t) : ROKOCRSchema.t :=
  {| ROKOCRSchema.Languages := ["eng"%string];
     ROKOCRSchema.Callback := IStrings [];
     ROKOCRSchema.AllowList :=
       [IInt 0; IInt 1; IInt 2; IInt 3; IInt 4; IInt 5; IInt 6; IInt 7; IInt 8; IInt 9];
     ROKOCRSchema.PSM := 7;
     ROKOCRSchema.OEM := 1;
     ROKOCRSchema.Crop := cropArea |}.

Definition NewTextField (cropArea : option OCRCrop.t) (languages : list string) : ROKOCRSchema.t :=
  {| ROKOCRSchema.Languages := languages;
     ROKOCRSchema.Callback := IStrings [];
     ROKOCRSchema.AllowList := [];
     ROKOCRSchema.PSM := 7;
     ROKOCRSchema.OEM := 1;
     ROKOCRSchema.Crop := cropArea |}.

(** ** The matcher *)

Definition differenceHashFromString (s : string) : option ImageHash :=
  let '(result, _) := strconv.ParseUint s in
  Some (NewImageHash result DHash).

Definition Hash (b : RokOCRTemplate.t) : option ImageHash :=
  differenceHashFromString (RokOCRTemplate.Fingerprint b).

(** [h.GetHash()] through a pointer *)
Definition GetHash_ptr (h : option ImageHash) : outcome Z :=
  match h with
  | Some h => Returns (GetHash h)
  | None => Panics NilDereference
  end.

Inductive logarg :=
| ArgHex (z : Z)
| ArgInt (z : Z)
| ArgCrop (c : option OCRCrop.t)
| ArgString (s : string).

Section Matcher.

(** The decoded rasters, the pixel computation of the difference hash
    (external, [goimagehash]) and the crop primitive
    ([imgutils.CropImage], which returns an image and an error). *)
Context {Image : Type}.
Variable dhash : Image -> Z.
Variable CropImage : option Image -> Rectangle -> option Image * option error.

Inductive event :=
| CallDifferenceHash (img : option Image)
| CallCropImage (img : option Image) (r : Rectangle)
| Debugf (format : string) (args : list logarg).

(** A computation: the events it produced and how it ended. *)
Definition M (A : Type) : Type := list event * outcome A.

Definition trace {A} (m : M A) : list event := m.1.
Definition result {A} (m : M A) : outcome A := m.2.

Global Instance M_ret : MRet M := fun A a => ([], Returns a).
Global Instance M_bind : MBind M := fun A B f m =>
  match m with
  | (t, Returns a) => let '(t', r) := f a in (t ++ t', r)
  | (t, Panics p) => (t, Panics p)
  end.

Definition emit (e : event) : M unit := ([e], Returns tt).
Definition lift {A} (o : outcome A) : M A := ([], o).

(** The difference hash of a raster, as a [uint64]. *)
Definition dHash (img : Image) : Z := wrap_uint64 (dhash img).

(** [goimagehash.DifferenceHash]: refuses a nil image, otherwise wraps the
    64 bits computed from the pixels. *)
Definition DifferenceHash (img : option Image) : M (option ImageHash * option error) :=
  emit (CallDifferenceHash img);;
  match img with
  | None => mret (None, Some (ErrorString "Image object can not be nil"))
  | Some i => mret (Some (NewImageHash (dHash i) DHash), None)
  end.

Definition hashMatches (b : option Image) (hash : option ImageHash) : M bool :=
  '(imghash, _) ← DifferenceHash b;
  '(distance, err) ← lift (Distance imghash hash);
  match err with
  | Some _ => mret false
  | None =>
      (if distance >? 0 then
         expected ← lift (GetHash_ptr hash);
         real ← lift (GetHash_ptr imghash);
         emit (Debugf "Expected hash: %x, real hash: %x, distance: %v"
                 [ArgHex expected; ArgHex real; ArgInt distance])
       else mret tt);;
      (* max distance allowed here is 1 *)
      mret (1 >=? distance)
  end.

Definition Match (b : RokOCRTemplate.t) (hash : option ImageHash) : M bool :=
  '(distance, err) ← lift (Distance (Hash b) hash);
  match err with
  | Some _ => mret false
  | None =>
      h ← lift (GetHash_ptr hash);
      emit (Debugf "hash: %x, distance: %v\n" [ArgHex h; ArgInt distance]);;
      mret (distance <=? RokOCRTemplate.Threshold b)
  end.

(** The loop [for _, s := range b.Checkpoints] of [Matches]. *)
Fixpoint Matches_range (img : option Image) (checkpoints : list OCRCheckpoint.t) : M bool :=
  match checkpoints with
  | [] => mret true
  | s :: rest =>
      let expectedHash := differenceHashFromString (OCRCheckpoint.Fingerprint s) in
      rect ← lift (OCRCrop.CropRectange (OCRCheckpoint.Crop s));
      emit (CallCropImage img rect);;
      let '(subImg, _) := CropImage img rect in
      ok ← hashMatches subImg expectedHash;
      if negb ok then
        emit (Debugf "Area %v doesn't match expected hash: %v"
                [ArgCrop (OCRCheckpoint.Crop s); ArgString (OCRCheckpoint.Fingerprint s)]);;
        mret false
      else Matches_range img rest
  end.

Definition Matches (b : RokOCRTemplate.t) (img : option Image) : M bool :=
  '(imageHash, _) ← DifferenceHash img;
  if (length (RokOCRTemplate.Checkpoints b) =? 0)%nat
  then Match b imageHash
  else Matches_range img (RokOCRTemplate.Checkpoints b).

End Matcher.

(** ** Decoding a template document

    What [json.Unmarshal] does at the types of schema.go: structs are filled
    field by field from the members of an object, in document order; the
    two types with an [UnmarshalJSON] method are handed their sub-document. *)

(** [*OCRCrop]: [null] clears the pointer; anything else allocates where
    needed and calls the method. *)
Definition decode_crop_ptr : decoder (option OCRCrop.t) := fun j cur saved =>
  match j with
  | JNull => DOk None saved
  | _ => dmap Some (of_unmarshaler (OCRCrop.UnmarshalJSON (default OCRCrop.zero cur) j) saved)
  end.

(** An element of [[]ROKTableField]: the method is called, for [null] too. *)
Definition decode_table_field : decoder ROKTableField.t := fun j cur saved =>
  of_unmarshaler (ROKTableField.UnmarshalJSON cur j) saved.

Definition checkpoint_field (k : string) : decoder OCRCheckpoint.t := fun j c saved =>
  let name := fold_key k in
  if String.eqb name "crop" then
    dmap (fun v => OCRCheckpoint.mk v (OCRCheckpoint.Fingerprint c))
         (decode_crop_ptr j (OCRCheckpoint.Crop c) saved)
  else if String.eqb name "fingerprint" then
    dmap (fun v => OCRCheckpoint.mk (OCRCheckpoint.Crop c) v)
         (decode_string j (OCRCheckpoint.Fingerprint c) saved)
  else DOk c saved.

Definition decode_checkpoint : decoder OCRCheckpoint.t :=
  decode_struct "ocrschema.OCRCheckpoint" checkpoint_field.

Definition schema_field (k : string) : decoder ROKOCRSchema.t := fun j c saved =>
  let name := fold_key k in
  let '(ROKOCRSchema.mk callback lang oem psm crop allowlist) := c in
  if String.eqb name "callback" then
    dmap (fun v => ROKOCRSchema.mk v lang oem psm crop allowlist)
         (decode_iface j callback saved)
  else if String.eqb name "lang" then
    dmap (fun v => ROKOCRSchema.mk callback v oem psm crop allowlist)
         (decode_slice "[]string" decode_string ""%string j lang saved)
  else if String.eqb name "oem" then
    dmap (fun v => ROKOCRSchema.mk callback lang v psm crop allowlist)
         (decode_int j oem saved)
  else if String.eqb name "psm" then
    dmap (fun v => ROKOCRSchema.mk callback lang oem v crop allowlist)
         (decode_int j psm saved)
  else if String.eqb name "crop" then
    dmap (fun v => ROKOCRSchema.mk callback lang oem psm v allowlist)
         (decode_crop_ptr j crop saved)
  else if String.eqb name "allowlist" then
    dmap (fun v => ROKOCRSchema.mk callback lang oem psm crop v)
         (decode_slice "[]interface {}" decode_iface INil j allowlist saved)
  else DOk c saved.

Definition decode_schema : decoder ROKOCRSchema.t :=
  decode_struct "ocrschema.ROKOCRSchema" schema_field.

Definition template_field (k : string) : decoder RokOCRTemplate.t := fun j t saved =>
  let name := fold_key k in
  let '(RokOCRTemplate.mk title version author width height schema fingerprint
          threshold table checkpoints) := t in
  if String.eqb name "title" then
    dmap (fun v => RokOCRTemplate.mk v version author width height schema fingerprint
                     threshold table checkpoints)
         (decode_string j title saved)
  else if String.eqb name "version" then
    dmap (fun v => RokOCRTemplate.mk title v author width height schema fingerprint
                     threshold table checkpoints)
         (decode_string j version saved)
  else if String.eqb name "author" then
    dmap (fun v => RokOCRTemplate.mk title version v width height schema fingerprint
                     threshold table checkpoints)
         (decode_string j author saved)
  else if String.eqb name "width" then
    dmap (fun v => RokOCRTemplate.mk title version author v height schema fingerprint
                     threshold table checkpoints)
         (decode_int j width saved)
  else if String.eqb name "height" then
    dmap (fun v => RokOCRTemplate.mk title version author width v schema fingerprint
                     threshold table checkpoints)
         (decode_int j height saved)
  else if String.eqb name "ocr_schema" then
    dmap (fun v => RokOCRTemplate.mk title version author width height v fingerprint
                     threshold table checkpoints)
         (decode_map "map[string]ocrschema.ROKOCRSchema" decode_schema ROKOCRSchema.zero
            j schema saved)
  else if String.eqb name "fingerprint" then
    dmap (fun v => RokOCRTemplate.mk title version author width height schema v
                     threshold table checkpoints)
         (decode_string j fingerprint saved)
  else if String.eqb name "threshold" then
    dmap (fun v => RokOCRTemplate.mk title version author width height schema fingerprint
                     v table checkpoints)
         (decode_int j threshold saved)
  else if String.eqb name "table" then
    dmap (fun v => RokOCRTemplate.mk title version author width height schema fingerprint
                     threshold v checkpoints)
         (decode_slice "[]ocrschema.ROKTableField" decode_table_field ROKTableField.zero
            j table saved)
  else if String.eqb name "checkpoints" then
    dmap (fun v => RokOCRTemplate.mk title version author width height schema fingerprint
                     threshold table v)
         (decode_slice "[]ocrschema.OCRCheckpoint" decode_checkpoint OCRCheckpoint.zero
            j checkpoints saved)
  else DOk t saved.

Definition decode_template : decoder RokOCRTemplate.t :=
  decode_struct "ocrschema.RokOCRTemplate" template_field.

(** [json.Unmarshal(data, &t)] for a document that scanned: the template as
    filled, and the error returned. *)
Definition Unmarshal_document (doc : json) (t : RokOCRTemplate.t)
  : outcome (RokOCRTemplate.t * option error) :=
  match decode_template doc t None with
  | DOk t' saved => Returns (t', saved)
  | DFail t' e => Returns (t', Some e)
  | DPanic p => Panics p
  end.

Section LoadTemplate.

(** The file system ([ioutil.ReadFile]: the bytes read and the error) and
    the JSON scanner on non-empty input (the document, or the syntax
    error). *)
Variable ReadFile : string -> string * option error.
Variable scan : string -> json + error.

(** [json.Unmarshal(data, &t)] *)
Definition Unmarshal (data : string) (t : RokOCRTemplate.t)
  : outcome (RokOCRTemplate.t * option error) :=
  match data with
  | EmptyString => Returns (t, Some (SyntaxError "unexpected end of JSON input"))
  | _ =>
      match scan data with
      | inr e => Returns (t, Some e)
      | inl doc => Unmarshal_document doc t
      end
  end.

Definition LoadTemplate (fileName : string) : outcome (RokOCRTemplate.t * option error) :=
  let t := RokOCRTemplate.zero in
  let '(b, _) := ReadFile fileName in
  Unmarshal b t.

End LoadTemplate.

(** ** Encoding a template document

    What [json.Marshal] does at the types of schema.go: a struct becomes an
    object with its fields in declaration order, a field tagged [omitempty]
    being left out when it is empty; the two types with a [MarshalJSON]
    method write themselves. *)

Definition member_string (name v : string) : list (string * json) :=
  match v with
  | EmptyString => []
  | _ => [(name, JString v)]
  end.

Definition member_int (name : string) (z : Z) : list (string * json) :=
  if z =? 0 then [] else [(name, JNumber (IntLit z))].

Definition member_list {A} (name : string) (enc : A -> json) (l : list A) : list (string * json) :=
  match l with
  | [] => []
  | _ => [(name, JArray (map enc l))]
  end.

Definition member_crop (name : string) (c : option OCRCrop.t) : list (string * json) :=
  match c with
  | None => []
  | Some c => [(name, (OCRCrop.MarshalJSON c).1)]
  end.

Definition member_iface (name : string) (v : iface) : list (string * json) :=
  match v with
  | INil => []
  | _ => [(name, encode_iface v)]
  end.

Definition encode_checkpoint (c : OCRCheckpoint.t) : json :=
  JObject (member_crop "crop" (OCRCheckpoint.Crop c)
           ++ member_string "fingerprint" (OCRCheckpoint.Fingerprint c)).

Definition encode_schema (s : ROKOCRSchema.t) : json :=
  JObject (member_iface "callback" (ROKOCRSchema.Callback s)
           ++ member_list "lang" JString (ROKOCRSchema.Languages s)
           ++ member_int "oem" (ROKOCRSchema.OEM s)
           ++ member_int "psm" (ROKOCRSchema.PSM s)
           ++ member_crop "crop" (ROKOCRSchema.Crop s)
           ++ member_list "allowlist" encode_iface (ROKOCRSchema.AllowList s)).

Definition member_schemas (name : string) (m : gmap string ROKOCRSchema.t) : list (string * json) :=
  if decide (m = ∅) then []
  else [(name, JObject (sort_members (map_to_list (encode_schema <$> m))))].

Definition encode_template (t : RokOCRTemplate.t) : json :=
  JObject (member_string "title" (RokOCRTemplate.Title t)
           ++ member_string "version" (RokOCRTemplate.Version t)
           ++ member_string "author" (RokOCRTemplate.Author t)
           ++ member_int "width" (RokOCRTemplate.Width t)
           ++ member_int "height" (RokOCRTemplate.Height t)
           ++ member_schemas "ocr_schema" (RokOCRTemplate.OCRSchema t)
           ++ member_string "fingerprint" (RokOCRTemplate.Fingerprint t)
           ++ member_int "threshold" (RokOCRTemplate.Threshold t)
           ++ member_list "table" (fun f => (ROKTableField.MarshalJSON f).1)
                (RokOCRTemplate.Table t)
           ++ member_list "checkpoints" encode_checkpoint (RokOCRTemplate.Checkpoints t)).

Definition schema_unsupported (s : ROKOCRSchema.t) : bool :=
  unsupported (ROKOCRSchema.Callback s) || existsb unsupported (ROKOCRSchema.AllowList s).

(** [json.Marshal(t)] for a template. *)
Definition Marshal_template (t : RokOCRTemplate.t) : json * option error :=
  if map_fold (fun _ s acc => schema_unsupported s || acc) false (RokOCRTemplate.OCRSchema t)
  then (JNull, Some unsupported_value)
  else (encode_template t, None).

(** ** Notions of the specification *)

(** Hamming distance, in the specification's words: the number of bit
    positions, among the 64 of a hash, at which two values differ. *)
Definition HammingDistance (a b : Z) : Z :=
  Z.of_nat (length (filter (fun i : nat =>
      Z.testbit a (Z.of_nat i) ≠ Z.testbit b (Z.of_nat i)) (seq 0 64))).

(** Hexadecimal text, in the specification's words: the digits [0-9],
    [a-f] and [A-F]; a valid hexadecimal string is a non-empty string of
    them. *)
Definition hex_digit_value (c : ascii) : option Z :=
  let n := Z.of_N (N_of_ascii c) in
  if (48 <=? n) && (n <=? 57) then Some (n - 48)
  else if (97 <=? n) && (n <=? 102) then Some (n - 87)
  else if (65 <=? n) && (n <=? 70) then Some (n - 55)
  else None.

Definition is_hex_digit (c : ascii) : bool :=
  match hex_digit_value c with Some _ => true | None => false end.

Fixpoint all_hex (s : string) : bool :=
  match s with
  | EmptyString => true
  | String c s' => is_hex_digit c && all_hex s'
  end.

Definition valid_hex (s : string) : bool :=
  match s with
  | EmptyString => false
  | _ => all_hex s
  end.

(** The number a string of hexadecimal digits denotes, continuing from [n]. *)
Fixpoint hex_value (s : string) (n : Z) : Z :=
  match s with
  | EmptyString => n
  | String c s' => hex_value s' (n * 16 + default 0 (hex_digit_value c))
  end.

(** The digits a string starts with, up to its first character that is not
    a hexadecimal digit. *)
Fixpoint hex_prefix (s : string) : string :=
  match s with
  | EmptyString => EmptyString
  | String c s' => if is_hex_digit c then String c (hex_prefix s') else EmptyString
  end.

(** Well-formed values, for the round trip through JSON.  A value held in
    an interface is native when it is of a type the decoder itself produces
    there: nil, a boolean, a finite [float64], a string, a slice or a map of
    such values.  A crop is exact when its coordinates are integers a
    [float64] holds exactly. *)
Fixpoint native (v : iface) : bool :=
  match v with
  | INil | IBool _ | IString _ => true
  | IFloat64 f => finite f
  | ISlice l => forallb native l
  | IMap m => map_fold (fun _ x acc => native x && acc) true m
  | IInt _ | IStrings _ => false
  end.

Definition exact (z : Z) : bool := (- 2 ^ 53 <=? z) && (z <=? 2 ^ 53).

Definition exact_crop (c : option OCRCrop.t) : bool :=
  match c with
  | None => true
  | Some c => exact (OCRCrop.X c) && exact (OCRCrop.Y c)
              && exact (OCRCrop.W c) && exact (OCRCrop.H c)
  end.

Definition wf_schema (s : ROKOCRSchema.t) : bool :=
  native (ROKOCRSchema.Callback s) && forallb native (ROKOCRSchema.AllowList s)
  && is_int (ROKOCRSchema.OEM s) && is_int (ROKOCRSchema.PSM s)
  && exact_crop (ROKOCRSchema.Crop s).

Definition wf_checkpoint (c : OCRCheckpoint.t) : bool := exact_crop (OCRCheckpoint.Crop c).

Definition wf_template (t : RokOCRTemplate.t) : bool :=
  is_int (RokOCRTemplate.Width t) && is_int (RokOCRTemplate.Height t)
  && is_int (RokOCRTemplate.Threshold t)
  && map_fold (fun _ s acc => wf_schema s && acc) true (RokOCRTemplate.OCRSchema t)
  && forallb wf_checkpoint (RokOCRTemplate.Checkpoints t).

(** The size of a value held in an interface, for induction. *)
Fixpoint iface_size (v : iface) : nat :=
  match v with
  | ISlice l => S (fold_right (fun x acc => iface_size x + acc)%nat 0%nat l)
  | IMap m => S (map_fold (fun _ x acc => iface_size x + acc)%nat 0%nat m)
  | _ => 1
  end.

Section MatcherNotions.

Context {Image : Type}.
Variable dhash : Image -> Z.
Variable CropImage : option Image -> Rectangle -> option Image * option error.

(** The distance of one checkpoint, in the specification's words: the
    Hamming distance between the difference hash of the sub-image cropped
    at the checkpoint's rectangle and the checkpoint's decoded
    fingerprint.  There is none when the checkpoint has no rectangle or
    the crop yields no image. *)
Definition checkpoint_distance (img : Image) (c : OCRCheckpoint.t) : option Z :=
  match OCRCrop.CropRectange (OCRCheckpoint.Crop c) with
  | Returns rect =>
      sub ← (CropImage (Some img) rect).1;
      fp ← differenceHashFromString (OCRCheckpoint.Fingerprint c);
      Some (HammingDistance (dHash dhash sub) (GetHash fp))
  | Panics _ => None
  end.

Definition checkpoint_passes (img : Image) (c : OCRCheckpoint.t) : bool :=
  match checkpoint_distance img c with
  | Some d => d <=? 1
  | None => false
  end.

(** The rectangles handed to the crop primitive, in call order. *)
Definition crop_calls (t : list (@event Image)) : list Rectangle :=
  omap (fun e => match e with CallCropImage _ r => Some r | _ => None end) t.

(** [rects] are the rectangles of the checkpoints [cs], one each, in order. *)
Definition rectangles_of (rects : list Rectangle) (cs : list OCRCheckpoint.t) : Prop :=
  Forall2 (fun r c => OCRCrop.CropRectange (OCRCheckpoint.Crop c) = Returns r) rects cs.

End MatcherNotions.

(** A test double for the external primitives: a raster is its size and the
    64 bits its pixels hash to; a crop inside the bounds yields a raster
    whose bits depend on where it was cut; a crop that leaves the bounds
    fails and yields no image. *)
Module Double.

Record raster := { width : Z; height : Z; bits : Z }.

Definition dhash (r : raster) : Z := bits r.

Definition inside (r : raster) (rect : Rectangle) : bool :=
  (0 <=? PX (Min rect)) && (0 <=? PY (Min rect))
  && (PX (Max rect) <=? width r) && (PY (Max rect) <=? height r).

Definition CropImage (img : option raster) (rect : Rectangle) : option raster * option error :=
  match img with
  | Some r =>
      if inside r rect
      then (Some {| width := PX (Max rect) - PX (Min rect);
                    height := PY (Max rect) - PY (Min rect);
                    bits := bits r + PX (Min rect) + 2 * PY (Min rect) |}, None)
      else (None, Some (ErrorString "crop out of bounds"))
  | None => (None, Some (ErrorString "no image"))
  end.

(** A 100 by 100 raster whose pixels hash to 0, and one hashing to 1. *)
Definition blank : raster := {| width := 100; height := 100; bits := 0 |}.
Definition speck : raster := {| width := 100; height := 100; bits := 1 |}.

(** A file system and a scanner: each file has a text and the document
    that text spells; reading any other name fails and yields no bytes. *)
Definition quote : string := String (ascii_of_nat 34) EmptyString.
Definition q (s : string) : string := quote +:+ s +:+ quote.

Definition files : list (string * (string * json)) := [
  ("short_table.json"%string,
   ("{" +:+ q "table" +:+ ":[[" +:+ q "Name" +:+ "," +:+ q "player_name" +:+ ",true]]}",
    JObject [("table"%string,
              JArray [JArray [JString "Name"; JString "player_name"; JBool true]])]));
  ("bold_text.json"%string,
   ("{" +:+ q "table" +:+ ":[[" +:+ q "Name" +:+ "," +:+ q "player_name" +:+ ","
        +:+ q "yes" +:+ "," +:+ q "#FFFFFF" +:+ "]]}",
    JObject [("table"%string,
              JArray [JArray [JString "Name"; JString "player_name"; JString "yes";
                              JString "#FFFFFF"]])]));
  ("short_crop.json"%string,
   ("{" +:+ q "checkpoints" +:+ ":[{" +:+ q "crop" +:+ ":[1,2,3]}]}",
    JObject [("checkpoints"%string,
              JArray [JObject [("crop"%string,
                                JArray [JNumber (IntLit 1); JNumber (IntLit 2);
                                        JNumber (IntLit 3)])]])]));
  ("text_crop.json"%string,
   ("{" +:+ q "checkpoints" +:+ ":[{" +:+ q "crop" +:+ ":[1,2," +:+ q "w" +:+ ",4]}]}",
    JObject [("checkpoints"%string,
              JArray [JObject [("crop"%string,
                                JArray [JNumber (IntLit 1); JNumber (IntLit 2);
                                        JString "w"; JNumber (IntLit 4)])]])]));
  ("numbered_titles.json"%string,
   ("{" +:+ q "table" +:+ ":[[1,2,true," +:+ q "#FFFFFF" +:+ "]]}",
    JObject [("table"%string,
              JArray [JArray [JNumber (IntLit 1); JNumber (IntLit 2); JBool true;
                              JString "#FFFFFF"]])]));
  ("keyed_descriptor.json"%string,
   ("{" +:+ q "title" +:+ ":" +:+ q "kills" +:+ "," +:+ q "table" +:+ ":[{"
        +:+ q "title" +:+ ":" +:+ q "Name" +:+ "}]}",
    JObject [("title"%string, JString "kills");
             ("table"%string, JArray [JObject [("title"%string, JString "Name")]])]));
  ("text_rectangle.json"%string,
   ("{" +:+ q "checkpoints" +:+ ":[{" +:+ q "crop" +:+ ":" +:+ q "0,0,10,10" +:+ "}]}",
    JObject [("checkpoints"%string,
              JArray [JObject [("crop"%string, JString "0,0,10,10")]])]));
  ("negative_threshold.json"%string,
   ("{" +:+ q "threshold" +:+ ":-3}",
    JObject [("threshold"%string, JNumber (IntLit (-3)))]))
].

Definition ReadFile (fileName : string) : string * option error :=
  match list_find (fun f => f.1 = fileName) files with
  | Some (_, (_, (text, _))) => (text, None)
  | None => (EmptyString, Some (PathError "open: no such file or directory"))
  end.

Definition scan (text : string) : json + error :=
  match list_find (fun f => f.2.1 = text) files with
  | Some (_, (_, (_, doc))) => inl doc
  | None => inr (SyntaxError "invalid character")
  end.

End Double.

(** ** Scenarios

    Concrete templates, used to run the statements below on the test
    double. *)

Definition template_of (fingerprint : string) (threshold : Z)
    (checkpoints : list OCRCheckpoint.t) : RokOCRTemplate.t :=
  RokOCRTemplate.mk "" "" "" 0 0 ∅ fingerprint threshold [] checkpoints.

(** Scenario 1 of the specification: an all-zero fingerprint, threshold 0. *)
Definition scenario1 : RokOCRTemplate.t := template_of "0000000000000000" 0 [].

Definition corner : OCRCrop.t := OCRCrop.mk 0 0 10 10.

(** On the blank raster: distance 1, distance 2, and no rectangle at all. *)
Definition checkpoint_near : OCRCheckpoint.t := OCRCheckpoint.mk (Some corner) "1".
Definition checkpoint_far : OCRCheckpoint.t := OCRCheckpoint.mk (Some corner) "3".
Definition checkpoint_bare : OCRCheckpoint.t := OCRCheckpoint.mk None "0".

(** Scenario 4: a failing checkpoint in front of one that cannot be tried. *)
Definition scenario4 : RokOCRTemplate.t :=
  template_of "" 0 [checkpoint_near; checkpoint_far; checkpoint_bare].

(** Scenario 5: a table descriptor and the array that spells it. *)
Definition scenario5 : ROKTableField.t := ROKTableField.mk "Name" "player_name" true "#FFFFFF".
Definition scenario5_document : json :=
  JArray [JString "Name"; JString "player_name"; JBool true; JString "#FFFFFF"].

(** A template as a decoder leaves it: its allow-list holds [float64]s. *)
Definition decoded_number_field : ROKOCRSchema.t :=
  ROKOCRSchema.mk (ISlice []) ["eng"%string] 1 7 (Some corner)
    (map (fun d => IFloat64 (float64_of_Z d)) [0; 1; 2; 3; 4; 5; 6; 7; 8; 9]).

Definition decoded_template : RokOCRTemplate.t :=
  RokOCRTemplate.mk "kills" "1" "" 1920 1080
    (<["power"%string := decoded_number_field]> ∅)
    "00ff00ff00ff00ff" 2 [scenario5] [checkpoint_near].

(** The same template as the constructors of schema.go build it. *)
Definition built_template : RokOCRTemplate.t :=
  RokOCRTemplate.mk "kills" "1" "" 1920 1080
    (<["power"%string := NewNumberField (Some corner)]> ∅)
    "00ff00ff00ff00ff" 2 [scenario5] [checkpoint_near].

(** A crop whose first coordinate no [float64] holds. *)
Definition wide_crop : OCRCrop.t := OCRCrop.mk (2 ^ 53 + 1) 0 0 0.

(** ** Further notions

    What the further properties at the end of this file are stated with. *)

Section LogNotions.

Context {Image : Type}.

(** The lines a run wrote to the debug log, in order. *)
Definition debug_lines (t : list (@event Image)) : list (string * list logarg) :=
  omap (fun e => match e with Debugf format args => Some (format, args) | _ => None end) t.

(** The images handed to the hash primitive, in call order. *)
Definition hash_calls (t : list (@event Image)) : list (option Image) :=
  omap (fun e => match e with CallDifferenceHash img => Some img | _ => None end) t.

End LogNotions.

(** The line [hashMatches] logs about two hashes that differ. *)
Definition distance_line (expected real distance : Z) : string * list logarg :=
  ("Expected hash: %x, real hash: %x, distance: %v"%string,
   [ArgHex expected; ArgHex real; ArgInt distance]).

(** The line [Matches] logs about a checkpoint that does not match. *)
Definition mismatch_line (c : OCRCheckpoint.t) : string * list logarg :=
  ("Area %v doesn't match expected hash: %v"%string,
   [ArgCrop (OCRCheckpoint.Crop c); ArgString (OCRCheckpoint.Fingerprint c)]).

(** The checkpoints a log reports as not matching: the arguments of its
    lines of that format. *)
Definition mismatch_lines (lines : list (string * list logarg)) : list (list logarg) :=
  omap (fun l : string * list logarg =>
          if String.eqb l.1 "Area %v doesn't match expected hash: %v" then Some l.2 else None)
       lines.


Definition string_keys : list string := ["title"; "version"; "author"; "fingerprint"]%string.
Definition int_keys : list string := ["width"; "height"; "threshold"]%string.

(** A decoding that started with an error already saved: that error stays
    the saved one. *)
Definition with_saved {A} (e : error) (r : dres A) : dres A :=
  match r with
  | DOk a _ => DOk a (Some e)
  | r => r
  end.

(** A decoder is uniform when an error saved before it runs changes nothing
    but the error saved after it. *)
Definition uniform {A} (dec : decoder A) : Prop :=
  forall j cur s e, dec j cur (Some e) = with_saved e (dec j cur s).

Section Files.

Variable ReadFile : string -> string * option error.
Variable scan : string -> json + error.

(** The file [fileName] holds the document [doc]: it has bytes, and they
    scan as [doc]. *)
Definition holds (fileName : string) (doc : json) : Prop :=
  exists b read_err,
    ReadFile fileName = (b, read_err) /\ b <> EmptyString /\ scan b = inl doc.

End Files.

(** The template [t] with another table. *)
Definition with_table (t : RokOCRTemplate.t) (table : list ROKTableField.t) : RokOCRTemplate.t :=
  RokOCRTemplate.mk (RokOCRTemplate.Title t) (RokOCRTemplate.Version t)
    (RokOCRTemplate.Author t) (RokOCRTemplate.Width t) (RokOCRTemplate.Height t)
    (RokOCRTemplate.OCRSchema t) (RokOCRTemplate.Fingerprint t)
    (RokOCRTemplate.Threshold t) table (RokOCRTemplate.Checkpoints t).

(** The sub-documents the two unmarshallers can be handed.  A table
    descriptor is well shaped when it is an array whose third element is a
    boolean and whose fourth is a string; a crop rectangle, when it is an
    array that starts with four numbers.  So is every sub-document that
    makes the unmarshaller return an error: one that is no array and not
    [null], or an array holding a number out of the range of [float64]. *)
Definition well_shaped_descriptor (data : json) : bool :=
  match data with
  | JNull => false
  | JArray l =>
      existsb number_error l
      || match l with
         | _ :: _ :: JBool _ :: JString _ :: _ => true
         | _ => false
         end
  | _ => true
  end.

Definition well_shaped_rectangle (data : json) : bool :=
  match data with
  | JNull => false
  | JArray l =>
      existsb number_error l
      || match l with
         | JNumber _ :: JNumber _ :: JNumber _ :: JNumber _ :: _ => true
         | _ => false
         end
  | _ => true
  end.






(** More files for the test double. *)
Module Shelf.

Import Double.

Definition files : list (string * (string * json)) := [
  ("plain.json"%string,
   ("{" +:+ q "title" +:+ ":" +:+ q "kills" +:+ "," +:+ q "threshold" +:+ ":2}",
    JObject [("title"%string, JString "kills"); ("threshold"%string, JNumber (IntLit 2))]));
  ("swapped.json"%string,
   ("{" +:+ q "threshold" +:+ ":2," +:+ q "title" +:+ ":" +:+ q "kills" +:+ "}",
    JObject [("threshold"%string, JNumber (IntLit 2)); ("title"%string, JString "kills")]));
  ("noted.json"%string,
   ("{" +:+ q "title" +:+ ":" +:+ q "kills" +:+ "," +:+ q "comment" +:+ ":[1,2],"
        +:+ q "threshold" +:+ ":2}",
    JObject [("title"%string, JString "kills");
             ("comment"%string, JArray [JNumber (IntLit 1); JNumber (IntLit 2)]);
             ("threshold"%string, JNumber (IntLit 2))]));
  ("shouted.json"%string,
   ("{" +:+ q "TITLE" +:+ ":" +:+ q "kills" +:+ "," +:+ q "threshold" +:+ ":2}",
    JObject [("TITLE"%string, JString "kills"); ("threshold"%string, JNumber (IntLit 2))]));
  ("mistyped.json"%string,
   ("{" +:+ q "title" +:+ ":" +:+ q "kills" +:+ "," +:+ q "width" +:+ ":" +:+ q "wide" +:+ ","
        +:+ q "threshold" +:+ ":2}",
    JObject [("title"%string, JString "kills"); ("width"%string, JString "wide");
             ("threshold"%string, JNumber (IntLit 2))]));
  ("list.json"%string, ("[]"%string, JArray []));
  ("empty.json"%string, ("{}"%string, JObject []));
  ("title.json"%string,
   ("{" +:+ q "title" +:+ ":" +:+ q "kills" +:+ "}",
    JObject [("title"%string, JString "kills")]));
  ("null_row.json"%string,
   ("{" +:+ q "table" +:+ ":[null]}", JObject [("table"%string, JArray [JNull])]));
  ("late_checkpoints.json"%string,
   ("{" +:+ q "title" +:+ ":" +:+ q "kills" +:+ "," +:+ q "table" +:+ ":[" +:+ q "Name" +:+ "],"
        +:+ q "checkpoints" +:+ ":[{" +:+ q "fingerprint" +:+ ":" +:+ q "1" +:+ "}]}",
    JObject [("title"%string, JString "kills");
             ("table"%string, JArray [JString "Name"]);
             ("checkpoints"%string, JArray [JObject [("fingerprint"%string, JString "1")]])]))
].

Definition ReadFile (fileName : string) : string * option error :=
  match list_find (fun f => f.1 = fileName) files with
  | Some (_, (_, (text, _))) => (text, None)
  | None => (EmptyString, Some (PathError "open: no such file or directory"))
  end.

Definition scan (text : string) : json + error :=
  match list_find (fun f => f.2.1 = text) files with
  | Some (_, (_, (_, doc))) => inl doc
  | None => inr (SyntaxError "invalid character")
  end.

End Shelf.

(** * Facts *)

(** ** Hashes and distances *)

Global Arguments popcnt : simpl never.
Global Arguments HammingDistance : simpl never.
Global Arguments wrap_uint64 : simpl never.
Global Arguments wrap_int : simpl never.
Global Arguments strconv.ParseUint : simpl never.
Global Arguments Rect : simpl never.

Lemma popcnt_fold_nonneg (x : Z) (l : list nat) :
  0 <= fold_right (fun i acc => Z.b2z (Z.testbit x (Z.of_nat i)) + acc) 0 l.
Proof.
  induction l as [|i l IH]; simpl; [lia|].
  destruct (Z.testbit x (Z.of_nat i)); simpl; lia.
Qed.

Lemma popcnt_nonneg (x : Z) : 0 <= popcnt x.
Proof. apply popcnt_fold_nonneg. Qed.

Lemma popcnt_lxor_fold (a b : Z) (l : list nat) :
  fold_right (fun i acc => Z.b2z (Z.testbit (Z.lxor a b) (Z.of_nat i)) + acc) 0 l
  = Z.of_nat (length (filter (fun i : nat =>
      Z.testbit a (Z.of_nat i) ≠ Z.testbit b (Z.of_nat i)) l)).
Proof.
  induction l as [|i l IH]; [reflexivity|].
  cbn [fold_right]. rewrite IH, Z.lxor_spec, filter_cons.
  destruct (Z.testbit a (Z.of_nat i)), (Z.testbit b (Z.of_nat i));
    case_decide; try congruence; cbn [xorb Z.b2z length]; lia.
Qed.

Lemma popcnt_lxor (a b : Z) : popcnt (Z.lxor a b) = HammingDistance a b.
Proof. apply popcnt_lxor_fold. Qed.

Lemma HammingDistance_nonneg (a b : Z) : 0 <= HammingDistance a b.
Proof. unfold HammingDistance. lia. Qed.

Lemma filter_nil_Forall {A} (P : A -> Prop) `{!∀ x, Decision (P x)} (l : list A) :
  filter P l = [] -> Forall (fun x => ¬ P x) l.
Proof.
  induction l as [|x l IH]; [constructor|].
  rewrite filter_cons. case_decide; [discriminate|]. intros. constructor; auto.
Qed.

Lemma HammingDistance_zero (a b : Z) :
  0 <= a < 2 ^ 64 -> 0 <= b < 2 ^ 64 ->
  (HammingDistance a b = 0 <-> a = b).
Proof.
  intros Ha Hb. split.
  - unfold HammingDistance. intros Hlen.
    assert (Hnil : filter (fun i : nat =>
      Z.testbit a (Z.of_nat i) ≠ Z.testbit b (Z.of_nat i)) (seq 0 64) = []).
    { apply length_zero_iff_nil. lia. }
    apply filter_nil_Forall in Hnil. rewrite Forall_forall in Hnil.
    apply Z.bits_inj'. intros n Hn.
    destruct (Z_lt_ge_dec n 64) as [Hlt|Hge].
    + specialize (Hnil (Z.to_nat n)).
      rewrite Z2Nat.id in Hnil by lia.
      destruct (bool_decide (Z.testbit a n = Z.testbit b n)) eqn:E.
      * by apply bool_decide_eq_true in E.
      * apply bool_decide_eq_false in E. exfalso. apply Hnil; [|done].
        apply elem_of_seq. lia.
    + assert (Hhigh : forall c, 0 <= c < 2 ^ 64 -> Z.testbit c n = false).
      { intros c Hc. destruct (Z.eq_dec c 0) as [->|]; [apply Z.bits_0|].
        apply Z.bits_above_log2; [lia|].
        assert (Z.log2 c < 64) by (apply Z.log2_lt_pow2; lia). lia. }
      by rewrite !Hhigh.
  - intros ->. unfold HammingDistance.
    replace (filter _ _) with (@nil nat); [reflexivity|].
    symmetry. induction (seq 0 64) as [|i l IH]; [reflexivity|].
    rewrite filter_cons. case_decide; [congruence|done].
Qed.

(** ** Reading a fingerprint *)

Lemma digit_hex (c : ascii) :
  match strconv.digit (Z.of_N (N_of_ascii c)) with
  | Some d => if d >=? strconv.base then hex_digit_value c = None
              else hex_digit_value c = Some d /\ 0 <= d < 16
  | None => hex_digit_value c = None
  end.
Proof.
  destruct c as [[] [] [] [] [] [] [] []]; vm_compute; intuition congruence.
Qed.

Lemma hex_value_ge (s : string) (n : Z) : 0 <= n -> n <= hex_value s n.
Proof.
  revert n. induction s as [|c s IH]; intros n Hn; simpl; [lia|].
  pose proof (digit_hex c) as Hc.
  destruct (strconv.digit _) as [d|]; [destruct (d >=? strconv.base)|].
  - rewrite Hc. simpl. etransitivity; [|apply IH]; lia.
  - destruct Hc as [-> ?]. simpl. etransitivity; [|apply IH]; lia.
  - rewrite Hc. simpl. etransitivity; [|apply IH]; lia.
Qed.

Lemma ParseUint_loop_range (s : string) (n : Z) :
  0 <= n < 2 ^ 64 -> 0 <= (strconv.ParseUint_loop s n).1 < 2 ^ 64.
Proof.
  revert n. induction s as [|c s IH]; intros n Hn; simpl; [done|].
  destruct (strconv.digit _) as [d|]; [|simpl; lia].
  destruct (d >=? strconv.base); [simpl; lia|].
  destruct (n >=? strconv.cutoff); [vm_compute; split; congruence|].
  destruct (_ || _); [vm_compute; split; congruence|].
  apply IH. unfold wrap_uint64. apply Z.mod_pos_bound. lia.
Qed.

Lemma ParseUint_range (s : string) : 0 <= (strconv.ParseUint s).1 < 2 ^ 64.
Proof.
  destruct s; [simpl; lia|]. apply ParseUint_loop_range. lia.
Qed.

(** The digits before the first invalid character are consumed as long as
    the value they denote fits 64 bits. *)
Lemma ParseUint_loop_prefix (pre rest : string) (n : Z) :
  all_hex pre = true -> 0 <= n -> hex_value pre n < 2 ^ 64 ->
  strconv.ParseUint_loop (pre +:+ rest) n = strconv.ParseUint_loop rest (hex_value pre n).
Proof.
  revert n. induction pre as [|c pre IH]; intros n Hall Hn Hv; [done|].
  cbn [all_hex] in Hall. apply andb_true_iff in Hall as [Hc Hall].
  cbn [hex_value] in *. change (String c pre +:+ rest) with (String c (pre +:+ rest)).
  cbn [strconv.ParseUint_loop].
  pose proof (digit_hex c) as Hd. unfold is_hex_digit in Hc.
  destruct (strconv.digit _) as [d|]; [|by rewrite Hd in Hc].
  destruct (d >=? strconv.base); [by rewrite Hd in Hc|].
  destruct Hd as [Hd Hr]. rewrite Hd in *. change (default 0 (Some d)) with d in *.
  assert (n * 16 + d < 2 ^ 64).
  { pose proof (hex_value_ge pre (n * 16 + d)). lia. }
  assert (Hcut : (n >=? strconv.cutoff) = false).
  { rewrite Z.geb_leb. apply Z.leb_gt. change strconv.cutoff with (2 ^ 60). lia. }
  rewrite Hcut. unfold wrap_uint64, strconv.base, strconv.maxVal.
  rewrite (Z.mod_small (n * 16)) by lia.
  rewrite (Z.mod_small (n * 16 + d)) by lia.
  assert (Hov : ((n * 16 + d <? n * 16) || (n * 16 + d >? 2 ^ 64 - 1)) = false).
  { apply orb_false_iff. rewrite Z.gtb_ltb. split; apply Z.ltb_ge; lia. }
  rewrite Hov.
  apply IH; [done|lia|done].
Qed.

Lemma ParseUint_loop_invalid (c : ascii) (rest : string) (n : Z) :
  is_hex_digit c = false ->
  strconv.ParseUint_loop (String c rest) n = (0, Some strconv.ErrSyntax).
Proof.
  intros Hc. cbn [strconv.ParseUint_loop]. unfold is_hex_digit in Hc.
  pose proof (digit_hex c) as Hd.
  destruct (strconv.digit _) as [d|]; [|done].
  destruct (d >=? strconv.base); [done|].
  destruct Hd as [Hd _]. by rewrite Hd in Hc.
Qed.

Lemma differenceHashFromString_eq (s : string) :
  differenceHashFromString s = Some (NewImageHash (strconv.ParseUint s).1 DHash).
Proof. unfold differenceHashFromString. by destruct (strconv.ParseUint s). Qed.

Lemma HammingDistance_comm (a b : Z) : HammingDistance a b = HammingDistance b a.
Proof.
  unfold HammingDistance. f_equal. f_equal.
  induction (seq 0 64) as [|i l IH]; [reflexivity|].
  rewrite !filter_cons, IH. repeat case_decide; congruence.
Qed.

Lemma Hash_eq (T : RokOCRTemplate.t) :
  Hash T = Some (NewImageHash (strconv.ParseUint (RokOCRTemplate.Fingerprint T)).1 DHash).
Proof. apply differenceHashFromString_eq. Qed.

(** ** The matcher *)

Section MatcherFacts.

Context {Image : Type}.
Variable dhash : Image -> Z.
Variable CropImage : option Image -> Rectangle -> option Image * option error.


Ltac run := unfold mbind, mret, M_bind, M_ret, emit, lift; cbn.

Lemma dHash_range (img : Image) : 0 <= dHash dhash img < 2 ^ 64.
Proof. apply Z.mod_pos_bound. lia. Qed.

Lemma Match_DHash (T : RokOCRTemplate.t) (h fp : Z) :
  Hash T = Some (NewImageHash fp DHash) ->
  result (Match (Image:=Image) T (Some (NewImageHash h DHash)))
  = Returns (HammingDistance h fp <=? RokOCRTemplate.Threshold T).
Proof.
  intros HT. unfold Match. rewrite HT. run.
  by rewrite popcnt_lxor, HammingDistance_comm.
Qed.

Lemma Matches_no_checkpoints (T : RokOCRTemplate.t) (img : Image) (fp : ImageHash) :
  RokOCRTemplate.Checkpoints T = [] ->
  Hash T = Some fp ->
  result (Matches dhash CropImage T (Some img))
  = Returns (HammingDistance (dHash dhash img) (GetHash fp) <=? RokOCRTemplate.Threshold T).
Proof.
  intros Hc HT. pose proof (Hash_eq T) as HT'. rewrite HT in HT'.
  injection HT' as ->.
  unfold Matches, DifferenceHash, Match.
  rewrite Hc, HT. run.
  by rewrite popcnt_lxor, HammingDistance_comm.
Qed.

(** What [hashMatches] does with a sub-image that exists. *)
Lemma hashMatches_some (sub : Image) (e : Z) :
  let d := HammingDistance (dHash dhash sub) e in
  hashMatches dhash (Some sub) (Some (NewImageHash e DHash))
  = (CallDifferenceHash (Some sub) ::
       (if d >? 0
        then [Debugf "Expected hash: %x, real hash: %x, distance: %v"
                [ArgHex e; ArgHex (dHash dhash sub); ArgInt d]]
        else []),
     Returns (1 >=? d)).
Proof.
  intros d. unfold hashMatches, DifferenceHash. run.
  rewrite popcnt_lxor. fold d. by destruct (d >? 0).
Qed.

(** ... and with the nil image a failed crop leaves behind. *)
Lemma hashMatches_nil (hash : option ImageHash) :
  hashMatches dhash None hash = ([CallDifferenceHash None], Panics NilDereference).
Proof. unfold hashMatches, DifferenceHash. by run. Qed.

Lemma checkpoint_distance_Some (img : Image) (c : OCRCheckpoint.t) (d : Z) :
  checkpoint_distance dhash CropImage img c = Some d ->
  exists crop rect sub,
    OCRCheckpoint.Crop c = Some crop
    /\ OCRCrop.CropRectange (Some crop) = Returns rect
    /\ CropImage (Some img) rect = (Some sub, (CropImage (Some img) rect).2)
    /\ d = HammingDistance (dHash dhash sub)
             (strconv.ParseUint (OCRCheckpoint.Fingerprint c)).1.
Proof.
  unfold checkpoint_distance. destruct (OCRCheckpoint.Crop c) as [crop|]; [|done].
  cbn [OCRCrop.CropRectange]. rewrite differenceHashFromString_eq.
  destruct (CropImage (Some img) _) as [[sub|] err] eqn:E; [|done].
  cbn. intros [= <-]. eexists crop, _, sub. split_and!; try reflexivity.
  by rewrite E.
Qed.

(** Laws of the computation monad used to run the loop. *)
Lemma bind_Returns {A B} (t : list (@event Image)) (a : A) (f : A -> (@M Image) B) :
  (t, Returns a) ≫= f = (t ++ (f a).1, (f a).2).
Proof. unfold mbind, M_bind. by destruct (f a). Qed.

Lemma bind_Panics {A B} (t : list (@event Image)) (p : panic) (f : A -> (@M Image) B) :
  (t, Panics p) ≫= f = (t, Panics p).
Proof. reflexivity. Qed.

Lemma bind_lift {A B} (a : A) (f : A -> (@M Image) B) :
  lift (Image:=Image) (Returns a) ≫= f = f a.
Proof. unfold lift. rewrite bind_Returns. by destruct (f a). Qed.

Lemma bind_emit {B} (e : @event Image) (f : unit -> (@M Image) B) :
  emit (Image:=Image) e ≫= f = (e :: (f tt).1, (f tt).2).
Proof. unfold emit. by rewrite bind_Returns. Qed.

(** One round of the loop over the checkpoints. *)
Lemma Matches_range_cons (img : Image) (c : OCRCheckpoint.t) (rest : list OCRCheckpoint.t) (d : Z) :
  checkpoint_distance dhash CropImage img c = Some d ->
  result (Matches_range dhash CropImage (Some img) (c :: rest))
  = (if d <=? 1 then result (Matches_range dhash CropImage (Some img) rest) else Returns false)
  /\ crop_calls (trace (Matches_range dhash CropImage (Some img) (c :: rest)))
     = match OCRCrop.CropRectange (OCRCheckpoint.Crop c) with
       | Returns rect =>
           rect :: (if d <=? 1
                    then crop_calls (trace (Matches_range dhash CropImage (Some img) rest))
                    else [])
       | Panics _ => []
       end.
Proof.
  intros Hd. apply checkpoint_distance_Some in Hd as (crop & rect & sub & Hc & Hr & Hs & ->).
  cbn [Matches_range]. rewrite Hc, Hr, differenceHashFromString_eq.
  rewrite bind_lift, bind_emit, Hs, hashMatches_some.
  set (d := HammingDistance _ _).
  replace (1 >=? d) with (d <=? 1) by lia.
  rewrite bind_Returns.
  destruct (d <=? 1) eqn:E; cbn [negb].
  - destruct (Matches_range dhash CropImage (Some img) rest) as [t r].
    unfold crop_calls, trace, result. cbn [fst snd].
    split; [done|].
    change (omap ?f (?x :: ?l)) with (rect :: omap f l).
    f_equal. rewrite omap_app. by destruct (d >? 0).
  - rewrite bind_emit.
    unfold crop_calls, trace, result. cbn [fst snd mret M_ret].
    split; [done|].
    change (omap ?f (?x :: ?l)) with (rect :: omap f l).
    f_equal. rewrite omap_app. by destruct (d >? 0).
Qed.

Lemma Matches_range_undefined (img : Image) (c : OCRCheckpoint.t) (rest : list OCRCheckpoint.t) :
  checkpoint_distance dhash CropImage img c = None ->
  exists p, result (Matches_range dhash CropImage (Some img) (c :: rest)) = Panics p.
Proof.
  unfold checkpoint_distance. cbn [Matches_range].
  destruct (OCRCheckpoint.Crop c) as [crop|]; cbn [OCRCrop.CropRectange].
  - rewrite differenceHashFromString_eq, bind_lift, bind_emit.
    destruct (CropImage (Some img) _) as [[sub|] err]; [done|].
    intros _. rewrite hashMatches_nil, bind_Panics. by eexists.
  - intros _. unfold lift. rewrite bind_Panics. by eexists.
Qed.

Lemma Matches_range_true (img : Image) (cs : list OCRCheckpoint.t) :
  result (Matches_range dhash CropImage (Some img) cs) = Returns true
  <-> forallb (checkpoint_passes dhash CropImage img) cs = true.
Proof.
  induction cs as [|c cs IH]; [done|].
  cbn [forallb]. unfold checkpoint_passes at 1.
  destruct (checkpoint_distance dhash CropImage img c) as [d|] eqn:Hd.
  - destruct (Matches_range_cons img c cs d Hd) as [-> _].
    destruct (d <=? 1); [by rewrite IH|done].
  - destruct (Matches_range_undefined img c cs Hd) as [p ->]. done.
Qed.

Lemma Matches_range_first_failure (img : Image) (pre post : list OCRCheckpoint.t)
    (c : OCRCheckpoint.t) (d : Z) :
  forallb (checkpoint_passes dhash CropImage img) pre = true ->
  checkpoint_distance dhash CropImage img c = Some d -> 1 < d ->
  result (Matches_range dhash CropImage (Some img) (pre ++ c :: post)) = Returns false
  /\ rectangles_of
       (crop_calls (trace (Matches_range dhash CropImage (Some img) (pre ++ c :: post))))
       (pre ++ [c]).
Proof.
  intros Hpre Hd Hlt. induction pre as [|c0 pre IH].
  - destruct (Matches_range_cons img c post d Hd) as [Hr Ht].
    cbn [app]. rewrite Hr, Ht.
    apply checkpoint_distance_Some in Hd as (crop & rect & _ & Hc & Hrect & _).
    rewrite Hc, Hrect. replace (d <=? 1) with false by lia.
    split; [done|]. repeat constructor. by rewrite Hc.
  - cbn [forallb] in Hpre. apply andb_true_iff in Hpre as [Hc0 Hpre].
    unfold checkpoint_passes in Hc0.
    destruct (checkpoint_distance dhash CropImage img c0) as [d0|] eqn:Hd0; [|done].
    destruct (Matches_range_cons img c0 (pre ++ c :: post) d0 Hd0) as [Hr Ht].
    change ((c0 :: pre) ++ c :: post) with (c0 :: (pre ++ c :: post)).
    rewrite Hr, Ht, Hc0.
    apply checkpoint_distance_Some in Hd0 as (crop & rect & _ & Hc & Hrect & _).
    rewrite Hc, Hrect. destruct (IH Hpre) as [-> Hcalls].
    split; [done|]. constructor; [by rewrite Hc|done].
Qed.

Lemma Matches_range_all_cropped (img : Image) (cs : list OCRCheckpoint.t) :
  forallb (checkpoint_passes dhash CropImage img) cs = true ->
  rectangles_of (crop_calls (trace (Matches_range dhash CropImage (Some img) cs))) cs.
Proof.
  induction cs as [|c cs IH]; [constructor|].
  cbn [forallb]. intros [Hc Hcs]%andb_true_iff. unfold checkpoint_passes in Hc.
  destruct (checkpoint_distance dhash CropImage img c) as [d|] eqn:Hd; [|done].
  destruct (Matches_range_cons img c cs d Hd) as [_ Ht]. rewrite Ht, Hc.
  apply checkpoint_distance_Some in Hd as (crop & rect & _ & Hcrop & Hrect & _).
  rewrite Hcrop, Hrect. constructor; [by rewrite Hcrop|by apply IH].
Qed.

(** With checkpoints, [Matches] hashes the whole image once and then runs
    the loop; nothing else of the template is read. *)
Lemma Matches_checkpoints (T : RokOCRTemplate.t) (img : option Image) :
  RokOCRTemplate.Checkpoints T <> [] ->
  Matches dhash CropImage T img
  = (CallDifferenceHash img
       :: trace (Matches_range dhash CropImage img (RokOCRTemplate.Checkpoints T)),
     result (Matches_range dhash CropImage img (RokOCRTemplate.Checkpoints T))).
Proof.
  intros Hne. unfold Matches, DifferenceHash.
  destruct (RokOCRTemplate.Checkpoints T) as [|c cs] eqn:E; [done|].
  cbn [length Nat.eqb].
  by destruct img; rewrite bind_emit; cbn [mret M_ret fst snd]; rewrite bind_Returns.
Qed.

(** C1: for an image and a template without checkpoints, [Matches]
    returns, and it returns true exactly when the Hamming distance between
    the difference hash of the image and the decoded fingerprint of the
    template is at most the threshold; with threshold 0 that is exactly
    when the two hashes are equal. *)
Theorem C1_whole_image_match (img : Image) (T : RokOCRTemplate.t) (fp : ImageHash) :
  RokOCRTemplate.Checkpoints T = [] ->
  Hash T = Some fp ->
  (exists b, result (Matches dhash CropImage T (Some img)) = Returns b)
  /\ (result (Matches dhash CropImage T (Some img)) = Returns true
      <-> HammingDistance (dHash dhash img) (GetHash fp) <= RokOCRTemplate.Threshold T)
  /\ (RokOCRTemplate.Threshold T = 0 ->
      (result (Matches dhash CropImage T (Some img)) = Returns true
       <-> dHash dhash img = GetHash fp)).
Proof.
  intros Hc HT. rewrite (Matches_no_checkpoints T img fp Hc HT).
  split; [by eexists|]. split.
  - split; [intros [= E]; lia|intros E; f_equal; lia].
  - intros ->. rewrite <- (HammingDistance_zero (dHash dhash img) (GetHash fp)).
    + pose proof (HammingDistance_nonneg (dHash dhash img) (GetHash fp)).
      split; [intros [= E]; lia|intros E; f_equal; lia].
    + apply dHash_range.
    + pose proof (Hash_eq T) as HT'. rewrite HT in HT'. injection HT' as ->.
      apply ParseUint_range.
Qed.

(** C2: for an image and a template with checkpoints, [Matches] returns
    true exactly when every checkpoint has a distance and that distance is
    at most 1, whatever the threshold, and then every checkpoint was
    cropped, in declared order.  At the first checkpoint whose distance
    exceeds 1 the result is false, and the crops made are those of the
    checkpoints up to that one, in declared order: no later checkpoint is
    tried. *)
Theorem C2_checkpoint_match (img : Image) (T : RokOCRTemplate.t) :
  RokOCRTemplate.Checkpoints T <> [] ->
  (result (Matches dhash CropImage T (Some img)) = Returns true
     <-> forallb (checkpoint_passes dhash CropImage img) (RokOCRTemplate.Checkpoints T) = true)
  /\ (result (Matches dhash CropImage T (Some img)) = Returns true ->
      rectangles_of (crop_calls (trace (Matches dhash CropImage T (Some img))))
        (RokOCRTemplate.Checkpoints T))
  /\ (forall pre c post d,
        RokOCRTemplate.Checkpoints T = pre ++ c :: post ->
        forallb (checkpoint_passes dhash CropImage img) pre = true ->
        checkpoint_distance dhash CropImage img c = Some d -> 1 < d ->
        result (Matches dhash CropImage T (Some img)) = Returns false
        /\ rectangles_of (crop_calls (trace (Matches dhash CropImage T (Some img))))
             (pre ++ [c])).
Proof.
  intros Hne. rewrite (Matches_checkpoints T (Some img) Hne).
  unfold result at 1 2 4, trace at 1 3. cbn [fst snd].
  change (crop_calls (CallDifferenceHash (Some img) :: ?t)) with (crop_calls t).
  split_and!.
  - apply Matches_range_true.
  - intros Htrue. by apply Matches_range_all_cropped, Matches_range_true.
  - intros pre c post d -> Hpre Hd Hlt.
    by apply (Matches_range_first_failure img pre post c d).
Qed.

(** C3: two templates with the same non-empty list of checkpoints give
    the same run of [Matches] on every image (the nil image included): the
    same calls, the same log and the same result, whatever their
    fingerprints, thresholds and other fields. *)
Theorem C3_checkpoints_supersede (img : option Image) (T1 T2 : RokOCRTemplate.t) :
  RokOCRTemplate.Checkpoints T1 = RokOCRTemplate.Checkpoints T2 ->
  RokOCRTemplate.Checkpoints T1 <> [] ->
  Matches dhash CropImage T1 img = Matches dhash CropImage T2 img.
Proof.
  intros Heq Hne. rewrite (Matches_checkpoints T1 img Hne).
  rewrite Heq in Hne. by rewrite (Matches_checkpoints T2 img Hne), Heq.
Qed.

(** C4, as amended: for an image and a template all of whose checkpoints
    have a rectangle that the crop primitive cuts from the image,
    [Matches] returns a boolean; [Match] returns a boolean for every hash,
    and false when the distance computation reports an error.  Decoding a
    fingerprint never fails: whatever the string, a hash comes out and is
    compared like any other. *)
Theorem C4_matching_returns (img : Image) (T : RokOCRTemplate.t) :
  Forall (fun c => is_Some (checkpoint_distance dhash CropImage img c))
    (RokOCRTemplate.Checkpoints T) ->
  (exists b, result (Matches dhash CropImage T (Some img)) = Returns b)
  /\ (forall h : ImageHash, exists b, result (Match (Image:=Image) T (Some h)) = Returns b)
  /\ (forall h : ImageHash,
        GetKind h <> DHash -> result (Match (Image:=Image) T (Some h)) = Returns false)
  /\ (exists v, Hash T = Some (NewImageHash v DHash)).
Proof.
  intros Hall. split_and!.
  - destruct (RokOCRTemplate.Checkpoints T) as [|c0 cs0] eqn:E.
    + rewrite (Matches_no_checkpoints T img _ E (Hash_eq T)). by eexists.
    + rewrite Matches_checkpoints by (by rewrite E). rewrite E.
      unfold result at 1. cbn [snd]. clear E.
      induction Hall as [|c cs [d Hd] _ IH]; [by eexists|].
      destruct (Matches_range_cons img c cs d Hd) as [-> _].
      destruct (d <=? 1); [done|by eexists].
  - intros [h k]. unfold Match. rewrite Hash_eq.
    destruct k; run; by eexists.
  - intros [h k] Hk. unfold Match. rewrite Hash_eq.
    by destruct k; run.
  - eexists. apply Hash_eq.
Qed.

End MatcherFacts.

Lemma C1_whole_image_match_witness :
  RokOCRTemplate.Checkpoints scenario1 = []
  /\ Hash scenario1 = Some (NewImageHash 0 DHash)
  /\ result (Matches Double.dhash Double.CropImage scenario1 (Some Double.blank)) = Returns true
  /\ result (Matches Double.dhash Double.CropImage scenario1 (Some Double.speck)) <> Returns true.
Proof.
  split; [reflexivity|]. split; [reflexivity|].
  pose proof (C1_whole_image_match Double.dhash Double.CropImage Double.blank scenario1
                (NewImageHash 0 DHash) eq_refl eq_refl) as (_ & _ & Hb).
  pose proof (C1_whole_image_match Double.dhash Double.CropImage Double.speck scenario1
                (NewImageHash 0 DHash) eq_refl eq_refl) as (_ & _ & Hs).
  split.
  - apply (Hb eq_refl). reflexivity.
  - intros E. apply (Hs eq_refl) in E. discriminate E.
Defined.

Lemma C2_checkpoint_match_witness :
  RokOCRTemplate.Checkpoints scenario4 <> []
  /\ checkpoint_distance Double.dhash Double.CropImage Double.blank checkpoint_far = Some 2
  /\ result (Matches Double.dhash Double.CropImage scenario4 (Some Double.blank)) = Returns false
  /\ rectangles_of
       (crop_calls (trace (Matches Double.dhash Double.CropImage scenario4 (Some Double.blank))))
       [checkpoint_near; checkpoint_far].
Proof.
  assert (Hne : RokOCRTemplate.Checkpoints scenario4 <> []) by discriminate.
  split; [exact Hne|]. split; [reflexivity|].
  pose proof (C2_checkpoint_match Double.dhash Double.CropImage Double.blank scenario4 Hne)
    as (_ & _ & Hshort).
  apply (Hshort [checkpoint_near] checkpoint_far [checkpoint_bare] 2);
    [reflexivity|reflexivity|reflexivity|reflexivity].
Defined.

Lemma C3_checkpoints_supersede_witness :
  let T1 := template_of "ffffffffffffffff" 0 [checkpoint_near] in
  let T2 := template_of "0" 64 [checkpoint_near] in
  RokOCRTemplate.Checkpoints T1 = RokOCRTemplate.Checkpoints T2
  /\ RokOCRTemplate.Checkpoints T1 <> []
  /\ Matches Double.dhash Double.CropImage T1 (Some Double.speck)
     = Matches Double.dhash Double.CropImage T2 (Some Double.speck).
Proof.
  intros T1 T2.
  assert (Hne : RokOCRTemplate.Checkpoints T1 <> []) by discriminate.
  split; [reflexivity|]. split; [exact Hne|].
  exact (C3_checkpoints_supersede Double.dhash Double.CropImage (Some Double.speck)
           T1 T2 eq_refl Hne).
Defined.

Lemma C4_matching_returns_witness :
  let T := template_of "zz" 0 [checkpoint_near; checkpoint_far] in
  Forall (fun c => is_Some (checkpoint_distance Double.dhash Double.CropImage Double.blank c))
    (RokOCRTemplate.Checkpoints T)
  /\ exists b, result (Matches Double.dhash Double.CropImage T (Some Double.blank)) = Returns b.
Proof.
  intros T.
  assert (Hall : Forall (fun c => is_Some (checkpoint_distance Double.dhash Double.CropImage
                                            Double.blank c)) (RokOCRTemplate.Checkpoints T)).
  { repeat constructor; eexists; reflexivity. }
  split; [exact Hall|].
  exact (proj1 (C4_matching_returns Double.dhash Double.CropImage Double.blank T Hall)).
Defined.

(** C4 fails as stated.  A checkpoint without a rectangle makes [Matches]
    panic; so does a crop that yields no image; and a fingerprint that does
    not decode is no failure at all: it reads as the hash 0, which matches
    the blank raster. *)
Lemma C4_counterexample :
  result (Matches Double.dhash Double.CropImage (template_of "" 0 [checkpoint_bare])
            (Some Double.blank)) = Panics NilDereference
  /\ result (Matches Double.dhash Double.CropImage
               (template_of "" 0 [OCRCheckpoint.mk (Some (OCRCrop.mk 95 95 10 10)) "0"])
               (Some Double.blank)) = Panics NilDereference
  /\ (strconv.ParseUint "zz").2 = Some strconv.ErrSyntax
  /\ result (Matches Double.dhash Double.CropImage (template_of "zz" 0 [])
               (Some Double.blank)) = Returns true.
Proof. repeat split; vm_compute; reflexivity. Qed.

(** ** Malformed fingerprints *)

Lemma hex_prefix_split (s : string) :
  all_hex (hex_prefix s) = true
  /\ (s = hex_prefix s
      \/ exists c rest, s = hex_prefix s +:+ String c rest /\ is_hex_digit c = false).
Proof.
  induction s as [|c s [IHall IHsplit]]; [by split; [|left]|].
  cbn [hex_prefix]. destruct (is_hex_digit c) eqn:Hc.
  - cbn [all_hex]. rewrite Hc, IHall. split; [done|].
    destruct IHsplit as [IH|(c' & rest & IH & Hc')].
    + left. by rewrite <- IH.
    + right. exists c', rest. split; [|done].
      change (String c (hex_prefix s) +:+ String c' rest)
        with (String c (hex_prefix s +:+ String c' rest)).
      by rewrite <- IH.
  - split; [done|]. right. by exists c, s.
Qed.

Lemma valid_hex_all_hex (s : string) : all_hex s = true -> s <> EmptyString -> valid_hex s = true.
Proof. by destruct s. Qed.

Lemma hex_value_bound (s : string) (n : Z) :
  all_hex s = true -> 0 <= n -> hex_value s n < (n + 1) * 16 ^ Z.of_nat (String.length s).
Proof.
  revert n. induction s as [|c s IH]; intros n Hall Hn; [simpl; lia|].
  cbn [all_hex] in Hall. apply andb_true_iff in Hall as [Hc Hall].
  cbn [hex_value String.length]. unfold is_hex_digit in Hc.
  pose proof (digit_hex c) as Hd.
  destruct (strconv.digit _) as [d|]; [|by rewrite Hd in Hc].
  destruct (d >=? strconv.base); [by rewrite Hd in Hc|].
  destruct Hd as [-> Hr]. change (default 0 (Some d)) with d.
  eapply Z.lt_le_trans; [apply IH; [done|lia]|].
  rewrite Nat2Z.inj_succ, Z.pow_succ_r by lia.
  assert (0 < 16 ^ Z.of_nat (String.length s)) by (apply Z.pow_pos_nonneg; lia).
  nia.
Qed.

Lemma hex_prefix_length (s : string) : (String.length (hex_prefix s) <= String.length s)%nat.
Proof.
  induction s as [|c s IH]; [done|]. cbn [hex_prefix].
  destruct (is_hex_digit c); cbn [String.length]; lia.
Qed.

(** A malformed string of at most sixteen characters never overflows. *)
Lemma short_prefix_fits (s : string) :
  (String.length s <= 16)%nat -> hex_value (hex_prefix s) 0 < 2 ^ 64.
Proof.
  intros Hlen. destruct (hex_prefix_split s) as [Hall _].
  pose proof (hex_value_bound (hex_prefix s) 0 Hall ltac:(lia)) as Hb.
  pose proof (hex_prefix_length s).
  assert (16 ^ Z.of_nat (String.length (hex_prefix s)) <= 16 ^ 16).
  { apply Z.pow_le_mono_r; lia. }
  change (16 ^ 16) with (2 ^ 64) in *. lia.
Qed.

(** C7, as amended: a fingerprint that is not valid hexadecimal decodes to
    the hash 0, with the parse error dropped, whenever the hexadecimal digits
    it starts with denote a value below [2^64]; that covers the empty
    string and every malformed string of at most sixteen characters. *)
Theorem C7_malformed_fingerprint (s : string) :
  valid_hex s = false ->
  hex_value (hex_prefix s) 0 < 2 ^ 64 ->
  strconv.ParseUint s = (0, Some strconv.ErrSyntax)
  /\ differenceHashFromString s = Some (NewImageHash 0 DHash)
  /\ forall T, RokOCRTemplate.Fingerprint T = s -> Hash T = Some (NewImageHash 0 DHash).
Proof.
  intros Hinv Hfit.
  assert (HP : strconv.ParseUint s = (0, Some strconv.ErrSyntax)).
  { destruct (hex_prefix_split s) as [Hall [Heq|(c & rest & Heq & Hc)]].
    - rewrite <- Heq in Hall. destruct s as [|c s]; [done|].
      by rewrite (valid_hex_all_hex _ Hall) in Hinv.
    - destruct s as [|c0 s0]; [done|].
      unfold strconv.ParseUint. rewrite Heq at 1.
      rewrite ParseUint_loop_prefix by (done || lia).
      by apply ParseUint_loop_invalid. }
  split; [done|].
  assert (HD : differenceHashFromString s = Some (NewImageHash 0 DHash)).
  { by rewrite differenceHashFromString_eq, HP. }
  split; [done|]. intros T <-. exact HD.
Qed.

Lemma C7_malformed_fingerprint_witness :
  valid_hex "zz" = false
  /\ hex_value (hex_prefix "zz") 0 < 2 ^ 64
  /\ differenceHashFromString "zz" = Some (NewImageHash 0 DHash).
Proof.
  split; [reflexivity|]. split; [reflexivity|].
  exact (proj1 (proj2 (C7_malformed_fingerprint "zz" eq_refl eq_refl))).
Defined.

(** C7 fails as stated: here sixteen digits have filled the 64 bits when a
    seventeenth digit arrives, so the range error comes first, and the
    invalid character after it is never reached: the hash is [2^64 - 1]. *)
Lemma C7_counterexample :
  valid_hex "10000000000000000z" = false
  /\ strconv.ParseUint "10000000000000000z" = (2 ^ 64 - 1, Some strconv.ErrRange)
  /\ differenceHashFromString "10000000000000000z" = Some (NewImageHash (2 ^ 64 - 1) DHash)
  /\ differenceHashFromString "10000000000000000z" <> Some (NewImageHash 0 DHash).
Proof. repeat split; try (vm_compute; reflexivity). vm_compute. discriminate. Qed.

(** ** Field presets *)

(** C8: [NewNumberField] allows exactly the digits 0 to 9, reads English,
    and uses page segmentation mode 7 and engine mode 1; [NewTextField]
    uses the same two modes, the languages it is given, and no allow-list.
    Both keep the crop area they are given. *)
Theorem C8_field_presets (cropArea : option OCRCrop.t) (languages : list string) :
  ROKOCRSchema.AllowList (NewNumberField cropArea)
    = map (fun d => IInt (Z.of_nat d)) (seq 0 10)
  /\ ROKOCRSchema.Languages (NewNumberField cropArea) = ["eng"%string]
  /\ ROKOCRSchema.PSM (NewNumberField cropArea) = 7
  /\ ROKOCRSchema.OEM (NewNumberField cropArea) = 1
  /\ ROKOCRSchema.Crop (NewNumberField cropArea) = cropArea
  /\ ROKOCRSchema.PSM (NewTextField cropArea languages) = 7
  /\ ROKOCRSchema.OEM (NewTextField cropArea languages) = 1
  /\ ROKOCRSchema.Languages (NewTextField cropArea languages) = languages
  /\ ROKOCRSchema.AllowList (NewTextField cropArea languages) = []
  /\ ROKOCRSchema.Crop (NewTextField cropArea languages) = cropArea.
Proof. repeat split. Qed.

(** ** Loading a template *)

Lemma decode_members_app {A} (field : string -> decoder A)
    (l1 l2 : list (string * json)) (cur : A) (saved : option error) :
  decode_members field (l1 ++ l2) cur saved
  = match decode_members field l1 cur saved with
    | DOk a saved' => decode_members field l2 a saved'
    | r => r
    end.
Proof.
  revert cur saved. induction l1 as [|[k j] l1 IH]; intros cur saved; [done|].
  cbn [app decode_members]. by destruct (field k j cur saved).
Qed.

Lemma decode_elems_app {A} (dec : decoder A) (zero : A)
    (l1 l2 : list json) (cur : list A) (saved : option error) :
  decode_elems dec zero (l1 ++ l2) cur saved
  = match decode_elems dec zero l1 cur saved with
    | DOk r saved' =>
        dmap (app r) (decode_elems dec zero l2 (drop (length l1) cur) saved')
    | DFail r e => DFail r e
    | DPanic p => DPanic p
    end.
Proof.
  revert cur saved. induction l1 as [|j l1 IH]; intros cur saved.
  - cbn [app decode_elems length]. rewrite drop_0.
    by destruct (decode_elems dec zero l2 cur saved).
  - cbn [app decode_elems length]. destruct (dec j (hd zero cur) saved) as [a s'| |]; [|done..].
    rewrite IH.
    assert (Hd : drop (S (length l1)) cur = drop (length l1) (tl cur)).
    { destruct cur; [|done]. cbn [tl]. by rewrite !drop_nil. }
    rewrite Hd.
    destruct (decode_elems dec zero l1 (tl cur) s') as [r s''| |]; [|done..].
    cbn [dmap]. by destruct (decode_elems dec zero l2 _ s'').
Qed.

(** A sub-document that is neither an array nor [null] does not fit a
    [[]interface{}]. *)
Lemma Unmarshal_ifaces_mismatch (data : json) (k : jkind) :
  json_kind data = Some k -> k <> KArray ->
  Unmarshal_ifaces data = ([], Some (UnmarshalTypeError k "[]interface {}")).
Proof. by destruct data; intros [= <-] ?. Qed.

Lemma asserted_string_of_json (j : json) :
  (assert_string_ok (valueInterface j)).1 = match j with JString s => s | _ => ""%string end.
Proof. destruct j as [| |n| | |]; try done. simpl. by destruct (ParseFloat n). Qed.

Lemma TableField_not_an_array (b : ROKTableField.t) (data : json) (k : jkind) :
  json_kind data = Some k -> k <> KArray ->
  ROKTableField.UnmarshalJSON b data
  = Returns (b, Some (UnmarshalTypeError k "[]interface {}")).
Proof.
  intros Hk Hne. unfold ROKTableField.UnmarshalJSON.
  by rewrite (Unmarshal_ifaces_mismatch data k Hk Hne).
Qed.

Lemma Crop_not_an_array (b : OCRCrop.t) (data : json) (k : jkind) :
  json_kind data = Some k -> k <> KArray ->
  OCRCrop.UnmarshalJSON b data
  = Returns (b, Some (UnmarshalTypeError k "[]interface {}")).
Proof.
  intros Hk Hne. unfold OCRCrop.UnmarshalJSON.
  by rewrite (Unmarshal_ifaces_mismatch data k Hk Hne).
Qed.

Lemma template_field_table_fail (key : string) (j : json) (t : RokOCRTemplate.t)
    (saved : option error) (v : list ROKTableField.t) (e : error) :
  fold_key key = "table"%string ->
  decode_slice "[]ocrschema.ROKTableField" decode_table_field ROKTableField.zero
    j (RokOCRTemplate.Table t) saved = DFail v e ->
  exists t', template_field key j t saved = DFail t' e.
Proof.
  intros Hk Hd. unfold template_field. rewrite Hk. destruct t. cbn in *.
  rewrite Hd. by eexists.
Qed.

Lemma template_field_checkpoints_fail (key : string) (j : json) (t : RokOCRTemplate.t)
    (saved : option error) (v : list OCRCheckpoint.t) (e : error) :
  fold_key key = "checkpoints"%string ->
  decode_slice "[]ocrschema.OCRCheckpoint" decode_checkpoint OCRCheckpoint.zero
    j (RokOCRTemplate.Checkpoints t) saved = DFail v e ->
  exists t', template_field key j t saved = DFail t' e.
Proof.
  intros Hk Hd. unfold template_field. rewrite Hk. destruct t. cbn in *.
  rewrite Hd. by eexists.
Qed.

Lemma checkpoint_field_crop_fail (key : string) (j : json) (c : OCRCheckpoint.t)
    (saved : option error) (k : jkind) :
  fold_key key = "crop"%string ->
  json_kind j = Some k -> k <> KArray ->
  exists c', checkpoint_field key j c saved
             = DFail c' (UnmarshalTypeError k "[]interface {}").
Proof.
  intros Hkey Hk Hne. unfold checkpoint_field. rewrite Hkey. cbn.
  unfold decode_crop_ptr. destruct j; try done;
    rewrite (Crop_not_an_array _ _ k Hk Hne); by eexists.
Qed.

Section LoadFacts.

Variable ReadFile : string -> string * option error.
Variable scan : string -> json + error.

Lemma LoadTemplate_document (fileName b : string) (read_err : option error) (doc : json) :
  ReadFile fileName = (b, read_err) -> b <> EmptyString -> scan b = inl doc ->
  LoadTemplate ReadFile scan fileName = Unmarshal_document doc RokOCRTemplate.zero.
Proof.
  intros HR Hb Hs. unfold LoadTemplate, Unmarshal. rewrite HR.
  destruct b; [done|]. by rewrite Hs.
Qed.

(** C5, as amended: a table descriptor or a crop rectangle that is a JSON
    object, string, number or boolean makes its [UnmarshalJSON] return a
    deserialization error, and [LoadTemplate] returns that error when the
    descriptor stands in the ["table"] array (or the rectangle is the
    ["crop"] of an element of ["checkpoints"]) and everything before it in
    the document decodes.  A table descriptor of four or more elements is
    accepted whatever its first two elements are: one that is no string
    reads as the empty string. *)
Theorem C5_descriptor_that_is_no_array (bad : json) (k : jkind) :
  json_kind bad = Some k -> k <> KArray ->
  (forall b, ROKTableField.UnmarshalJSON b bad
             = Returns (b, Some (UnmarshalTypeError k "[]interface {}")))
  /\ (forall b, OCRCrop.UnmarshalJSON b bad
                = Returns (b, Some (UnmarshalTypeError k "[]interface {}")))
  /\ (forall fileName b read_err before key good rest after t1 s1 decoded s2,
        ReadFile fileName = (b, read_err) -> b <> EmptyString ->
        scan b = inl (JObject (before ++ (key, JArray (good ++ bad :: rest)) :: after)) ->
        fold_key key = "table"%string ->
        decode_members template_field before RokOCRTemplate.zero None = DOk t1 s1 ->
        decode_elems decode_table_field ROKTableField.zero good
          (RokOCRTemplate.Table t1) s1 = DOk decoded s2 ->
        exists t', LoadTemplate ReadFile scan fileName
                   = Returns (t', Some (UnmarshalTypeError k "[]interface {}")))
  /\ (forall fileName b read_err before key good cbefore ckey cafter rest after
             t1 s1 decoded s2 c1 s3,
        ReadFile fileName = (b, read_err) -> b <> EmptyString ->
        scan b = inl (JObject (before ++
                   (key, JArray (good ++ JObject (cbefore ++ (ckey, bad) :: cafter) :: rest))
                   :: after)) ->
        fold_key key = "checkpoints"%string -> fold_key ckey = "crop"%string ->
        decode_members template_field before RokOCRTemplate.zero None = DOk t1 s1 ->
        decode_elems decode_checkpoint OCRCheckpoint.zero good
          (RokOCRTemplate.Checkpoints t1) s1 = DOk decoded s2 ->
        decode_members checkpoint_field cbefore
          (hd OCRCheckpoint.zero (drop (length good) (RokOCRTemplate.Checkpoints t1))) s2
          = DOk c1 s3 ->
        exists t', LoadTemplate ReadFile scan fileName
                   = Returns (t', Some (UnmarshalTypeError k "[]interface {}")))
  /\ (forall b v0 v1 bold color more,
        existsb number_error (v0 :: v1 :: more) = false ->
        ROKTableField.UnmarshalJSON b
          (JArray (v0 :: v1 :: JBool bold :: JString color :: more))
        = Returns (ROKTableField.mk
                     match v0 with JString s => s | _ => ""%string end
                     match v1 with JString s => s | _ => ""%string end
                     bold color, None)).
Proof.
  intros Hk Hne. split_and!.
  - intros b. by apply TableField_not_an_array.
  - intros b. by apply Crop_not_an_array.
  - intros fileName b read_err before key good rest after t1 s1 decoded s2
      HR Hb Hs Hkey Hbefore Hgood.
    rewrite (LoadTemplate_document _ _ _ _ HR Hb Hs).
    unfold Unmarshal_document, decode_template, decode_struct.
    rewrite decode_members_app, Hbefore. cbn [decode_members].
    edestruct (template_field_table_fail key (JArray (good ++ bad :: rest)) t1 s1)
      as [t' Ht']; [exact Hkey| |].
    { unfold decode_slice. rewrite decode_elems_app, Hgood. cbn [decode_elems].
      unfold decode_table_field at 1.
      rewrite (TableField_not_an_array _ _ k Hk Hne). reflexivity. }
    rewrite Ht'. by eexists.
  - intros fileName b read_err before key good cbefore ckey cafter rest after
      t1 s1 decoded s2 c1 s3 HR Hb Hs Hkey Hckey Hbefore Hgood Hcbefore.
    rewrite (LoadTemplate_document _ _ _ _ HR Hb Hs).
    unfold Unmarshal_document, decode_template, decode_struct.
    rewrite decode_members_app, Hbefore. cbn [decode_members].
    destruct (checkpoint_field_crop_fail ckey bad c1 s3 k Hckey Hk Hne) as [c' Hc'].
    edestruct (template_field_checkpoints_fail key
                (JArray (good ++ JObject (cbefore ++ (ckey, bad) :: cafter) :: rest)) t1 s1)
      as [t' Ht']; [exact Hkey| |].
    { unfold decode_slice. rewrite decode_elems_app, Hgood. cbn [decode_elems].
      unfold decode_checkpoint at 1, decode_struct.
      rewrite decode_members_app, Hcbefore. cbn [decode_members].
      rewrite Hc'. reflexivity. }
    rewrite Ht'. by eexists.
  - intros b v0 v1 bold color more Hnum.
    cbn [existsb] in Hnum. apply orb_false_iff in Hnum as [H0 Hnum].
    apply orb_false_iff in Hnum as [H1 Hmore].
    unfold ROKTableField.UnmarshalJSON, Unmarshal_ifaces, decode_slice.
    cbn [decode_elems hd tl].
    assert (Helem : forall j cur s, number_error j = false ->
              decode_iface j cur s = DOk (valueInterface j) s).
    { intros j cur s Hj. destruct j as [| |n| | |]; cbn in *; try by rewrite ?Hj.
      by destruct (ParseFloat n). }
    rewrite (Helem v0 _ None H0). cbn [dmap].
    rewrite (Helem v1 _ None H1). cbn [dmap decode_iface valueInterface number_error].
    assert (Hrest : exists r, decode_elems decode_iface INil more [] None = DOk r None).
    { clear -Hmore Helem. generalize (@nil iface).
      induction more as [|j more IH]; intros cur; [by eexists|].
      cbn [existsb] in Hmore. apply orb_false_iff in Hmore as [Hj Hmore].
      cbn [decode_elems]. rewrite (Helem j _ None Hj).
      destruct (IH Hmore (tl cur)) as [r ->]. by eexists. }
    destruct Hrest as [r ->]. cbn.
    by rewrite <- !asserted_string_of_json.
Qed.

End LoadFacts.

(** C10: [LoadTemplate] takes a negative threshold as it stands, and a
    template without checkpoints whose threshold is negative matches no
    image: a Hamming distance is never negative. *)
Theorem C10_negative_threshold_never_matches
    (ReadFile : string -> string * option error) (scan : string -> json + error)
    {Image : Type} (dhash : Image -> Z)
    (CropImage : option Image -> Rectangle -> option Image * option error) :
  (forall fileName b read_err k,
      ReadFile fileName = (b, read_err) -> b <> EmptyString ->
      scan b = inl (JObject [("threshold"%string, JNumber (IntLit k))]) ->
      - 2 ^ 63 <= k < 0 ->
      exists T, LoadTemplate ReadFile scan fileName = Returns (T, None)
                /\ RokOCRTemplate.Threshold T = k
                /\ forall img, result (Matches dhash CropImage T (Some img)) = Returns false)
  /\ (forall T img,
        RokOCRTemplate.Checkpoints T = [] -> RokOCRTemplate.Threshold T < 0 ->
        result (Matches dhash CropImage T (Some img)) = Returns false).
Proof.
  assert (Hnever : forall T img,
             RokOCRTemplate.Checkpoints T = [] -> RokOCRTemplate.Threshold T < 0 ->
             result (Matches dhash CropImage T (Some img)) = Returns false).
  { intros T img Hc Hneg.
    rewrite (Matches_no_checkpoints dhash CropImage T img _ Hc (Hash_eq T)).
    f_equal. apply Z.leb_gt.
    pose proof (HammingDistance_nonneg (dHash dhash img)
                  (GetHash (NewImageHash (strconv.ParseUint (RokOCRTemplate.Fingerprint T)).1
                              DHash))).
    lia. }
  split; [|exact Hnever].
  intros fileName b read_err k HR Hb Hs Hk.
  rewrite (LoadTemplate_document ReadFile scan _ _ _ _ HR Hb Hs).
  unfold Unmarshal_document. cbn.
  assert (Hint : is_int k = true) by (unfold is_int; lia).
  rewrite Hint. cbn. eexists. split; [reflexivity|]. split; [reflexivity|].
  intros img. apply Hnever; [reflexivity|]. cbn. lia.
Qed.

Lemma C10_negative_threshold_never_matches_witness :
  exists T, LoadTemplate Double.ReadFile Double.scan "negative_threshold.json" = Returns (T, None)
            /\ RokOCRTemplate.Threshold T = -3
            /\ forall img, result (Matches Double.dhash Double.CropImage T (Some img))
                           = Returns false.
Proof.
  refine (proj1 (C10_negative_threshold_never_matches Double.ReadFile Double.scan
                   Double.dhash Double.CropImage)
            "negative_threshold.json" _ None (-3) eq_refl _ eq_refl _).
  - discriminate.
  - lia.
Defined.

Lemma C5_descriptor_that_is_no_array_witness :
  json_kind (JObject [("title"%string, JString "Name")]) = Some KObject
  /\ KObject <> KArray
  /\ (exists t', LoadTemplate Double.ReadFile Double.scan "keyed_descriptor.json"
                 = Returns (t', Some (UnmarshalTypeError KObject "[]interface {}")))
  /\ (exists t', LoadTemplate Double.ReadFile Double.scan "text_rectangle.json"
                 = Returns (t', Some (UnmarshalTypeError KString "[]interface {}"))).
Proof.
  assert (Hobject : KObject <> KArray) by discriminate.
  assert (Hstring : KString <> KArray) by discriminate.
  split; [reflexivity|]. split; [exact Hobject|].
  pose proof (C5_descriptor_that_is_no_array Double.ReadFile Double.scan
                (JObject [("title"%string, JString "Name")]) KObject eq_refl Hobject)
    as (_ & _ & Htable & _).
  pose proof (C5_descriptor_that_is_no_array Double.ReadFile Double.scan
                (JString "0,0,10,10") KString eq_refl Hstring)
    as (_ & _ & _ & Hcrop & _).
  split.
  - eapply (Htable "keyed_descriptor.json"%string _ None
              [("title"%string, JString "kills")] "table"%string [] [] []);
      first [reflexivity|discriminate].
  - eapply (Hcrop "text_rectangle.json"%string _ None
              [] "checkpoints"%string [] [] "crop"%string [] [] []);
      first [reflexivity|discriminate].
Defined.

(** C5 fails as stated.  A descriptor or a rectangle with fewer than four
    elements, a descriptor whose third element is no boolean, a rectangle
    with an element that is no number: each makes [LoadTemplate] panic, and
    no error is returned.  A descriptor whose first two elements are numbers
    loads without any error. *)
Lemma C5_counterexample :
  LoadTemplate Double.ReadFile Double.scan "short_table.json" = Panics (IndexOutOfRange 3 3)
  /\ LoadTemplate Double.ReadFile Double.scan "bold_text.json"
     = Panics (InterfaceConversion "bool")
  /\ LoadTemplate Double.ReadFile Double.scan "short_crop.json" = Panics (IndexOutOfRange 3 3)
  /\ LoadTemplate Double.ReadFile Double.scan "text_crop.json"
     = Panics (InterfaceConversion "float64")
  /\ LoadTemplate Double.ReadFile Double.scan "numbered_titles.json"
     = Returns (RokOCRTemplate.mk "" "" "" 0 0 ∅ "" 0
                  [ROKTableField.mk "" "" true "#FFFFFF"] [], None).
Proof. repeat split; vm_compute; reflexivity. Qed.

(** ** Integers through float64 *)

Lemma digits2_size (m : positive) : digits2_pos m = Pos.size m.
Proof. induction m; simpl; congruence. Qed.

Lemma digits2_iter_xO (m k : positive) :
  digits2_pos (Pos.iter xO m k) = (digits2_pos m + k)%positive.
Proof.
  induction k as [|k IH] using Pos.peano_ind.
  - simpl. lia.
  - rewrite Pos.iter_succ. simpl. rewrite IH. lia.
Qed.

Lemma iter_xO_mul (m k : positive) : Z.pos (Pos.iter xO m k) = Z.pos m * 2 ^ Z.pos k.
Proof.
  induction k as [|k IH] using Pos.peano_ind.
  - simpl. lia.
  - rewrite Pos.iter_succ, Pos2Z.inj_succ, Z.pow_succ_r by lia.
    rewrite Pos2Z.inj_xO, IH. lia.
Qed.

Lemma digits2_bound (m : positive) : Z.pos m < 2 ^ 53 -> (Z.pos (digits2_pos m) <= 53).
Proof.
  intros Hm. rewrite digits2_size.
  pose proof (Pos.size_le m) as Hle.
  destruct (Z_le_gt_dec (Z.pos (Pos.size m)) 53) as [|Hgt]; [done|exfalso].
  assert (2 ^ 54 <= 2 ^ Z.pos (Pos.size m)) by (apply Z.pow_le_mono_r; lia).
  assert (Z.pos (2 ^ Pos.size m) <= Z.pos (m~0)) by lia.
  rewrite Pos2Z.inj_pow in *. lia.
Qed.

Lemma binary_round_aux_canonical (s : bool) (mz : positive) (ez : Z) :
  Z.pos (digits2_pos mz) = 53 -> -1074 <= ez <= 971 ->
  binary_round_aux 53 1024 s (Z.pos mz) ez loc_Exact = S754_finite s mz ez.
Proof.
  intros Hd He.
  assert (Hshift : Z.max (Z.pos (digits2_pos mz) + ez - 53) (3 - 1024 - 53) - ez = 0) by lia.
  unfold binary_round_aux, shr_fexp, Zdigits2, fexp, emin.
  rewrite Hshift.
  cbn [shr shr_record_of_loc shr_m loc_of_shr_record round_nearest_even].
  rewrite Hshift.
  cbn [shr shr_record_of_loc shr_m].
  replace (ez <=? 1024 - 53) with true by lia. reflexivity.
Qed.

(** binary_round on a mantissa of fewer than 53 bits is exact *)
Lemma binary_round_exact (s : bool) (m : positive) :
  Z.pos m < 2 ^ 53 ->
  exists m' e', binary_round 53 1024 s m 0 = S754_finite s m' e'
     /\ -52 <= e' <= 0 /\ Z.pos m' = Z.pos m * 2 ^ (- e').
Proof.
  intros Hm. pose proof (digits2_bound m Hm) as Hd.
  unfold binary_round, shl_align, fexp, emin.
  set (d := digits2_pos m) in *.
  replace (Z.max (Z.pos d + 0 - 53) (3 - 1024 - 53)) with (Z.pos d - 53) by lia.
  destruct (Z.pos d - 53 - 0) as [|k|k] eqn:Hk; [|lia|].
  - exists m, 0. split; [|split; [lia|lia]].
    apply binary_round_aux_canonical; [fold d|]; lia.
  - exists (Pos.iter xO m k), (Z.pos d - 53). split; [|split; [lia|]].
    + apply binary_round_aux_canonical; [|lia].
      rewrite digits2_iter_xO. fold d. lia.
    + rewrite iter_xO_mul. f_equal. f_equal. lia.
Qed.

Lemma float64_of_Z_exact (z : Z) :
  - 2 ^ 53 <= z <= 2 ^ 53 ->
  ParseFloat (IntLit z) = Some (float64_of_Z z) /\ int_of_float64 (float64_of_Z z) = z.
Proof.
  intros Hz.
  destruct (Z.eq_dec z (2 ^ 53)) as [->|]; [by vm_compute|].
  destruct (Z.eq_dec z (- 2 ^ 53)) as [->|]; [by vm_compute|].
  unfold ParseFloat, float64_of_Z, binary_normalize.
  destruct z as [|m|m]; [done| |].
  - destruct (binary_round_exact false m ltac:(lia)) as (m' & e' & -> & He & Hm').
    split; [done|]. unfold int_of_float64, cond_Zopp.
    destruct (0 <=? e') eqn:E.
    + assert (e' = 0) as -> by lia. rewrite Hm'. cbn [Z.opp]. rewrite Z.pow_0_r, !Z.mul_1_r.
      replace (is_int (Z.pos m)) with true by (unfold is_int; lia). done.
    + rewrite Hm', Z.div_mul by (apply Z.pow_nonzero; lia).
      replace (is_int (Z.pos m)) with true by (unfold is_int; lia). done.
  - destruct (binary_round_exact true m ltac:(lia)) as (m' & e' & -> & He & Hm').
    split; [done|]. unfold int_of_float64, cond_Zopp.
    destruct (0 <=? e') eqn:E.
    + assert (e' = 0) as -> by lia. rewrite Hm'. cbn [Z.opp]. rewrite Z.pow_0_r, !Z.mul_1_r.
      replace (is_int (- Z.pos m)) with true by (unfold is_int; lia). lia.
    + rewrite Hm', Z.div_mul by (apply Z.pow_nonzero; lia).
      replace (is_int (- Z.pos m)) with true by (unfold is_int; lia). lia.
Qed.

(** ** Values held in an interface *)

Lemma map_fold_and {A} (P : A -> bool) (m : gmap string A) :
  map_fold (fun _ x acc => P x && acc) true m = true
  <-> forall k x, m !! k = Some x -> P x = true.
Proof.
  apply (map_fold_weak_ind (fun r m => r = true <-> forall k x, m !! k = Some x -> P x = true)).
  - split; [intros _ k x|done]. by rewrite lookup_empty.
  - intros i x m' r Hi IH. rewrite andb_true_iff, IH. split.
    + intros [Hx Hm] k y. rewrite lookup_insert_Some. intros [[-> ->]|[_ Hy]]; eauto.
    + intros Hall. split.
      * apply (Hall i). by rewrite lookup_insert_eq.
      * intros k y Hy. apply (Hall k). rewrite lookup_insert_ne; [done|]. congruence.
Qed.

Lemma map_fold_or {A} (P : A -> bool) (m : gmap string A) :
  map_fold (fun _ x acc => P x || acc) false m = false
  <-> forall k x, m !! k = Some x -> P x = false.
Proof.
  apply (map_fold_weak_ind (fun r m => r = false <-> forall k x, m !! k = Some x -> P x = false)).
  - split; [intros _ k x|done]. by rewrite lookup_empty.
  - intros i x m' r Hi IH. rewrite orb_false_iff, IH. split.
    + intros [Hx Hm] k y. rewrite lookup_insert_Some. intros [[-> ->]|[_ Hy]]; eauto.
    + intros Hall. split.
      * apply (Hall i). by rewrite lookup_insert_eq.
      * intros k y Hy. apply (Hall k). rewrite lookup_insert_ne; [done|]. congruence.
Qed.

Lemma map_fold_size (m : gmap string iface) (k : string) (x : iface) :
  m !! k = Some x ->
  (iface_size x <= map_fold (fun _ x acc => iface_size x + acc)%nat 0%nat m)%nat.
Proof.
  revert k x.
  apply (map_fold_weak_ind (fun r m => forall k x, m !! k = Some x -> (iface_size x <= r)%nat)).
  - intros k x. by rewrite lookup_empty.
  - intros i y m' r Hi IH k x. rewrite lookup_insert_Some.
    intros [[-> ->]|[_ Hx]]; [lia|]. specialize (IH k x Hx). lia.
Qed.

Lemma slice_size (l : list iface) (x : iface) :
  In x l -> (iface_size x <= fold_right (fun x acc => iface_size x + acc)%nat 0%nat l)%nat.
Proof.
  induction l as [|y l IH]; [done|]. intros [->|Hx]; cbn [fold_right]; [lia|].
  specialize (IH Hx). lia.
Qed.

(** Induction over the values held in an interface. *)
Lemma iface_induction (P : iface -> Prop) :
  P INil -> (forall b, P (IBool b)) -> (forall n, P (IInt n)) ->
  (forall f, P (IFloat64 f)) -> (forall s, P (IString s)) ->
  (forall l, P (IStrings l)) ->
  (forall l, (forall x, In x l -> P x) -> P (ISlice l)) ->
  (forall m, (forall k x, m !! k = Some x -> P x) -> P (IMap m)) ->
  forall v, P v.
Proof.
  intros HNil HBool HInt HFloat HString HStrings HSlice HMap v.
  remember (iface_size v) as n eqn:Hn. revert v Hn.
  induction n as [n IH] using lt_wf_ind. intros v ->.
  destruct v as [| | | | | |l|m]; auto.
  - apply HSlice. intros x Hx. apply (IH (iface_size x)); [|done].
    pose proof (slice_size l x Hx). cbn [iface_size]. lia.
  - apply HMap. intros k x Hx. apply (IH (iface_size x)); [|done].
    pose proof (map_fold_size m k x Hx). cbn [iface_size]. lia.
Qed.

Lemma fold_left_insert {A B} (g : B -> A) (L : list (string * B)) :
  fold_left (fun acc kv => <[kv.1 := g kv.2]> acc) L (∅ : gmap string A)
  = list_to_map (prod_map id g <$> rev L).
Proof.
  rewrite <- fold_left_rev_right.
  induction (rev L) as [|[k b] l IH]; [done|].
  cbn [fold_right]. by rewrite IH.
Qed.

(** Storing the members of an encoded map one by one gives the map back. *)
Lemma fold_left_insert_encoded {A B} (g : B -> A) (enc : A -> B)
    (m : gmap string A) (L : list (string * B)) :
  L ≡ₚ map_to_list (enc <$> m) ->
  (forall k x, m !! k = Some x -> g (enc x) = x) ->
  fold_left (fun acc kv => <[kv.1 := g kv.2]> acc) L ∅ = m.
Proof.
  intros HL Hg. rewrite fold_left_insert.
  assert (Hperm : prod_map id g <$> rev L ≡ₚ map_to_list (g <$> (enc <$> m))).
  { rewrite map_to_list_fmap. apply fmap_Permutation. by rewrite <- Permutation_rev. }
  rewrite (list_to_map_proper (prod_map id g <$> rev L) (map_to_list (g <$> (enc <$> m))));
    [|rewrite Hperm; apply NoDup_fst_map_to_list|exact Hperm].
  rewrite list_to_map_to_list, <- map_fmap_compose.
  rewrite <- (map_fmap_id m) at 2. apply map_fmap_ext. intros k x Hx. by apply (Hg k).
Qed.

Lemma sort_members_elem (L : list (string * json)) (kv : string * json) :
  In kv (sort_members L) <-> In kv L.
Proof.
  unfold sort_members. rewrite <- !list_elem_of_In.
  by rewrite merge_sort_Permutation.
Qed.

Lemma iface_roundtrip (v : iface) :
  native v = true ->
  valueInterface (encode_iface v) = v
  /\ number_error (encode_iface v) = false
  /\ unsupported v = false.
Proof.
  induction v as [| | | | | |l IH|m IH] using iface_induction; try done.
  - (* float *) cbn. intros Hf. by rewrite Hf.
  - (* slice *) cbn [native encode_iface valueInterface number_error unsupported].
    rewrite forallb_forall. intros Hl. split_and!.
    + f_equal. rewrite map_map. rewrite <- (map_id l) at 2.
      apply map_ext_in. intros x Hx. by apply IH, Hl.
    + apply not_true_is_false. rewrite existsb_exists. intros (j & Hj & Hn).
      apply in_map_iff in Hj as (x & <- & Hx). destruct (IH x Hx (Hl x Hx)) as (_ & E & _).
      congruence.
    + apply not_true_is_false. rewrite existsb_exists. intros (x & Hx & Hn).
      destruct (IH x Hx (Hl x Hx)) as (_ & _ & E). congruence.
  - (* map *) cbn [native encode_iface valueInterface number_error unsupported].
    rewrite map_fold_and. intros Hm. split_and!.
    + f_equal. apply (fold_left_insert_encoded valueInterface encode_iface).
      * apply merge_sort_Permutation.
      * intros k x Hx. by apply (IH k x Hx), (Hm k).
    + apply not_true_is_false. rewrite existsb_exists. intros ([k j] & Hj & Hn).
      apply sort_members_elem, list_elem_of_In, elem_of_map_to_list in Hj.
      rewrite lookup_fmap_Some in Hj. destruct Hj as (x & <- & Hx).
      destruct (IH k x Hx (Hm k x Hx)) as (_ & E & _). cbn in Hn. congruence.
    + apply map_fold_or. intros k x Hx. by apply (IH k x Hx), (Hm k).
Qed.

(** ** Encoding, then decoding *)

Global Arguments ParseFloat : simpl never.
Global Arguments float64_of_Z : simpl never.
Global Arguments int_of_float64 : simpl never.
Global Arguments is_int : simpl never.

Lemma exact_range (z : Z) : exact z = true -> - 2 ^ 53 <= z <= 2 ^ 53.
Proof. unfold exact. lia. Qed.

Lemma crop_roundtrip (c b : OCRCrop.t) :
  exact_crop (Some c) = true ->
  OCRCrop.UnmarshalJSON b (OCRCrop.MarshalJSON c).1 = Returns (c, None).
Proof.
  destruct c as [x y w h]. cbn [exact_crop OCRCrop.X OCRCrop.Y OCRCrop.W OCRCrop.H].
  rewrite !andb_true_iff. intros [[[Hx Hy] Hw] Hh].
  destruct (float64_of_Z_exact x (exact_range x Hx)) as [Px Ix].
  destruct (float64_of_Z_exact y (exact_range y Hy)) as [Py Iy].
  destruct (float64_of_Z_exact w (exact_range w Hw)) as [Pw Iw].
  destruct (float64_of_Z_exact h (exact_range h Hh)) as [Ph Ih].
  unfold OCRCrop.UnmarshalJSON, OCRCrop.MarshalJSON, Marshal_ints, Unmarshal_ifaces.
  cbn. rewrite Px. cbn. rewrite Py. cbn. rewrite Pw. cbn. rewrite Ph. cbn.
  by rewrite Ix, Iy, Iw, Ih.
Qed.

Lemma table_field_roundtrip (f b : ROKTableField.t) :
  ROKTableField.UnmarshalJSON b (ROKTableField.MarshalJSON f).1 = Returns (f, None).
Proof. by destruct f. Qed.

Lemma decode_elems_encoded {A} (dec : decoder A) (enc : A -> json) (zero : A)
    (l : list A) (saved : option error) :
  (forall x, In x l -> forall s, dec (enc x) zero s = DOk x s) ->
  decode_elems dec zero (map enc l) [] saved = DOk l saved.
Proof.
  induction l as [|x l IH]; intros Hl; [done|].
  cbn [map decode_elems hd tl]. rewrite (Hl x) by (by left).
  rewrite IH; [done|]. intros y Hy. apply Hl. by right.
Qed.

Lemma decode_members_map {A} (dec : decoder A) (zero : A) (g : json -> A)
    (L : list (string * json)) (cur : gmap string A) (saved : option error) :
  (forall kv, In kv L -> forall s, dec kv.2 zero s = DOk (g kv.2) s) ->
  decode_members (fun k j m saved =>
                    match dec j zero saved with
                    | DOk a s => DOk (<[k := a]> m) s
                    | DFail _ e => DFail m e
                    | DPanic p => DPanic p
                    end) L cur saved
  = DOk (fold_left (fun acc kv => <[kv.1 := g kv.2]> acc) L cur) saved.
Proof.
  revert cur. induction L as [|[k j] L IH]; intros cur HL; [done|].
  cbn [decode_members fold_left]. rewrite (HL (k, j)) by (by left).
  apply IH. intros kv Hkv. apply HL. by right.
Qed.

Lemma decode_iface_encoded (v cur : iface) (saved : option error) :
  native v = true -> decode_iface (encode_iface v) cur saved = DOk v saved.
Proof.
  intros Hv. destruct (iface_roundtrip v Hv) as (Hval & Hnum & _).
  unfold decode_iface. destruct (encode_iface v) as [| |n| | |] eqn:E;
    rewrite <- ?Hval, ?Hnum; try done.
  cbn in *. by destruct (ParseFloat n).
Qed.

Lemma decode_crop_encoded (c : OCRCrop.t) (cur : option OCRCrop.t) (saved : option error) :
  exact_crop (Some c) = true ->
  decode_crop_ptr (OCRCrop.MarshalJSON c).1 cur saved = DOk (Some c) saved.
Proof.
  intros Hc. unfold decode_crop_ptr.
  change (OCRCrop.MarshalJSON c).1
    with (JArray (map (fun z => JNumber (IntLit z))
                    [OCRCrop.X c; OCRCrop.Y c; OCRCrop.W c; OCRCrop.H c])).
  cbv iota. change (JArray _) with (OCRCrop.MarshalJSON c).1.
  by rewrite (crop_roundtrip c _ Hc).
Qed.

Lemma decode_members_int {A} (field : string -> decoder A) (name : string) (z : Z)
    (cur : A) (next : Z -> A) (saved : option error) :
  next 0 = cur ->
  (forall n, field name (JNumber (IntLit n)) cur saved
             = dmap next (decode_int (JNumber (IntLit n)) 0 saved)) ->
  is_int z = true ->
  decode_members field (member_int name z) cur saved = DOk (next z) saved.
Proof.
  intros H0 Hf Hz. unfold member_int. destruct (z =? 0) eqn:E.
  - apply Z.eqb_eq in E as ->. by rewrite H0.
  - cbn [decode_members]. rewrite Hf. unfold decode_int, ParseInt. by rewrite Hz.
Qed.

Lemma decode_members_string {A} (field : string -> decoder A) (name v : string)
    (cur : A) (next : string -> A) (saved : option error) :
  next EmptyString = cur ->
  (forall s, field name (JString s) cur saved
             = dmap next (decode_string (JString s) EmptyString saved)) ->
  decode_members field (member_string name v) cur saved = DOk (next v) saved.
Proof.
  intros H0 Hf. destruct v as [|a v]; [by rewrite <- H0|].
  cbn [member_string decode_members]. by rewrite Hf.
Qed.

Lemma decode_members_crop {A} (field : string -> decoder A) (name : string)
    (c : option OCRCrop.t) (cur : A) (next : option OCRCrop.t -> A) (saved : option error) :
  next None = cur ->
  (forall j, field name j cur saved = dmap next (decode_crop_ptr j None saved)) ->
  exact_crop c = true ->
  decode_members field (member_crop name c) cur saved = DOk (next c) saved.
Proof.
  intros H0 Hf Hc. destruct c as [c'|]; [|by rewrite <- H0].
  cbn [member_crop decode_members]. rewrite Hf.
  by rewrite (decode_crop_encoded c' None saved Hc).
Qed.

Lemma decode_members_list {A B} (field : string -> decoder A) (name gotype : string)
    (dec : decoder B) (enc : B -> json) (zero : B) (l : list B)
    (cur : A) (next : list B -> A) (saved : option error) :
  next [] = cur ->
  (forall j, field name j cur saved = dmap next (decode_slice gotype dec zero j [] saved)) ->
  (forall x, In x l -> forall s, dec (enc x) zero s = DOk x s) ->
  decode_members field (member_list name enc l) cur saved = DOk (next l) saved.
Proof.
  intros H0 Hf Hl. destruct l as [|x l]; [by rewrite <- H0|].
  cbn [member_list decode_members]. rewrite Hf. unfold decode_slice.
  by rewrite (decode_elems_encoded dec enc zero (x :: l) saved Hl).
Qed.

Lemma checkpoint_roundtrip (c : OCRCheckpoint.t) (saved : option error) :
  wf_checkpoint c = true ->
  decode_checkpoint (encode_checkpoint c) OCRCheckpoint.zero saved = DOk c saved.
Proof.
  destruct c as [crop fp]. unfold wf_checkpoint. cbn [OCRCheckpoint.Crop]. intros Hc.
  unfold decode_checkpoint, encode_checkpoint, decode_struct.
  cbn [OCRCheckpoint.Crop OCRCheckpoint.Fingerprint].
  rewrite decode_members_app.
  rewrite (decode_members_crop checkpoint_field "crop" crop OCRCheckpoint.zero
             (fun v => OCRCheckpoint.mk v "") saved eq_refl (fun _ => eq_refl) Hc).
  by rewrite (decode_members_string checkpoint_field "fingerprint" fp
                (OCRCheckpoint.mk crop "") (fun v => OCRCheckpoint.mk crop v) saved
                eq_refl (fun _ => eq_refl)).
Qed.

Lemma decode_members_iface {A} (field : string -> decoder A) (name : string) (v : iface)
    (cur : A) (next : iface -> A) (saved : option error) :
  next INil = cur ->
  (forall j, field name j cur saved = dmap next (decode_iface j INil saved)) ->
  native v = true ->
  decode_members field (member_iface name v) cur saved = DOk (next v) saved.
Proof.
  intros H0 Hf Hv.
  assert (Hdec : decode_members field [(name, encode_iface v)] cur saved = DOk (next v) saved).
  { cbn [decode_members]. by rewrite Hf, (decode_iface_encoded v INil saved Hv). }
  by destruct v; try exact Hdec; rewrite <- H0.
Qed.

Lemma schema_roundtrip (sc : ROKOCRSchema.t) (saved : option error) :
  wf_schema sc = true ->
  decode_schema (encode_schema sc) ROKOCRSchema.zero saved = DOk sc saved.
Proof.
  destruct sc as [callback lang oem psm crop allowlist]. unfold wf_schema.
  cbn [ROKOCRSchema.Callback ROKOCRSchema.AllowList ROKOCRSchema.OEM ROKOCRSchema.PSM
       ROKOCRSchema.Crop].
  rewrite !andb_true_iff, forallb_forall. intros [[[[Hcb Hal] Hoem] Hpsm] Hcrop].
  unfold decode_schema, encode_schema, decode_struct.
  cbn [ROKOCRSchema.Callback ROKOCRSchema.Languages ROKOCRSchema.AllowList ROKOCRSchema.OEM
       ROKOCRSchema.PSM ROKOCRSchema.Crop].
  rewrite decode_members_app.
  rewrite (decode_members_iface schema_field "callback" callback ROKOCRSchema.zero
             (fun v => ROKOCRSchema.mk v [] 0 0 None []) saved
             eq_refl (fun _ => eq_refl) Hcb).
  rewrite decode_members_app.
  rewrite (decode_members_list schema_field "lang" "[]string" decode_string JString
             EmptyString lang _ (fun v => ROKOCRSchema.mk callback v 0 0 None []) saved
             eq_refl (fun _ => eq_refl) (fun _ _ _ => eq_refl)).
  rewrite decode_members_app.
  rewrite (decode_members_int schema_field "oem" oem _
             (fun v => ROKOCRSchema.mk callback lang v 0 None []) saved
             eq_refl (fun _ => eq_refl) Hoem).
  rewrite decode_members_app.
  rewrite (decode_members_int schema_field "psm" psm _
             (fun v => ROKOCRSchema.mk callback lang oem v None []) saved
             eq_refl (fun _ => eq_refl) Hpsm).
  rewrite decode_members_app.
  rewrite (decode_members_crop schema_field "crop" crop _
             (fun v => ROKOCRSchema.mk callback lang oem psm v []) saved
             eq_refl (fun _ => eq_refl) Hcrop).
  by rewrite (decode_members_list schema_field "allowlist" "[]interface {}" decode_iface
                encode_iface INil allowlist _
                (fun v => ROKOCRSchema.mk callback lang oem psm crop v) saved
                eq_refl (fun _ => eq_refl)
                (fun x Hx s => decode_iface_encoded x INil s (Hal x Hx))).
Qed.

Lemma decode_members_schemas {A} (field : string -> decoder A) (name gotype : string)
    (m : gmap string ROKOCRSchema.t) (cur : A) (next : gmap string ROKOCRSchema.t -> A)
    (saved : option error) :
  next ∅ = cur ->
  (forall j, field name j cur saved
             = dmap next (decode_map gotype decode_schema ROKOCRSchema.zero j ∅ saved)) ->
  (forall k x, m !! k = Some x -> wf_schema x = true) ->
  decode_members field (member_schemas name m) cur saved = DOk (next m) saved.
Proof.
  intros H0 Hf Hm. unfold member_schemas. case_decide as Hempty; [by rewrite Hempty, H0|].
  cbn [decode_members]. rewrite Hf. unfold decode_map.
  set (g := fun j => match decode_schema j ROKOCRSchema.zero None with
                     | DOk a _ => a
                     | _ => ROKOCRSchema.zero
                     end).
  rewrite (decode_members_map decode_schema ROKOCRSchema.zero g).
  - cbn [dmap]. do 2 f_equal.
    apply (fold_left_insert_encoded g encode_schema).
    + apply merge_sort_Permutation.
    + intros k x Hx. unfold g. by rewrite (schema_roundtrip x None (Hm k x Hx)).
  - intros [k j] Hkv s.
    apply sort_members_elem, list_elem_of_In, elem_of_map_to_list in Hkv.
    rewrite lookup_fmap_Some in Hkv. destruct Hkv as (x & <- & Hx).
    cbn [snd]. unfold g.
    by rewrite !(schema_roundtrip x _ (Hm k x Hx)).
Qed.

Lemma template_roundtrip (t : RokOCRTemplate.t) (saved : option error) :
  wf_template t = true ->
  decode_template (encode_template t) RokOCRTemplate.zero saved = DOk t saved.
Proof.
  destruct t as [title version author width height schema fingerprint threshold
                   table checkpoints].
  unfold wf_template.
  cbn [RokOCRTemplate.Width RokOCRTemplate.Height RokOCRTemplate.Threshold
       RokOCRTemplate.OCRSchema RokOCRTemplate.Checkpoints].
  rewrite !andb_true_iff, forallb_forall, map_fold_and.
  intros [[[[Hwidth Hheight] Hthreshold] Hschema] Hcheckpoints].
  unfold decode_template, encode_template, decode_struct.
  cbn [RokOCRTemplate.Title RokOCRTemplate.Version RokOCRTemplate.Author
       RokOCRTemplate.Width RokOCRTemplate.Height RokOCRTemplate.Threshold
       RokOCRTemplate.OCRSchema RokOCRTemplate.Fingerprint RokOCRTemplate.Table
       RokOCRTemplate.Checkpoints].
  rewrite decode_members_app.
  rewrite (decode_members_string template_field "title" title RokOCRTemplate.zero
             (fun v => RokOCRTemplate.mk v "" "" 0 0 ∅ "" 0 [] []) saved
             eq_refl (fun _ => eq_refl)).
  rewrite decode_members_app.
  rewrite (decode_members_string template_field "version" version _
             (fun v => RokOCRTemplate.mk title v "" 0 0 ∅ "" 0 [] []) saved
             eq_refl (fun _ => eq_refl)).
  rewrite decode_members_app.
  rewrite (decode_members_string template_field "author" author _
             (fun v => RokOCRTemplate.mk title version v 0 0 ∅ "" 0 [] []) saved
             eq_refl (fun _ => eq_refl)).
  rewrite decode_members_app.
  rewrite (decode_members_int template_field "width" width _
             (fun v => RokOCRTemplate.mk title version author v 0 ∅ "" 0 [] []) saved
             eq_refl (fun _ => eq_refl) Hwidth).
  rewrite decode_members_app.
  rewrite (decode_members_int template_field "height" height _
             (fun v => RokOCRTemplate.mk title version author width v ∅ "" 0 [] []) saved
             eq_refl (fun _ => eq_refl) Hheight).
  rewrite decode_members_app.
  rewrite (decode_members_schemas template_field "ocr_schema"
             "map[string]ocrschema.ROKOCRSchema" schema _
             (fun v => RokOCRTemplate.mk title version author width height v "" 0 [] [])
             saved eq_refl (fun _ => eq_refl) Hschema).
  rewrite decode_members_app.
  rewrite (decode_members_string template_field "fingerprint" fingerprint _
             (fun v => RokOCRTemplate.mk title version author width height schema v 0 [] [])
             saved eq_refl (fun _ => eq_refl)).
  rewrite decode_members_app.
  rewrite (decode_members_int template_field "threshold" threshold _
             (fun v => RokOCRTemplate.mk title version author width height schema
                         fingerprint v [] [])
             saved eq_refl (fun _ => eq_refl) Hthreshold).
  rewrite decode_members_app.
  rewrite (decode_members_list template_field "table" "[]ocrschema.ROKTableField"
             decode_table_field (fun f => (ROKTableField.MarshalJSON f).1)
             ROKTableField.zero table _
             (fun v => RokOCRTemplate.mk title version author width height schema
                         fingerprint threshold v [])
             saved eq_refl (fun _ => eq_refl)).
  - by rewrite (decode_members_list template_field "checkpoints" "[]ocrschema.OCRCheckpoint"
                  decode_checkpoint encode_checkpoint OCRCheckpoint.zero checkpoints _
                  (fun v => RokOCRTemplate.mk title version author width height schema
                              fingerprint threshold table v)
                  saved eq_refl (fun _ => eq_refl)
                  (fun x Hx s => checkpoint_roundtrip x s (Hcheckpoints x Hx))).
  - intros f _ s. unfold decode_table_field. by rewrite table_field_roundtrip.
Qed.

Lemma wf_template_supported (t : RokOCRTemplate.t) :
  wf_template t = true -> Marshal_template t = (encode_template t, None).
Proof.
  unfold wf_template, Marshal_template.
  rewrite !andb_true_iff, map_fold_and. intros [[_ Hschema] _].
  replace (map_fold _ false (RokOCRTemplate.OCRSchema t)) with false; [done|].
  symmetry. apply map_fold_or. intros k sc Hsc. specialize (Hschema k sc Hsc).
  unfold wf_schema in Hschema. rewrite !andb_true_iff, forallb_forall in Hschema.
  destruct Hschema as [[[[Hcb Hal] _] _] _].
  unfold schema_unsupported. apply orb_false_iff. split.
  - by apply iface_roundtrip.
  - apply not_true_is_false. rewrite existsb_exists. intros (x & Hx & Hu).
    destruct (iface_roundtrip x (Hal x Hx)) as (_ & _ & E). congruence.
Qed.

(** C6, as amended: encoding and then decoding gives the value back for
    every table descriptor, which is written as the array of its title,
    field, bold flag and color; for every crop whose coordinates are exact
    (of magnitude at most [2^53]), which is written as the array of its
    four coordinates; and for every well-formed template: one whose crops
    are exact and whose callbacks and allow-lists hold native values. *)
Theorem C6_encode_then_decode (t : RokOCRTemplate.t) (c : OCRCrop.t) (f : ROKTableField.t) :
  wf_template t = true ->
  exact_crop (Some c) = true ->
  (ROKTableField.MarshalJSON f
   = (JArray [JString (ROKTableField.Title f); JString (ROKTableField.Field f);
              JBool (ROKTableField.Bold f); JString (ROKTableField.Color f)], None)
   /\ forall b, ROKTableField.UnmarshalJSON b (ROKTableField.MarshalJSON f).1
                = Returns (f, None))
  /\ (OCRCrop.MarshalJSON c
      = (JArray [JNumber (IntLit (OCRCrop.X c)); JNumber (IntLit (OCRCrop.Y c));
                 JNumber (IntLit (OCRCrop.W c)); JNumber (IntLit (OCRCrop.H c))], None)
      /\ forall b, OCRCrop.UnmarshalJSON b (OCRCrop.MarshalJSON c).1 = Returns (c, None))
  /\ (exists doc, Marshal_template t = (doc, None)
                  /\ Unmarshal_document doc RokOCRTemplate.zero = Returns (t, None)).
Proof.
  intros Ht Hc. split_and!.
  - by destruct f.
  - intros b. apply table_field_roundtrip.
  - done.
  - intros b. by apply crop_roundtrip.
  - exists (encode_template t). split; [by apply wf_template_supported|].
    unfold Unmarshal_document. by rewrite template_roundtrip.
Qed.

Lemma C6_encode_then_decode_witness :
  wf_template decoded_template = true
  /\ exact_crop (Some corner) = true
  /\ ROKTableField.MarshalJSON scenario5 = (scenario5_document, None)
  /\ ROKTableField.UnmarshalJSON ROKTableField.zero scenario5_document
     = Returns (scenario5, None)
  /\ OCRCrop.UnmarshalJSON OCRCrop.zero (OCRCrop.MarshalJSON corner).1 = Returns (corner, None)
  /\ exists doc, Marshal_template decoded_template = (doc, None)
                 /\ Unmarshal_document doc RokOCRTemplate.zero
                    = Returns (decoded_template, None).
Proof.
  split; [reflexivity|]. split; [reflexivity|].
  pose proof (C6_encode_then_decode decoded_template corner scenario5 eq_refl eq_refl)
    as ((Hm & Hu) & (_ & Hcrop) & Ht).
  split; [exact Hm|]. split; [exact (Hu ROKTableField.zero)|].
  split; [exact (Hcrop OCRCrop.zero)|exact Ht].
Defined.

(** C6 fails as stated.  A coordinate beyond [2^53] comes back rounded:
    the decoder reads every number of a crop as a [float64].  And a template
    built with [NewNumberField] comes back with another callback and another
    allow-list: the integers 0 to 9 are read back as [float64]s and the
    empty list of strings as an empty list of interface values. *)
Lemma C6_counterexample :
  OCRCrop.UnmarshalJSON OCRCrop.zero (OCRCrop.MarshalJSON wide_crop).1
  = Returns (OCRCrop.mk (2 ^ 53) 0 0 0, None)
  /\ OCRCrop.mk (2 ^ 53) 0 0 0 <> wide_crop
  /\ (Marshal_template built_template).2 = None
  /\ Unmarshal_document (Marshal_template built_template).1 RokOCRTemplate.zero
     = Returns (decoded_template, None)
  /\ decoded_template <> built_template.
Proof.
  split_and!.
  - vm_compute. reflexivity.
  - discriminate.
  - vm_compute. reflexivity.
  - vm_compute. reflexivity.
  - intros E.
    apply (f_equal (fun t => ROKOCRSchema.Callback
                               <$> (RokOCRTemplate.OCRSchema t !! "power"%string)))
      in E.
    vm_compute in E. discriminate E.
Qed.

(** ** Reading the file *)

(** C9: the error of [ReadFile] is never looked at: what [LoadTemplate]
    returns is what [json.Unmarshal] makes of the bytes read.  When the read
    yields no bytes, that is the zero template and the syntax error of empty
    input; when the bytes scan, it is the outcome of decoding the document,
    with no error for the encoding of a well-formed template; when they do
    not scan, it is the zero template and the scanner's error. *)
Theorem C9_read_error_is_dropped
    (ReadFile : string -> string * option error) (scan : string -> json + error)
    (fileName b : string) (read_err : option error) :
  ReadFile fileName = (b, read_err) ->
  LoadTemplate ReadFile scan fileName = Unmarshal scan b RokOCRTemplate.zero
  /\ (b = EmptyString ->
      LoadTemplate ReadFile scan fileName
      = Returns (RokOCRTemplate.zero, Some (SyntaxError "unexpected end of JSON input")))
  /\ (forall doc, b <> EmptyString -> scan b = inl doc ->
      LoadTemplate ReadFile scan fileName = Unmarshal_document doc RokOCRTemplate.zero)
  /\ (forall t, b <> EmptyString -> scan b = inl (encode_template t) ->
      wf_template t = true ->
      LoadTemplate ReadFile scan fileName = Returns (t, None))
  /\ (forall e, b <> EmptyString -> scan b = inr e ->
      LoadTemplate ReadFile scan fileName = Returns (RokOCRTemplate.zero, Some e)).
Proof.
  intros HR. unfold LoadTemplate. rewrite HR. split_and!.
  - done.
  - by intros ->.
  - intros doc Hb Hs. unfold Unmarshal. destruct b; [done|]. by rewrite Hs.
  - intros t Hb Hs Ht. unfold Unmarshal. destruct b; [done|]. rewrite Hs.
    unfold Unmarshal_document. by rewrite template_roundtrip.
  - intros e Hb Hs. unfold Unmarshal. destruct b; [done|]. by rewrite Hs.
Qed.

Lemma C9_read_error_is_dropped_witness :
  Double.ReadFile "missing.json"
  = (EmptyString, Some (PathError "open: no such file or directory"))
  /\ LoadTemplate Double.ReadFile Double.scan "missing.json"
     = Returns (RokOCRTemplate.zero, Some (SyntaxError "unexpected end of JSON input")).
Proof.
  split; [reflexivity|].
  exact (proj1 (proj2 (C9_read_error_is_dropped Double.ReadFile Double.scan
                         "missing.json" EmptyString _ eq_refl)) eq_refl).
Defined.

(** * Further properties

    Properties of the same code that the statements above do not cover. *)

(** ** Crop rectangles *)

Lemma wrap_int_small (z : Z) : is_int z = true -> wrap_int z = z.
Proof.
  unfold is_int, wrap_int. intros Hz.
  rewrite Z.mod_small by lia. lia.
Qed.

(** X1: a crop denotes the rectangle spanned by its corner [(X, Y)] and the
    opposite corner [(X + W, Y + H)], whatever the signs of [W] and [H]: a
    negative width or height is not refused, the rectangle then lies to the
    left of, or above, the corner.  Its sides are [|W|] and [|H|]. *)
Theorem CropRectange_spans_both_corners (c : OCRCrop.t) :
  is_int (OCRCrop.X c + OCRCrop.W c) = true ->
  is_int (OCRCrop.Y c + OCRCrop.H c) = true ->
  exists r,
    OCRCrop.CropRectange (Some c) = Returns r
    /\ Min r = Pt (Z.min (OCRCrop.X c) (OCRCrop.X c + OCRCrop.W c))
                  (Z.min (OCRCrop.Y c) (OCRCrop.Y c + OCRCrop.H c))
    /\ Max r = Pt (Z.max (OCRCrop.X c) (OCRCrop.X c + OCRCrop.W c))
                  (Z.max (OCRCrop.Y c) (OCRCrop.Y c + OCRCrop.H c))
    /\ PX (Max r) - PX (Min r) = Z.abs (OCRCrop.W c)
    /\ PY (Max r) - PY (Min r) = Z.abs (OCRCrop.H c).
Proof.
  intros Hx Hy. destruct c as [x y w h]. cbn in *.
  rewrite (wrap_int_small _ Hx), (wrap_int_small _ Hy).
  eexists. split; [reflexivity|]. unfold Rect.
  destruct (x >? x + w) eqn:Ex; destruct (y >? y + h) eqn:Ey; cbn;
    split_and!; try f_equal; lia.
Qed.

Lemma CropRectange_spans_both_corners_witness :
  let c := OCRCrop.mk 30 40 (-10) 5 in
  is_int (OCRCrop.X c + OCRCrop.W c) = true
  /\ is_int (OCRCrop.Y c + OCRCrop.H c) = true
  /\ exists r, OCRCrop.CropRectange (Some c) = Returns r
               /\ Min r = Pt 20 40 /\ Max r = Pt 30 45.
Proof.
  intros c. split; [reflexivity|]. split; [reflexivity|].
  destruct (CropRectange_spans_both_corners c eq_refl eq_refl) as (r & Hr & Hmin & Hmax & _).
  exists r. split; [exact Hr|]. split; [exact Hmin|exact Hmax].
Defined.

(** ** Fingerprints of hexadecimal digits *)

Lemma ParseUint_loop_hex (s : string) (n : Z) :
  all_hex s = true -> 0 <= n < 2 ^ 64 ->
  strconv.ParseUint_loop s n
  = if hex_value s n <? 2 ^ 64 then (hex_value s n, None)
    else (2 ^ 64 - 1, Some strconv.ErrRange).
Proof.
  revert n. induction s as [|c s IH]; intros n Hall Hn.
  - cbn [strconv.ParseUint_loop hex_value]. by replace (n <? 2 ^ 64) with true by lia.
  - cbn [all_hex] in Hall. apply andb_true_iff in Hall as [Hc Hall].
    cbn [hex_value strconv.ParseUint_loop].
    pose proof (digit_hex c) as Hd. unfold is_hex_digit in Hc.
    destruct (strconv.digit _) as [d|]; [|by rewrite Hd in Hc].
    destruct (d >=? strconv.base); [by rewrite Hd in Hc|].
    destruct Hd as [Hd Hr]. rewrite Hd. change (default 0 (Some d)) with d.
    pose proof (hex_value_ge s (n * 16 + d) ltac:(lia)) as Hge.
    change strconv.cutoff with (2 ^ 60). change strconv.maxVal with (2 ^ 64 - 1).
    destruct (n >=? 2 ^ 60) eqn:Hcut.
    + by replace (hex_value s (n * 16 + d) <? 2 ^ 64) with false by lia.
    + unfold wrap_uint64, strconv.base.
      rewrite (Z.mod_small (n * 16)) by lia.
      rewrite (Z.mod_small (n * 16 + d)) by lia.
      replace ((n * 16 + d <? n * 16) || (n * 16 + d >? 2 ^ 64 - 1)) with false by lia.
      apply IH; [done|lia].
Qed.

Lemma to_lower_digit (c : ascii) :
  strconv.digit (Z.of_N (N_of_ascii (to_lower c))) = strconv.digit (Z.of_N (N_of_ascii c)).
Proof. destruct c as [[] [] [] [] [] [] [] []]; vm_compute; reflexivity. Qed.

Lemma ParseUint_loop_fold_key (s : string) (n : Z) :
  strconv.ParseUint_loop (fold_key s) n = strconv.ParseUint_loop s n.
Proof.
  revert n. induction s as [|c s IH]; intros n; [done|].
  cbn [fold_key strconv.ParseUint_loop]. rewrite to_lower_digit.
  destruct (strconv.digit _) as [d|]; [|done].
  destruct (d >=? strconv.base); [done|].
  destruct (n >=? strconv.cutoff); [done|].
  destruct (_ || _); [done|]. apply IH.
Qed.

(** X2: a fingerprint made of hexadecimal digits only decodes to the number
    the digits denote, as long as that number fits 64 bits, which it does
    for up to sixteen digits; a larger number decodes to [2^64 - 1], the
    range error being dropped like any other. *)
Theorem fingerprint_of_hex_digits (s : string) :
  valid_hex s = true ->
  differenceHashFromString s
  = Some (NewImageHash (Z.min (hex_value s 0) (2 ^ 64 - 1)) DHash)
  /\ ((strconv.ParseUint s).2 = None <-> hex_value s 0 < 2 ^ 64)
  /\ ((String.length s <= 16)%nat -> hex_value s 0 < 2 ^ 64).
Proof.
  intros Hs. destruct s as [|c s]; [done|]. cbn [valid_hex] in Hs.
  assert (HP : strconv.ParseUint (String c s)
               = if hex_value (String c s) 0 <? 2 ^ 64 then (hex_value (String c s) 0, None)
                 else (2 ^ 64 - 1, Some strconv.ErrRange)).
  { unfold strconv.ParseUint. apply ParseUint_loop_hex; [done|lia]. }
  split_and!.
  - rewrite differenceHashFromString_eq, HP.
    destruct (hex_value (String c s) 0 <? 2 ^ 64) eqn:E; cbn [fst]; do 2 f_equal; lia.
  - rewrite HP. destruct (hex_value (String c s) 0 <? 2 ^ 64) eqn:E; cbn [snd].
    + split; [lia|done].
    + split; [done|lia].
  - intros Hlen. pose proof (hex_value_bound (String c s) 0 Hs ltac:(lia)) as Hb.
    assert (16 ^ Z.of_nat (String.length (String c s)) <= 16 ^ 16).
    { apply Z.pow_le_mono_r; lia. }
    change (16 ^ 16) with (2 ^ 64) in *. lia.
Qed.

Lemma fingerprint_of_hex_digits_witness :
  valid_hex "00FF00ff00ff00ff" = true
  /\ differenceHashFromString "00FF00ff00ff00ff"
     = Some (NewImageHash 71777214294589695 DHash)
  /\ differenceHashFromString "10000000000000000"
     = Some (NewImageHash (2 ^ 64 - 1) DHash).
Proof.
  split; [reflexivity|]. split.
  - exact (proj1 (fingerprint_of_hex_digits "00FF00ff00ff00ff" eq_refl)).
  - exact (proj1 (fingerprint_of_hex_digits "10000000000000000" eq_refl)).
Defined.

(** X3: the letters of a fingerprint read the same in upper and in lower case:
    whatever the string, well formed or not, putting its letters in lower
    case changes neither the hash it decodes to nor the error that is
    dropped. *)
Theorem fingerprint_letter_case (s : string) :
  strconv.ParseUint (fold_key s) = strconv.ParseUint s
  /\ differenceHashFromString (fold_key s) = differenceHashFromString s
  /\ forall T1 T2,
       RokOCRTemplate.Fingerprint T1 = fold_key (RokOCRTemplate.Fingerprint T2) ->
       Hash T1 = Hash T2.
Proof.
  assert (HP : forall s, strconv.ParseUint (fold_key s) = strconv.ParseUint s).
  { intros [|c s']; [done|]. unfold strconv.ParseUint. cbn [fold_key].
    change (String (to_lower c) (fold_key s')) with (fold_key (String c s')).
    apply ParseUint_loop_fold_key. }
  split; [apply HP|]. split.
  - by rewrite !differenceHashFromString_eq, HP.
  - intros T1 T2 E. by rewrite !Hash_eq, E, HP.
Qed.

(** ** More on the matcher *)

Lemma HammingDistance_le_64 (a b : Z) : HammingDistance a b <= 64.
Proof.
  unfold HammingDistance.
  pose proof (length_filter (fun i : nat =>
    Z.testbit a (Z.of_nat i) ≠ Z.testbit b (Z.of_nat i)) (seq 0 64)) as Hle.
  rewrite length_seq in Hle. lia.
Qed.

Section MatcherMore.

Context {Image : Type}.
Variable dhash : Image -> Z.
Variable CropImage : option Image -> Rectangle -> option Image * option error.

Ltac run := unfold mbind, mret, M_bind, M_ret, emit, lift; cbn.

(** X4: [hashMatches] allows one bit of difference, always: on an image and an
    expected difference hash it returns whether the two hashes differ in at
    most one bit, and it logs the two hashes whenever they differ at all, so
    also when the one bit is tolerated.  An expected hash of another kind
    gives false and no log.  Without an image, or without an expected hash,
    it panics: the error of the hash primitive is dropped and the nil hash
    is dereferenced.  The hash primitive is called once. *)
Theorem hashMatches_tolerates_one_bit (sub : Image) (expected : ImageHash) :
  let d := HammingDistance (dHash dhash sub) (GetHash expected) in
  (GetKind expected = DHash ->
   result (hashMatches dhash (Some sub) (Some expected)) = Returns (d <=? 1)
   /\ debug_lines (trace (hashMatches dhash (Some sub) (Some expected)))
      = if 0 <? d then [distance_line (GetHash expected) (dHash dhash sub) d] else [])
  /\ (GetKind expected <> DHash ->
      result (hashMatches dhash (Some sub) (Some expected)) = Returns false
      /\ debug_lines (trace (hashMatches dhash (Some sub) (Some expected))) = [])
  /\ hash_calls (trace (hashMatches dhash (Some sub) (Some expected))) = [Some sub]
  /\ hashMatches dhash (Some sub) None
     = ([CallDifferenceHash (Some sub)], Panics NilDereference)
  /\ (forall hash, hashMatches dhash None hash
                   = ([CallDifferenceHash None], Panics NilDereference)).
Proof.
  intros d. destruct expected as [e k]. cbn [GetKind GetHash] in *. split_and!.
  - intros ->. rewrite hashMatches_some. fold d. unfold result, trace. cbn [fst snd].
    split; [f_equal; lia|].
    replace (d >? 0) with (0 <? d) by lia. by destruct (0 <? d).
  - intros Hk. unfold hashMatches, DifferenceHash. by destruct k; run.
  - unfold hashMatches, DifferenceHash. destruct k; run; try done.
    rewrite popcnt_lxor. by destruct (_ >? 0).
  - unfold hashMatches, DifferenceHash. by run.
  - apply hashMatches_nil.
Qed.

(** X5: the threshold of a template is a tolerance in bits.  Raising it keeps
    every match, and from 64 on a template without checkpoints matches
    every image, whatever its fingerprint: two hashes differ in at most 64
    bits. *)
Theorem threshold_is_a_tolerance (T : RokOCRTemplate.t) :
  (forall T' (h : ImageHash),
      RokOCRTemplate.Fingerprint T' = RokOCRTemplate.Fingerprint T ->
      RokOCRTemplate.Threshold T <= RokOCRTemplate.Threshold T' ->
      result (Match (Image:=Image) T (Some h)) = Returns true ->
      result (Match (Image:=Image) T' (Some h)) = Returns true)
  /\ (64 <= RokOCRTemplate.Threshold T ->
      (forall h, result (Match (Image:=Image) T (Some (NewImageHash h DHash))) = Returns true)
      /\ (RokOCRTemplate.Checkpoints T = [] ->
          forall img, result (Matches dhash CropImage T (Some img)) = Returns true)).
Proof.
  split.
  - intros T' [h k] Hfp Hle. unfold Match. rewrite !Hash_eq, Hfp.
    destruct k; run; try done. intros [= E]. f_equal. lia.
  - intros H64. split.
    + intros h. rewrite (Match_DHash T h _ (Hash_eq T)). f_equal.
      pose proof (HammingDistance_le_64 h (strconv.ParseUint (RokOCRTemplate.Fingerprint T)).1).
      lia.
    + intros Hc img. rewrite (Matches_no_checkpoints dhash CropImage T img _ Hc (Hash_eq T)).
      f_equal. cbn [GetHash].
      pose proof (HammingDistance_le_64 (dHash dhash img)
                    (strconv.ParseUint (RokOCRTemplate.Fingerprint T)).1).
      lia.
Qed.

(** X6: on the nil image [Matches] never returns.  Without checkpoints the
    hash primitive refuses the image, the error is dropped, and [Match]
    dereferences the nil hash.  With checkpoints the first of them panics,
    for lack of a rectangle or, when the crop primitive yields no image from
    no image, for lack of a sub-image to hash. *)
Theorem Matches_nil_image_panics (T : RokOCRTemplate.t) :
  (forall rect, (CropImage None rect).1 = None) ->
  (exists p, result (Matches dhash CropImage T None) = Panics p)
  /\ (RokOCRTemplate.Checkpoints T = [] ->
      Matches dhash CropImage T None = ([CallDifferenceHash None], Panics NilDereference))
  /\ Match (Image:=Image) T None = ([], Panics NilDereference).
Proof.
  intros Hcrop.
  assert (Hnone : RokOCRTemplate.Checkpoints T = [] ->
            Matches dhash CropImage T None = ([CallDifferenceHash None], Panics NilDereference)).
  { intros Hc. unfold Matches, DifferenceHash, Match. rewrite Hc, Hash_eq. by run. }
  split_and!; [|exact Hnone|unfold Match; rewrite Hash_eq; by run].
  destruct (RokOCRTemplate.Checkpoints T) as [|c cs] eqn:E.
  - rewrite (Hnone eq_refl). by eexists.
  - rewrite Matches_checkpoints by (by rewrite E). rewrite E.
    unfold result at 1. cbn [snd Matches_range].
    destruct (OCRCheckpoint.Crop c) as [crop|]; cbn [OCRCrop.CropRectange].
    + rewrite bind_lift, bind_emit.
      specialize (Hcrop (Rect (OCRCrop.X crop) (OCRCrop.Y crop)
                           (wrap_int (OCRCrop.X crop + OCRCrop.W crop))
                           (wrap_int (OCRCrop.Y crop + OCRCrop.H crop)))).
      destruct (CropImage None _) as [sub err]. cbn [fst] in Hcrop. subst sub.
      rewrite hashMatches_nil, bind_Panics. by eexists.
    + unfold lift. rewrite bind_Panics. by eexists.
Qed.

Lemma Matches_checkpoints_result (T : RokOCRTemplate.t) (img : option Image) :
  RokOCRTemplate.Checkpoints T <> [] ->
  result (Matches dhash CropImage T img)
  = result (Matches_range dhash CropImage img (RokOCRTemplate.Checkpoints T)).
Proof. intros Hne. by rewrite Matches_checkpoints. Qed.

(** When every checkpoint has a distance, the loop returns, and what it
    returns is whether every checkpoint passes. *)
Lemma Matches_range_defined (img : Image) (cs : list OCRCheckpoint.t) :
  Forall (fun c => is_Some (checkpoint_distance dhash CropImage img c)) cs ->
  result (Matches_range dhash CropImage (Some img) cs)
  = Returns (forallb (checkpoint_passes dhash CropImage img) cs).
Proof.
  induction 1 as [|c cs [d Hd] _ IH]; [done|].
  destruct (Matches_range_cons dhash CropImage img c cs d Hd) as [-> _].
  cbn [forallb]. unfold checkpoint_passes at 1. rewrite Hd.
  by destruct (d <=? 1).
Qed.

Lemma forallb_Permutation {A} (f : A -> bool) (l1 l2 : list A) :
  l1 ≡ₚ l2 -> forallb f l1 = forallb f l2.
Proof.
  induction 1 as [|x l1 l2 _ IH|x y l|l1 l2 l3 _ IH1 _ IH2]; cbn [forallb].
  - done.
  - by rewrite IH.
  - by destruct (f x), (f y).
  - by rewrite IH1.
Qed.

(** X7: the order of the checkpoints does not matter for the result, as long
    as each of them can be cropped from the image: two templates with the
    same checkpoints in any order give the same result. *)
Theorem checkpoint_order_is_irrelevant (img : Image) (T1 T2 : RokOCRTemplate.t) :
  RokOCRTemplate.Checkpoints T1 ≡ₚ RokOCRTemplate.Checkpoints T2 ->
  RokOCRTemplate.Checkpoints T1 <> [] ->
  Forall (fun c => is_Some (checkpoint_distance dhash CropImage img c))
    (RokOCRTemplate.Checkpoints T1) ->
  result (Matches dhash CropImage T1 (Some img)) = result (Matches dhash CropImage T2 (Some img))
  /\ result (Matches dhash CropImage T1 (Some img))
     = Returns (forallb (checkpoint_passes dhash CropImage img) (RokOCRTemplate.Checkpoints T1)).
Proof.
  intros Hperm Hne Hall.
  assert (Hne2 : RokOCRTemplate.Checkpoints T2 <> []).
  { intros E. rewrite E in Hperm. by apply Permutation_nil_r in Hperm. }
  assert (Hall2 : Forall (fun c => is_Some (checkpoint_distance dhash CropImage img c))
                    (RokOCRTemplate.Checkpoints T2)) by (by rewrite <- Hperm).
  rewrite !Matches_checkpoints_result by done.
  rewrite !Matches_range_defined by done.
  split; [by rewrite (forallb_Permutation _ _ _ Hperm)|done].
Qed.

(** A run of the loop that returns false stopped at a checkpoint whose
    distance exceeds 1, all checkpoints before it passing. *)
Lemma Matches_range_false (img : Image) (cs : list OCRCheckpoint.t) :
  result (Matches_range dhash CropImage (Some img) cs) = Returns false ->
  exists pre c post d,
    cs = pre ++ c :: post
    /\ forallb (checkpoint_passes dhash CropImage img) pre = true
    /\ checkpoint_distance dhash CropImage img c = Some d /\ 1 < d.
Proof.
  induction cs as [|c cs IH]; [done|].
  destruct (checkpoint_distance dhash CropImage img c) as [d|] eqn:Hd.
  - destruct (Matches_range_cons dhash CropImage img c cs d Hd) as [-> _].
    destruct (d <=? 1) eqn:E.
    + intros Hr. destruct (IH Hr) as (pre & c' & post & d' & -> & Hpre & Hd' & Hlt).
      exists (c :: pre), c', post, d'. split_and!; try done.
      cbn [forallb]. unfold checkpoint_passes at 1. by rewrite Hd, E.
    + intros _. exists [], c, cs, d. split_and!; try done. lia.
  - destruct (Matches_range_undefined dhash CropImage img c cs Hd) as [p ->]. done.
Qed.

Lemma debug_lines_app (t1 t2 : list (@event Image)) :
  debug_lines (t1 ++ t2) = debug_lines t1 ++ debug_lines t2.
Proof. apply omap_app. Qed.

Lemma mismatch_lines_app (l1 l2 : list (string * list logarg)) :
  mismatch_lines (l1 ++ l2) = mismatch_lines l1 ++ mismatch_lines l2.
Proof. apply omap_app. Qed.

(** The log of one round of the loop. *)
Lemma Matches_range_cons_log (img : Image) (c : OCRCheckpoint.t)
    (rest : list OCRCheckpoint.t) (d : Z) :
  checkpoint_distance dhash CropImage img c = Some d ->
  mismatch_lines (debug_lines (trace (Matches_range dhash CropImage (Some img) (c :: rest))))
  = (if d <=? 1
     then mismatch_lines (debug_lines (trace (Matches_range dhash CropImage (Some img) rest)))
     else [(mismatch_line c).2])
  /\ (1 < d ->
      last (trace (Matches_range dhash CropImage (Some img) (c :: rest)))
      = Some (Debugf (mismatch_line c).1 (mismatch_line c).2))
  /\ (d <= 1 ->
      exists t, trace (Matches_range dhash CropImage (Some img) (c :: rest))
                = t ++ trace (Matches_range dhash CropImage (Some img) rest)).
Proof.
  intros Hd. apply checkpoint_distance_Some in Hd as (crop & rect & sub & Hc & Hr & Hs & ->).
  cbn [Matches_range]. rewrite Hc, Hr, differenceHashFromString_eq.
  rewrite bind_lift, bind_emit, Hs, hashMatches_some.
  set (d := HammingDistance _ _).
  replace (1 >=? d) with (d <=? 1) by lia.
  rewrite bind_Returns.
  destruct (d <=? 1) eqn:E; cbn [negb].
  - destruct (Matches_range dhash CropImage (Some img) rest) as [t r].
    unfold trace. cbn [fst snd].
    change (?x :: ?l ++ t) with ((x :: l) ++ t).
    split_and!; [|lia|by eexists].
    rewrite debug_lines_app, mismatch_lines_app. by destruct (d >? 0).
  - rewrite bind_emit. unfold trace. cbn [fst snd mret M_ret].
    split_and!; [| |lia].
    + unfold mismatch_line. rewrite Hc. by destruct (d >? 0).
    + intros _. unfold mismatch_line. rewrite Hc. cbn [fst snd].
      change (?x :: ?l ++ ?t) with ((x :: l) ++ t).
      by rewrite last_snoc.
Qed.

(** X8: with checkpoints, a match logs no checkpoint as failing; a mismatch
    logs exactly one, the first whose distance exceeds 1, with its crop and
    its fingerprint, and that line ends the run. *)
Theorem failed_checkpoint_is_logged (img : Image) (T : RokOCRTemplate.t) :
  RokOCRTemplate.Checkpoints T <> [] ->
  (result (Matches dhash CropImage T (Some img)) = Returns true ->
   mismatch_lines (debug_lines (trace (Matches dhash CropImage T (Some img)))) = [])
  /\ (result (Matches dhash CropImage T (Some img)) = Returns false ->
      exists pre c post d,
        RokOCRTemplate.Checkpoints T = pre ++ c :: post
        /\ forallb (checkpoint_passes dhash CropImage img) pre = true
        /\ checkpoint_distance dhash CropImage img c = Some d /\ 1 < d
        /\ mismatch_lines (debug_lines (trace (Matches dhash CropImage T (Some img))))
           = [[ArgCrop (OCRCheckpoint.Crop c); ArgString (OCRCheckpoint.Fingerprint c)]]
        /\ last (trace (Matches dhash CropImage T (Some img)))
           = Some (Debugf "Area %v doesn't match expected hash: %v"
                     [ArgCrop (OCRCheckpoint.Crop c);
                      ArgString (OCRCheckpoint.Fingerprint c)])).
Proof.
  intros Hne. rewrite (Matches_checkpoints dhash CropImage T (Some img) Hne).
  unfold result at 1 2, trace at 1 3 5. cbn [fst snd].
  change (debug_lines (CallDifferenceHash (Some img) :: ?t)) with (debug_lines t).
  assert (Hpass : forall cs,
            forallb (checkpoint_passes dhash CropImage img) cs = true ->
            mismatch_lines (debug_lines (trace (Matches_range dhash CropImage (Some img) cs)))
            = []).
  { induction cs as [|c cs IH]; [done|]. cbn [forallb]. intros [Hc Hcs]%andb_true_iff.
    unfold checkpoint_passes in Hc.
    destruct (checkpoint_distance dhash CropImage img c) as [d|] eqn:Hd; [|done].
    destruct (Matches_range_cons_log img c cs d Hd) as [-> _]. rewrite Hc. by apply IH. }
  split.
  - intros Htrue. by apply Hpass, Matches_range_true.
  - intros Hfalse.
    destruct (Matches_range_false img _ Hfalse) as (pre & c & post & d & E & Hpre & Hd & Hlt).
    exists pre, c, post, d. split_and!; try done.
    + rewrite E. clear E Hfalse Hne. induction pre as [|c0 pre IH].
      * cbn [app]. destruct (Matches_range_cons_log img c post d Hd) as [-> _].
        by replace (d <=? 1) with false by lia.
      * cbn [forallb] in Hpre. apply andb_true_iff in Hpre as [Hc0 Hpre].
        unfold checkpoint_passes in Hc0.
        destruct (checkpoint_distance dhash CropImage img c0) as [d0|] eqn:Hd0; [|done].
        change ((c0 :: pre) ++ c :: post) with (c0 :: (pre ++ c :: post)).
        destruct (Matches_range_cons_log img c0 (pre ++ c :: post) d0 Hd0) as [-> _].
        rewrite Hc0. by apply IH.
    + rewrite E. clear E Hfalse Hne.
      assert (Hlast : last (trace (Matches_range dhash CropImage (Some img) (pre ++ c :: post)))
                      = Some (Debugf (mismatch_line c).1 (mismatch_line c).2)).
      { induction pre as [|c0 pre IH].
        - by apply (Matches_range_cons_log img c post d Hd).
        - cbn [forallb] in Hpre. apply andb_true_iff in Hpre as [Hc0 Hpre].
          specialize (IH Hpre).
          unfold checkpoint_passes in Hc0.
          destruct (checkpoint_distance dhash CropImage img c0) as [d0|] eqn:Hd0; [|done].
          change ((c0 :: pre) ++ c :: post) with (c0 :: (pre ++ c :: post)).
          destruct (Matches_range_cons_log img c0 (pre ++ c :: post) d0 Hd0)
            as (_ & _ & [t ->]); [lia|].
          by rewrite last_app, IH. }
      unfold trace at 1. cbn [fst]. by rewrite last_cons, Hlast.
Qed.

(** X9: the error of the crop primitive is never looked at, only the image
    that comes with it: two crop primitives that yield the same images give
    the same run, whatever errors they report. *)
Theorem crop_error_is_dropped
    (CropImage' : option Image -> Rectangle -> option Image * option error)
    (T : RokOCRTemplate.t) (img : option Image) :
  (forall i rect, (CropImage i rect).1 = (CropImage' i rect).1) ->
  Matches dhash CropImage T img = Matches dhash CropImage' T img.
Proof.
  intros Hsame.
  assert (Hloop : forall cs, Matches_range dhash CropImage img cs
                             = Matches_range dhash CropImage' img cs).
  { induction cs as [|c cs IH]; [done|]. cbn [Matches_range].
    destruct (OCRCrop.CropRectange (OCRCheckpoint.Crop c)) as [rect|p]; [|done].
    rewrite !bind_lift, !bind_emit. specialize (Hsame img rect).
    destruct (CropImage img rect) as [sub e], (CropImage' img rect) as [sub' e'].
    cbn [fst] in Hsame. subst sub'. by rewrite IH. }
  unfold Matches. by destruct (length (RokOCRTemplate.Checkpoints T) =? 0)%nat; rewrite ?Hloop.
Qed.

End MatcherMore.

Lemma hashMatches_tolerates_one_bit_witness :
  result (hashMatches Double.dhash (Some Double.speck) (Some (NewImageHash 0 DHash)))
  = Returns true
  /\ debug_lines (trace (hashMatches Double.dhash (Some Double.speck)
                           (Some (NewImageHash 0 DHash))))
     = [distance_line 0 1 1].
Proof.
  exact (proj1 (hashMatches_tolerates_one_bit Double.dhash Double.speck (NewImageHash 0 DHash))
           eq_refl).
Defined.

Lemma threshold_is_a_tolerance_witness :
  let T := template_of "ffffffffffffffff" 64 [] in
  64 <= RokOCRTemplate.Threshold T
  /\ RokOCRTemplate.Checkpoints T = []
  /\ result (Matches Double.dhash Double.CropImage T (Some Double.blank)) = Returns true.
Proof.
  intros T. assert (H64 : 64 <= RokOCRTemplate.Threshold T) by (cbn; lia).
  split; [exact H64|]. split; [reflexivity|].
  exact (proj2 (proj2 (threshold_is_a_tolerance Double.dhash Double.CropImage T) H64)
           eq_refl Double.blank).
Defined.

Lemma Matches_nil_image_panics_witness :
  (forall rect, (Double.CropImage None rect).1 = None)
  /\ (exists p, result (Matches Double.dhash Double.CropImage scenario4 None) = Panics p)
  /\ (exists p, result (Matches Double.dhash Double.CropImage scenario1 None) = Panics p).
Proof.
  assert (Hcrop : forall rect, (Double.CropImage None rect).1 = None) by reflexivity.
  split; [exact Hcrop|]. split.
  - exact (proj1 (Matches_nil_image_panics Double.dhash Double.CropImage scenario4 Hcrop)).
  - exact (proj1 (Matches_nil_image_panics Double.dhash Double.CropImage scenario1 Hcrop)).
Defined.

Lemma checkpoint_order_is_irrelevant_witness :
  let T1 := template_of "" 0 [checkpoint_near; checkpoint_far] in
  let T2 := template_of "" 0 [checkpoint_far; checkpoint_near] in
  RokOCRTemplate.Checkpoints T1 ≡ₚ RokOCRTemplate.Checkpoints T2
  /\ RokOCRTemplate.Checkpoints T1 <> []
  /\ Forall (fun c => is_Some (checkpoint_distance Double.dhash Double.CropImage Double.blank c))
       (RokOCRTemplate.Checkpoints T1)
  /\ result (Matches Double.dhash Double.CropImage T1 (Some Double.blank))
     = result (Matches Double.dhash Double.CropImage T2 (Some Double.blank)).
Proof.
  intros T1 T2.
  assert (Hperm : RokOCRTemplate.Checkpoints T1 ≡ₚ RokOCRTemplate.Checkpoints T2)
    by apply Permutation_swap.
  assert (Hne : RokOCRTemplate.Checkpoints T1 <> []) by discriminate.
  assert (Hall : Forall (fun c => is_Some (checkpoint_distance Double.dhash Double.CropImage
                                            Double.blank c)) (RokOCRTemplate.Checkpoints T1)).
  { repeat constructor; eexists; reflexivity. }
  split; [exact Hperm|]. split; [exact Hne|]. split; [exact Hall|].
  exact (proj1 (checkpoint_order_is_irrelevant Double.dhash Double.CropImage Double.blank
                  T1 T2 Hperm Hne Hall)).
Defined.

Lemma failed_checkpoint_is_logged_witness :
  RokOCRTemplate.Checkpoints scenario4 <> []
  /\ result (Matches Double.dhash Double.CropImage scenario4 (Some Double.blank)) = Returns false
  /\ exists pre c post d,
       RokOCRTemplate.Checkpoints scenario4 = pre ++ c :: post
       /\ forallb (checkpoint_passes Double.dhash Double.CropImage Double.blank) pre = true
       /\ checkpoint_distance Double.dhash Double.CropImage Double.blank c = Some d /\ 1 < d
       /\ mismatch_lines (debug_lines (trace (Matches Double.dhash Double.CropImage scenario4
                                                (Some Double.blank))))
          = [[ArgCrop (OCRCheckpoint.Crop c); ArgString (OCRCheckpoint.Fingerprint c)]]
       /\ last (trace (Matches Double.dhash Double.CropImage scenario4 (Some Double.blank)))
          = Some (Debugf "Area %v doesn't match expected hash: %v"
                    [ArgCrop (OCRCheckpoint.Crop c);
                     ArgString (OCRCheckpoint.Fingerprint c)]).
Proof.
  assert (Hne : RokOCRTemplate.Checkpoints scenario4 <> []) by discriminate.
  split; [exact Hne|]. split; [reflexivity|].
  exact (proj2 (failed_checkpoint_is_logged Double.dhash Double.CropImage Double.blank
                  scenario4 Hne) eq_refl).
Defined.

Lemma crop_error_is_dropped_witness :
  let silent := fun i rect => ((Double.CropImage i rect).1, @None error) in
  (forall i rect, (Double.CropImage i rect).1 = (silent i rect).1)
  /\ Matches Double.dhash Double.CropImage scenario4 (Some Double.blank)
     = Matches Double.dhash silent scenario4 (Some Double.blank).
Proof.
  intros silent.
  assert (Hsame : forall i rect, (Double.CropImage i rect).1 = (silent i rect).1)
    by reflexivity.
  split; [exact Hsame|].
  exact (crop_error_is_dropped Double.dhash Double.CropImage silent scenario4
           (Some Double.blank) Hsame).
Defined.

(** ** Saved errors *)

Lemma with_saved_dmap {A B} (f : A -> B) (e : error) (r : dres A) :
  with_saved e (dmap f r) = dmap f (with_saved e r).
Proof. by destruct r. Qed.


Lemma uniform_mismatch {A} (gotype : string) (j : json) (cur : A) (s : option error) (e : error) :
  mismatch j gotype cur (Some e) = with_saved e (mismatch j gotype cur s).
Proof. unfold mismatch. by destruct (json_kind j). Qed.

Lemma uniform_string : uniform decode_string.
Proof. intros j cur s e. destruct j; try done; apply uniform_mismatch. Qed.

Lemma uniform_int : uniform decode_int.
Proof.
  intros j cur s e. destruct j as [| |n| | |]; try apply uniform_mismatch.
  cbn. by destruct (ParseInt n).
Qed.

Lemma uniform_iface : uniform decode_iface.
Proof.
  intros j cur s e. unfold decode_iface.
  destruct j as [| |n| | |]; try (by destruct (number_error _)).
  by destruct (ParseFloat n).
Qed.

Lemma uniform_elems {A} (dec : decoder A) (zero : A) (l : list json) :
  uniform dec ->
  forall cur s e,
    decode_elems dec zero l cur (Some e) = with_saved e (decode_elems dec zero l cur s).
Proof.
  intros Hdec. induction l as [|j l IH]; intros cur s e; [done|].
  cbn [decode_elems]. rewrite (Hdec j (hd zero cur) s e).
  destruct (dec j (hd zero cur) s) as [a s'| |]; cbn [with_saved]; [|done..].
  by rewrite (IH (tl cur) s' e), with_saved_dmap.
Qed.

Lemma uniform_slice {A} (gotype : string) (dec : decoder A) (zero : A) :
  uniform dec -> uniform (decode_slice gotype dec zero).
Proof.
  intros Hdec j cur s e. destruct j; try done; try apply uniform_mismatch.
  by apply uniform_elems.
Qed.

Lemma uniform_members {A} (field : string -> decoder A) (l : list (string * json)) :
  (forall k, uniform (field k)) ->
  forall cur s e,
    decode_members field l cur (Some e) = with_saved e (decode_members field l cur s).
Proof.
  intros Hf. induction l as [|[k j] l IH]; intros cur s e; [done|].
  cbn [decode_members]. rewrite (Hf k j cur s e).
  destruct (field k j cur s) as [a s'| |]; cbn [with_saved]; [|done..].
  apply IH.
Qed.

Lemma uniform_struct {A} (gotype : string) (field : string -> decoder A) :
  (forall k, uniform (field k)) -> uniform (decode_struct gotype field).
Proof.
  intros Hf j cur s e. destruct j; try done; try apply uniform_mismatch.
  by apply uniform_members.
Qed.

Lemma uniform_map {A} (gotype : string) (dec : decoder A) (zero : A) :
  uniform dec -> uniform (decode_map gotype dec zero).
Proof.
  intros Hdec j cur s e. destruct j; try done; try apply uniform_mismatch.
  apply uniform_members. intros k j m s' e'. rewrite (Hdec j zero s' e').
  by destruct (dec j zero s').
Qed.

Lemma uniform_unmarshaler {A} (r : outcome (A * option error)) (s : option error) (e : error) :
  of_unmarshaler r (Some e) = with_saved e (of_unmarshaler r s).
Proof. by destruct r as [[a [e'|]]|]. Qed.

Lemma uniform_crop_ptr : uniform decode_crop_ptr.
Proof.
  intros j cur s e. unfold decode_crop_ptr.
  destruct j; try done; rewrite with_saved_dmap; f_equal; apply uniform_unmarshaler.
Qed.

Lemma uniform_table_field : uniform decode_table_field.
Proof. intros j cur s e. apply uniform_unmarshaler. Qed.

Ltac uniform_field :=
  repeat match goal with
         | |- context [String.eqb ?a ?b] => destruct (String.eqb a b)
         end;
  try done;
  rewrite with_saved_dmap; f_equal.

Lemma uniform_checkpoint_field (k : string) : uniform (checkpoint_field k).
Proof.
  intros j c s e. unfold checkpoint_field. uniform_field.
  - apply uniform_crop_ptr.
  - apply uniform_string.
Qed.

Lemma uniform_checkpoint : uniform decode_checkpoint.
Proof. apply uniform_struct, uniform_checkpoint_field. Qed.

Lemma uniform_schema_field (k : string) : uniform (schema_field k).
Proof.
  intros j c s e. unfold schema_field. destruct c. uniform_field.
  - apply uniform_iface.
  - apply uniform_slice, uniform_string.
  - apply uniform_int.
  - apply uniform_int.
  - apply uniform_crop_ptr.
  - apply uniform_slice, uniform_iface.
Qed.

Lemma uniform_schema : uniform decode_schema.
Proof. apply uniform_struct, uniform_schema_field. Qed.

Lemma uniform_template_field (k : string) : uniform (template_field k).
Proof.
  intros j t s e. unfold template_field. destruct t. uniform_field.
  - apply uniform_string.
  - apply uniform_string.
  - apply uniform_string.
  - apply uniform_int.
  - apply uniform_int.
  - apply uniform_map, uniform_schema.
  - apply uniform_string.
  - apply uniform_int.
  - apply uniform_slice, uniform_table_field.
  - apply uniform_slice, uniform_checkpoint.
Qed.

(** A decoding that ends with no error saved started with none. *)
Lemma template_members_no_error (l : list (string * json)) (t t' : RokOCRTemplate.t)
    (s : option error) :
  decode_members template_field l t s = DOk t' None -> s = None.
Proof.
  destruct s as [e|]; [|done].
  rewrite (uniform_members template_field l uniform_template_field t None e).
  by destruct (decode_members template_field l t None).
Qed.

(** ** Members of a template document *)



Lemma template_field_string_mismatch (k : string) (bad : json) (kind : jkind)
    (t : RokOCRTemplate.t) (s : option error) :
  fold_key k ∈ string_keys -> json_kind bad = Some kind -> kind <> KString ->
  template_field k bad t s = DOk t (saveError s (UnmarshalTypeError kind "string")).
Proof.
  intros Hk Hkind Hne. unfold template_field. destruct t.
  unfold string_keys in Hk. rewrite !elem_of_cons, elem_of_nil in Hk.
  destruct Hk as [->|[->|[->|[->|[]]]]]; cbn;
    destruct bad; cbn in *; try congruence; injection Hkind as <-; done.
Qed.

Lemma template_field_int_mismatch (k : string) (bad : json) (t : RokOCRTemplate.t)
    (s : option error) :
  fold_key k ∈ int_keys ->
  match bad with
  | JNumber n => ParseInt n = None
  | JNull => False
  | _ => True
  end ->
  template_field k bad t s
  = DOk t (saveError s (UnmarshalTypeError (default KNumber (json_kind bad)) "int")).
Proof.
  intros Hk Hbad. unfold template_field. destruct t.
  unfold int_keys in Hk. rewrite !elem_of_cons, elem_of_nil in Hk.
  destruct Hk as [->|[->|[->|[]]]]; cbn;
    destruct bad as [| |n| | |]; cbn in *; try done; by rewrite Hbad.
Qed.

Section LoadMore.

Variable ReadFile : string -> string * option error.
Variable scan : string -> json + error.

Lemma holds_LoadTemplate (fileName : string) (doc : json) :
  holds ReadFile scan fileName doc ->
  LoadTemplate ReadFile scan fileName = Unmarshal_document doc RokOCRTemplate.zero.
Proof.
  intros (b & read_err & HR & Hb & Hs). by apply (LoadTemplate_document _ _ _ b read_err).
Qed.


(** X11: a member of the wrong type for a string or an integer field does not
    stop the loading.  When the document without that member loads without
    error, the document with it loads the same template, and the error
    returned tells the type that did not fit: the field keeps its value, and
    the members after it are still read. *)
Theorem mistyped_member_is_skipped (f1 f2 : string) (l1 l2 : list (string * json))
    (k : string) (bad : json) (t : RokOCRTemplate.t) :
  holds ReadFile scan f1 (JObject (l1 ++ l2)) ->
  holds ReadFile scan f2 (JObject (l1 ++ (k, bad) :: l2)) ->
  LoadTemplate ReadFile scan f1 = Returns (t, None) ->
  (forall kind, fold_key k ∈ string_keys -> json_kind bad = Some kind -> kind <> KString ->
     LoadTemplate ReadFile scan f2 = Returns (t, Some (UnmarshalTypeError kind "string")))
  /\ (forall kind, fold_key k ∈ int_keys -> json_kind bad = Some kind -> kind <> KNumber ->
      LoadTemplate ReadFile scan f2 = Returns (t, Some (UnmarshalTypeError kind "int")))
  /\ (forall n, fold_key k ∈ int_keys -> bad = JNumber n -> ParseInt n = None ->
      LoadTemplate ReadFile scan f2 = Returns (t, Some (UnmarshalTypeError KNumber "int"))).
Proof.
  intros H1 H2. rewrite (holds_LoadTemplate f1 _ H1), (holds_LoadTemplate f2 _ H2).
  unfold Unmarshal_document, decode_template, decode_struct.
  rewrite !decode_members_app.
  destruct (decode_members template_field l1 _ None) as [t1 s1| |] eqn:E1; [|done..].
  destruct (decode_members template_field l2 t1 s1) as [t' s'| |] eqn:E2; [|done..].
  intros [= -> ->].
  pose proof (template_members_no_error _ _ _ _ E2) as ->.
  assert (Hskip : forall e,
            template_field k bad t1 None = DOk t1 (Some e) ->
            match decode_members template_field ((k, bad) :: l2) t1 None with
            | DOk t' saved => Returns (t', saved)
            | DFail t' e => Returns (t', Some e)
            | DPanic p => Panics p
            end = Returns (t, Some e)).
  { intros e He. cbn [decode_members]. rewrite He.
    rewrite (uniform_members template_field l2 uniform_template_field t1 None e).
    by rewrite E2. }
  split_and!.
  - intros kind Hk Hkind Hne. apply Hskip.
    by rewrite (template_field_string_mismatch k bad kind t1 None Hk Hkind Hne).
  - intros kind Hk Hkind Hne. apply Hskip.
    rewrite (template_field_int_mismatch k bad t1 None Hk); [by rewrite Hkind|].
    destruct bad; cbn in *; try done; congruence.
  - intros n Hk -> Hn. apply Hskip.
    by rewrite (template_field_int_mismatch k (JNumber n) t1 None Hk Hn).
Qed.

(** X12: a document that is not an object fills nothing.  An array, a string, a
    number or a boolean gives the zero template and an error that names the
    kind of the document; [null] and the empty object give the zero template
    and no error. *)
Theorem document_that_is_no_object (fileName : string) (doc : json) :
  holds ReadFile scan fileName doc ->
  (forall k, json_kind doc = Some k -> k <> KObject ->
     LoadTemplate ReadFile scan fileName
     = Returns (RokOCRTemplate.zero,
                Some (UnmarshalTypeError k "ocrschema.RokOCRTemplate")))
  /\ (doc = JNull \/ doc = JObject [] ->
      LoadTemplate ReadFile scan fileName = Returns (RokOCRTemplate.zero, None)).
Proof.
  intros H. rewrite (holds_LoadTemplate _ _ H). split.
  - intros k Hk Hne. by destruct doc; cbn in *; try congruence; injection Hk as <-.
  - by intros [->| ->].
Qed.

End LoadMore.

Ltac on_the_shelf := eexists _, _; split; [reflexivity|split; [discriminate|reflexivity]].


Lemma mistyped_member_is_skipped_witness :
  let l1 := [("title"%string, JString "kills")] in
  let l2 := [("threshold"%string, JNumber (IntLit 2))] in
  let t := RokOCRTemplate.mk "kills" "" "" 0 0 ∅ "" 2 [] [] in
  holds Shelf.ReadFile Shelf.scan "plain.json" (JObject (l1 ++ l2))
  /\ holds Shelf.ReadFile Shelf.scan "mistyped.json"
       (JObject (l1 ++ ("width"%string, JString "wide") :: l2))
  /\ LoadTemplate Shelf.ReadFile Shelf.scan "plain.json" = Returns (t, None)
  /\ LoadTemplate Shelf.ReadFile Shelf.scan "mistyped.json"
     = Returns (t, Some (UnmarshalTypeError KString "int")).
Proof.
  intros l1 l2 t.
  assert (Hplain : holds Shelf.ReadFile Shelf.scan "plain.json" (JObject (l1 ++ l2)))
    by on_the_shelf.
  assert (Hmistyped : holds Shelf.ReadFile Shelf.scan "mistyped.json"
                        (JObject (l1 ++ ("width"%string, JString "wide") :: l2)))
    by on_the_shelf.
  assert (Hload : LoadTemplate Shelf.ReadFile Shelf.scan "plain.json" = Returns (t, None))
    by reflexivity.
  assert (Hkey : fold_key "width" ∈ int_keys) by (apply list_elem_of_In; cbn; tauto).
  assert (Hkind : KString <> KNumber) by discriminate.
  split; [exact Hplain|]. split; [exact Hmistyped|]. split; [exact Hload|].
  exact (proj1 (proj2 (mistyped_member_is_skipped Shelf.ReadFile Shelf.scan
                         "plain.json" "mistyped.json" l1 l2 "width" (JString "wide") t
                         Hplain Hmistyped Hload))
           KString Hkey eq_refl Hkind).
Defined.

Lemma document_that_is_no_object_witness :
  holds Shelf.ReadFile Shelf.scan "list.json" (JArray [])
  /\ LoadTemplate Shelf.ReadFile Shelf.scan "list.json"
     = Returns (RokOCRTemplate.zero,
                Some (UnmarshalTypeError KArray "ocrschema.RokOCRTemplate")).
Proof.
  assert (Hlist : holds Shelf.ReadFile Shelf.scan "list.json" (JArray [])) by on_the_shelf.
  assert (Hkind : KArray <> KObject) by discriminate.
  split; [exact Hlist|].
  exact (proj1 (document_that_is_no_object Shelf.ReadFile Shelf.scan "list.json" (JArray [])
                  Hlist) KArray eq_refl Hkind).
Defined.

(** ** Arrays handed to the two unmarshallers *)

Lemma saveError_twice (s : option error) (e : error) :
  saveError (saveError s e) e = saveError s e.
Proof. by destruct s. Qed.

Lemma decode_iface_saved (j : json) (cur : iface) (s : option error) :
  exists v, decode_iface j cur s
            = DOk v (if number_error j then saveError s range_error else s)
            /\ (number_error j = false -> v = valueInterface j).
Proof.
  unfold decode_iface. destruct j as [| |n| | |]; try by eexists.
  cbn [number_error valueInterface]. destruct (ParseFloat n); by eexists.
Qed.

Lemma decode_elems_iface (l : list json) (cur : list iface) (s : option error) :
  exists v, decode_elems decode_iface INil l cur s
            = DOk v (if existsb number_error l then saveError s range_error else s)
            /\ (existsb number_error l = false -> v = map valueInterface l).
Proof.
  revert cur s. induction l as [|j l IH]; intros cur s; [by eexists|].
  cbn [decode_elems existsb map].
  destruct (decode_iface_saved j (hd INil cur) s) as (v0 & -> & Hv0).
  destruct (IH (tl cur) (if number_error j then saveError s range_error else s))
    as (v & -> & Hv).
  exists (v0 :: v). cbn [dmap]. split.
  - destruct (number_error j), (existsb number_error l); cbn [orb];
      by rewrite ?saveError_twice.
  - intros [Hj Hl]%orb_false_iff. by rewrite Hv0, Hv.
Qed.

Lemma Unmarshal_ifaces_array (l : list json) :
  exists v, Unmarshal_ifaces (JArray l)
            = (v, if existsb number_error l then Some range_error else None)
            /\ (existsb number_error l = false -> v = map valueInterface l).
Proof.
  unfold Unmarshal_ifaces, decode_slice.
  destruct (decode_elems_iface l [] None) as (v & -> & Hv).
  exists v. split; [|done]. by destruct (existsb number_error l).
Qed.

(** Decoding the encodings of table descriptors gives them back, whatever
    the slice held before. *)
Lemma decode_elems_descriptors (fields cur : list ROKTableField.t) (s : option error) :
  decode_elems decode_table_field ROKTableField.zero
    (map (fun f => (ROKTableField.MarshalJSON f).1) fields) cur s
  = DOk fields s.
Proof.
  revert cur. induction fields as [|f fields IH]; intros cur; [done|].
  cbn [map decode_elems]. unfold decode_table_field at 1.
  rewrite table_field_roundtrip. cbn [of_unmarshaler]. by rewrite IH.
Qed.

Lemma template_field_table (key : string) (j : json) (t : RokOCRTemplate.t)
    (s : option error) :
  fold_key key = "table"%string ->
  template_field key j t s
  = dmap (with_table t)
      (decode_slice "[]ocrschema.ROKTableField" decode_table_field ROKTableField.zero
         j (RokOCRTemplate.Table t) s).
Proof. intros Hk. unfold template_field. rewrite Hk. by destruct t. Qed.

Section LoadArrays.

Variable ReadFile : string -> string * option error.
Variable scan : string -> json + error.

(** What the members before a point decode to, read off a file that holds
    them alone and loads without error. *)
Lemma loaded_members (f0 : string) (before : list (string * json)) (t1 : RokOCRTemplate.t) :
  holds ReadFile scan f0 (JObject before) ->
  LoadTemplate ReadFile scan f0 = Returns (t1, None) ->
  decode_members template_field before RokOCRTemplate.zero None = DOk t1 None.
Proof.
  intros H0. rewrite (holds_LoadTemplate _ _ _ _ H0).
  unfold Unmarshal_document, decode_template, decode_struct.
  destruct (decode_members template_field before _ None); by intros [= -> ->].
Qed.

(** X13: an error returned by a table descriptor stops the loading at once: the
    template returned holds what the members before the table gave and the
    descriptors decoded so far, followed by an empty one; the descriptors
    and the members after the bad one are not read. *)
Theorem loading_stops_at_a_bad_descriptor (f0 f : string) (before after : list (string * json))
    (key : string) (fields : list ROKTableField.t) (bad : json) (rest : list json)
    (k : jkind) (t1 : RokOCRTemplate.t) :
  holds ReadFile scan f0 (JObject before) ->
  LoadTemplate ReadFile scan f0 = Returns (t1, None) ->
  RokOCRTemplate.Table t1 = [] ->
  holds ReadFile scan f
    (JObject (before
              ++ (key, JArray (map (fun d => (ROKTableField.MarshalJSON d).1) fields
                               ++ bad :: rest)) :: after)) ->
  fold_key key = "table"%string ->
  json_kind bad = Some k -> k <> KArray ->
  LoadTemplate ReadFile scan f
  = Returns (with_table t1 (fields ++ [ROKTableField.zero]),
             Some (UnmarshalTypeError k "[]interface {}")).
Proof.
  intros H0 Ht1 Htable Hf Hkey Hk Hne.
  rewrite (holds_LoadTemplate _ _ _ _ Hf).
  unfold Unmarshal_document, decode_template, decode_struct.
  rewrite decode_members_app, (loaded_members f0 before t1 H0 Ht1).
  cbn [decode_members]. rewrite (template_field_table key _ t1 None Hkey).
  unfold decode_slice. rewrite decode_elems_app, decode_elems_descriptors, Htable.
  cbn [decode_elems]. unfold decode_table_field at 1.
  rewrite (TableField_not_an_array _ _ k Hk Hne). rewrite drop_nil. done.
Qed.

End LoadArrays.

(** ** Rectangles of four numbers *)

(** X14: an array that starts with four numbers is a crop rectangle: the
    numbers are read as [float64]s and cut to integers, and what follows
    them is ignored.  Integers of magnitude up to [2^53] are read exactly.
    A number out of the range of [float64], anywhere in the array, is not a
    panic but an error, and the crop is left as it was. *)
Theorem rectangle_of_four_numbers (b : OCRCrop.t) (n0 n1 n2 n3 : number) (more : list json) :
  let data := JArray (JNumber n0 :: JNumber n1 :: JNumber n2 :: JNumber n3 :: more) in
  (forall f0 f1 f2 f3,
      ParseFloat n0 = Some f0 -> ParseFloat n1 = Some f1 ->
      ParseFloat n2 = Some f2 -> ParseFloat n3 = Some f3 ->
      existsb number_error more = false ->
      OCRCrop.UnmarshalJSON b data
      = Returns (OCRCrop.mk (int_of_float64 f0) (int_of_float64 f1)
                   (int_of_float64 f2) (int_of_float64 f3), None))
  /\ (forall c, exact_crop (Some c) = true ->
      n0 = IntLit (OCRCrop.X c) -> n1 = IntLit (OCRCrop.Y c) ->
      n2 = IntLit (OCRCrop.W c) -> n3 = IntLit (OCRCrop.H c) ->
      existsb number_error more = false ->
      OCRCrop.UnmarshalJSON b data = Returns (c, None))
  /\ (existsb number_error (JNumber n0 :: JNumber n1 :: JNumber n2 :: JNumber n3 :: more)
      = true ->
      OCRCrop.UnmarshalJSON b data = Returns (b, Some range_error)).
Proof.
  intros data.
  assert (Hfloat : forall f0 f1 f2 f3,
      ParseFloat n0 = Some f0 -> ParseFloat n1 = Some f1 ->
      ParseFloat n2 = Some f2 -> ParseFloat n3 = Some f3 ->
      existsb number_error more = false ->
      OCRCrop.UnmarshalJSON b data
      = Returns (OCRCrop.mk (int_of_float64 f0) (int_of_float64 f1)
                   (int_of_float64 f2) (int_of_float64 f3), None)).
  { intros f0 f1 f2 f3 H0 H1 H2 H3 Hmore. unfold OCRCrop.UnmarshalJSON, data.
    destruct (Unmarshal_ifaces_array
                (JNumber n0 :: JNumber n1 :: JNumber n2 :: JNumber n3 :: more))
      as (v & -> & Hv).
    assert (Hnum : existsb number_error
                     (JNumber n0 :: JNumber n1 :: JNumber n2 :: JNumber n3 :: more) = false).
    { cbn [existsb number_error]. by rewrite H0, H1, H2, H3, Hmore. }
    rewrite Hnum, (Hv Hnum). cbn [map valueInterface]. by rewrite H0, H1, H2, H3. }
  split_and!.
  - exact Hfloat.
  - intros [x y w h]. cbn [exact_crop OCRCrop.X OCRCrop.Y OCRCrop.W OCRCrop.H].
    rewrite !andb_true_iff. intros [[[Hx Hy] Hw] Hh] -> -> -> -> Hmore.
    destruct (float64_of_Z_exact x (exact_range x Hx)) as [Px Ix].
    destruct (float64_of_Z_exact y (exact_range y Hy)) as [Py Iy].
    destruct (float64_of_Z_exact w (exact_range w Hw)) as [Pw Iw].
    destruct (float64_of_Z_exact h (exact_range h Hh)) as [Ph Ih].
    rewrite (Hfloat _ _ _ _ Px Py Pw Ph Hmore). by rewrite Ix, Iy, Iw, Ih.
  - intros Hnum. unfold OCRCrop.UnmarshalJSON, data.
    destruct (Unmarshal_ifaces_array
                (JNumber n0 :: JNumber n1 :: JNumber n2 :: JNumber n3 :: more))
      as (v & -> & _).
    by rewrite Hnum.
Qed.

Lemma loading_stops_at_a_bad_descriptor_witness :
  let before := [("title"%string, JString "kills")] in
  let after := [("checkpoints"%string, JArray [JObject [("fingerprint"%string, JString "1")]])] in
  let doc := JObject (before
                      ++ ("table"%string,
                          JArray (map (fun d => (ROKTableField.MarshalJSON d).1) []
                                  ++ JString "Name" :: [])) :: after) in
  holds Shelf.ReadFile Shelf.scan "late_checkpoints.json" doc
  /\ LoadTemplate Shelf.ReadFile Shelf.scan "late_checkpoints.json"
     = Returns (RokOCRTemplate.mk "kills" "" "" 0 0 ∅ "" 0 [ROKTableField.zero] [],
                Some (UnmarshalTypeError KString "[]interface {}")).
Proof.
  intros before after doc.
  assert (Hdoc : holds Shelf.ReadFile Shelf.scan "late_checkpoints.json" doc) by on_the_shelf.
  assert (Hbefore : holds Shelf.ReadFile Shelf.scan "title.json" (JObject before))
    by on_the_shelf.
  assert (Hkind : KString <> KArray) by discriminate.
  split; [exact Hdoc|].
  exact (loading_stops_at_a_bad_descriptor Shelf.ReadFile Shelf.scan
           "title.json" "late_checkpoints.json" before after "table" [] (JString "Name") []
           KString (RokOCRTemplate.mk "kills" "" "" 0 0 ∅ "" 0 [] [])
           Hbefore eq_refl eq_refl Hdoc eq_refl eq_refl Hkind).
Defined.

Lemma rectangle_of_four_numbers_witness :
  exact_crop (Some corner) = true
  /\ OCRCrop.UnmarshalJSON OCRCrop.zero
       (JArray [JNumber (IntLit 0); JNumber (IntLit 0); JNumber (IntLit 10);
                JNumber (IntLit 10); JString "px"])
     = Returns (corner, None).
Proof.
  split; [reflexivity|].
  exact (proj1 (proj2 (rectangle_of_four_numbers OCRCrop.zero (IntLit 0) (IntLit 0)
                         (IntLit 10) (IntLit 10) [JString "px"]))
           corner eq_refl eq_refl eq_refl eq_refl eq_refl eq_refl).
Defined.

(** ** Where the unmarshallers panic *)

Lemma TableField_panics (b : ROKTableField.t) (data : json) :
  (exists p, ROKTableField.UnmarshalJSON b data = Panics p)
  <-> well_shaped_descriptor data = false.
Proof.
  assert (Hno : forall r : ROKTableField.t * option error,
             (exists p, Returns r = Panics p) <-> true = false).
  { intros r. split; [by intros [p Hp]|done]. }
  assert (Hyes : forall p0 : panic,
             (exists p, @Panics (ROKTableField.t * option error) p0 = Panics p) <-> false = false).
  { intros p0. split; [done|by eexists]. }
  destruct data as [| | | |l|]; try apply Hno; [apply Hyes|].
  unfold ROKTableField.UnmarshalJSON. cbn [well_shaped_descriptor].
  destruct (Unmarshal_ifaces_array l) as (v & -> & Hv).
  destruct (existsb number_error l) eqn:Hnum; [apply Hno|].
  rewrite (Hv eq_refl). cbn [orb].
  destruct l as [|j0 [|j1 [|j2 [|j3 l]]]]; try apply Hyes;
    [destruct j2; cbn; try destruct (ParseFloat _); apply Hyes|].
  destruct j2 as [| | | | |]; try apply Hyes;
    try (cbn; destruct (ParseFloat _); apply Hyes).
  destruct j3 as [| | | | |]; try apply Hyes; try apply Hno;
    cbn; destruct (ParseFloat _); apply Hyes.
Qed.

Ltac number_or_panic j Hnum Hyes :=
  destruct j as [| |?n| | |]; try apply Hyes;
  cbn [existsb number_error orb] in Hnum; cbn [map valueInterface];
  destruct (ParseFloat _); [|discriminate Hnum]; cbn [orb] in Hnum.

Lemma Crop_panics (b : OCRCrop.t) (data : json) :
  (exists p, OCRCrop.UnmarshalJSON b data = Panics p)
  <-> well_shaped_rectangle data = false.
Proof.
  assert (Hno : forall r : OCRCrop.t * option error,
             (exists p, Returns r = Panics p) <-> true = false).
  { intros r. split; [by intros [p Hp]|done]. }
  assert (Hyes : forall p0 : panic,
             (exists p, @Panics (OCRCrop.t * option error) p0 = Panics p) <-> false = false).
  { intros p0. split; [done|by eexists]. }
  destruct data as [| | | |l|]; try apply Hno; [apply Hyes|].
  unfold OCRCrop.UnmarshalJSON. cbn [well_shaped_rectangle].
  destruct (Unmarshal_ifaces_array l) as (v & -> & Hv).
  destruct (existsb number_error l) eqn:Hnum; [apply Hno|].
  rewrite (Hv eq_refl). cbn [orb]. clear Hv.
  destruct l as [|j0 l]; [apply Hyes|]. number_or_panic j0 Hnum Hyes.
  destruct l as [|j1 l]; [apply Hyes|]. number_or_panic j1 Hnum Hyes.
  destruct l as [|j2 l]; [apply Hyes|]. number_or_panic j2 Hnum Hyes.
  destruct l as [|j3 l]; [apply Hyes|]. number_or_panic j3 Hnum Hyes.
  apply Hno.
Qed.

(** ** Documents that load *)














Section LoadShapes.

Variable ReadFile : string -> string * option error.
Variable scan : string -> json + error.

(** X15: the unmarshaller of a table descriptor, and that of a crop rectangle,
    panics on exactly the sub-documents that are not well shaped; and a
    descriptor that is not well shaped makes [LoadTemplate] panic when it
    stands in the table of a document, after descriptors that are fine and
    members that load.  A crop that is [null] is not handed to the
    unmarshaller: it is read as nil. *)
Theorem unmarshallers_panic_on_ill_shaped_arrays (data : json) :
  (forall b, (exists p, ROKTableField.UnmarshalJSON b data = Panics p)
             <-> well_shaped_descriptor data = false)
  /\ (forall b, (exists p, OCRCrop.UnmarshalJSON b data = Panics p)
                <-> well_shaped_rectangle data = false)
  /\ (forall f0 f before key fields rest after t1,
        well_shaped_descriptor data = false ->
        holds ReadFile scan f0 (JObject before) ->
        LoadTemplate ReadFile scan f0 = Returns (t1, None) ->
        holds ReadFile scan f
          (JObject (before
                    ++ (key, JArray (map (fun d => (ROKTableField.MarshalJSON d).1) fields
                                     ++ data :: rest)) :: after)) ->
        fold_key key = "table"%string ->
        exists p, LoadTemplate ReadFile scan f = Panics p)
  /\ (forall cur s, decode_crop_ptr JNull cur s = DOk None s).
Proof.
  split_and!.
  - intros b. apply TableField_panics.
  - intros b. apply Crop_panics.
  - intros f0 f before key fields rest after t1 Hshape H0 Ht1 Hf Hkey.
    rewrite (holds_LoadTemplate _ _ _ _ Hf).
    unfold Unmarshal_document, decode_template, decode_struct.
    rewrite decode_members_app, (loaded_members _ _ f0 before t1 H0 Ht1).
    cbn [decode_members]. rewrite (template_field_table key _ t1 None Hkey).
    unfold decode_slice. rewrite decode_elems_app, decode_elems_descriptors.
    cbn [decode_elems]. unfold decode_table_field at 1.
    destruct (proj2 (TableField_panics
                (hd ROKTableField.zero
                   (drop (length (map (fun d => (ROKTableField.MarshalJSON d).1) fields))
                      (RokOCRTemplate.Table t1))) data) Hshape) as [p ->].
    by eexists.
  - done.
Qed.


End LoadShapes.

(** ** Field schemas built by the constructors *)

Ltac run_field :=
  match goal with
  | |- context [schema_field ?k ?j ?c ?s] =>
      let r := eval vm_compute in (schema_field k j c s) in
      change (schema_field k j c s) with r; cbv iota beta
  end.

(** X17: a field schema built by [NewNumberField] or [NewTextField] around an
    exact crop encodes without error, and its encoding decodes to a schema
    with the same languages, modes and crop.  The callback comes back as an
    empty list of interface values, not of strings, and the digits of the
    allow-list as [float64]s. *)
Theorem constructed_fields_through_json (cropArea : option OCRCrop.t) (languages : list string) :
  exact_crop cropArea = true ->
  (schema_unsupported (NewNumberField cropArea) = false
   /\ decode_schema (encode_schema (NewNumberField cropArea)) ROKOCRSchema.zero None
      = DOk (ROKOCRSchema.mk (ISlice []) ["eng"%string] 1 7 cropArea
               (map (fun d => IFloat64 (float64_of_Z d)) [0; 1; 2; 3; 4; 5; 6; 7; 8; 9]))
            None)
  /\ (schema_unsupported (NewTextField cropArea languages) = false
      /\ decode_schema (encode_schema (NewTextField cropArea languages)) ROKOCRSchema.zero None
         = DOk (ROKOCRSchema.mk (ISlice []) languages 1 7 cropArea []) None).
Proof.
  intros Hcrop. split; (split; [reflexivity|]).
  - unfold decode_schema, encode_schema, decode_struct, NewNumberField.
    cbn [ROKOCRSchema.Callback ROKOCRSchema.Languages ROKOCRSchema.AllowList ROKOCRSchema.OEM
         ROKOCRSchema.PSM ROKOCRSchema.Crop].
    cbn [member_iface member_list member_int Z.eqb app map encode_iface decode_members].
    repeat run_field.
    rewrite decode_members_app.
    rewrite (decode_members_crop schema_field "crop" cropArea _
               (fun v => ROKOCRSchema.mk (ISlice []) ["eng"%string] 1 7 v []) None
               eq_refl (fun _ => eq_refl) Hcrop).
    by vm_compute.
  - unfold decode_schema, encode_schema, decode_struct, NewTextField.
    cbn [ROKOCRSchema.Callback ROKOCRSchema.Languages ROKOCRSchema.AllowList ROKOCRSchema.OEM
         ROKOCRSchema.PSM ROKOCRSchema.Crop].
    cbn [member_iface encode_iface map app decode_members].
    run_field. rewrite decode_members_app.
    rewrite (decode_members_list schema_field "lang" "[]string" decode_string JString
               EmptyString languages _ (fun v => ROKOCRSchema.mk (ISlice []) v 0 0 None [])
               None eq_refl (fun _ => eq_refl) (fun _ _ _ => eq_refl)).
    rewrite decode_members_app.
    rewrite (decode_members_int schema_field "oem" 1 _
               (fun v => ROKOCRSchema.mk (ISlice []) languages v 0 None []) None
               eq_refl (fun _ => eq_refl) eq_refl).
    rewrite decode_members_app.
    rewrite (decode_members_int schema_field "psm" 7 _
               (fun v => ROKOCRSchema.mk (ISlice []) languages 1 v None []) None
               eq_refl (fun _ => eq_refl) eq_refl).
    rewrite decode_members_app.
    rewrite (decode_members_crop schema_field "crop" cropArea _
               (fun v => ROKOCRSchema.mk (ISlice []) languages 1 7 v []) None
               eq_refl (fun _ => eq_refl) Hcrop).
    done.
Qed.

Lemma unmarshallers_panic_on_ill_shaped_arrays_witness :
  let row := JObject ([] ++ ("table"%string,
                             JArray (map (fun d => (ROKTableField.MarshalJSON d).1) []
                                     ++ JNull :: [])) :: []) in
  let pair := JArray [JNumber (IntLit 1); JNumber (IntLit 2)] in
  well_shaped_descriptor JNull = false
  /\ holds Shelf.ReadFile Shelf.scan "null_row.json" row
  /\ (exists p, LoadTemplate Shelf.ReadFile Shelf.scan "null_row.json" = Panics p)
  /\ well_shaped_rectangle pair = false
  /\ exists p, OCRCrop.UnmarshalJSON OCRCrop.zero pair = Panics p.
Proof.
  intros row pair.
  assert (Hrow : holds Shelf.ReadFile Shelf.scan "null_row.json" row) by on_the_shelf.
  assert (Hempty : holds Shelf.ReadFile Shelf.scan "empty.json" (JObject [])) by on_the_shelf.
  split; [reflexivity|]. split; [exact Hrow|]. split.
  - exact (proj1 (proj2 (proj2 (unmarshallers_panic_on_ill_shaped_arrays
                                  Shelf.ReadFile Shelf.scan JNull)))
             "empty.json"%string "null_row.json"%string [] "table"%string [] [] []
             RokOCRTemplate.zero eq_refl Hempty eq_refl Hrow eq_refl).
  - split; [reflexivity|].
    exact (proj2 (proj1 (proj2 (unmarshallers_panic_on_ill_shaped_arrays
                                  Shelf.ReadFile Shelf.scan pair)) OCRCrop.zero) eq_refl).
Defined.


Lemma constructed_fields_through_json_witness :
  exact_crop (Some corner) = true
  /\ decode_schema (encode_schema (NewTextField (Some corner) ["eng"; "fra"]%string))
       ROKOCRSchema.zero None
     = DOk (ROKOCRSchema.mk (ISlice []) ["eng"; "fra"]%string 1 7 (Some corner) []) None
  /\ decode_schema (encode_schema (NewNumberField (Some corner))) ROKOCRSchema.zero None
     = DOk decoded_number_field None.
Proof.
  split; [reflexivity|].
  pose proof (constructed_fields_through_json (Some corner) ["eng"; "fra"]%string eq_refl)
    as ((_ & Hnumber) & (_ & Htext)).
  split; [exact Htext|exact Hnumber].
Defined.

(** ** The order of the members *)



Ltac decoded :=
  repeat match goal with
         | H : dmap _ ?r = DOk _ _ |- _ =>
             let E := fresh "E" in
             destruct r eqn:E; cbn [dmap] in H; [|discriminate H..];
             injection H as <- ->
         | H : DOk _ None = DOk _ None |- _ => injection H as <-
         end.



Section MemberOrder.

Variable ReadFile : string -> string * option error.
Variable scan : string -> json + error.


End MemberOrder.

